(** * Input-device layer of arcan (src/platform/linux/event.c)

    A shallow embedding of the evdev input platform: the per-axis analog
    filter, the device registry with its lookup and registration paths, the
    capability-driven classification, the keyboard / mouse / game / hat
    decoders, device labels, key repeat and shutdown, followed by the
    properties established about them.

    C integers are modelled as [Z] with the conversions written out where the
    source converts ([wrap16] for assignments to an [int16_t]/[short],
    [wrap32] for [int32_t], [u16] for [uint16_t]/[unsigned short]).  Arrays
    are lists indexed with stdpp's lookup and insert; pointers into the
    registry are slot indices. *)

From Stdlib Require Import ZArith Lia Bool List String.
From stdpp Require Import base option list.
Import ListNotations.
Local Open Scope Z_scope.

(** ** Fixed-width integers *)

Definition wrap16 (x : Z) : Z := (x + 32768) mod 65536 - 32768.
Definition wrap32 (x : Z) : Z := (x + 2147483648) mod 4294967296 - 2147483648.
Definition u16 (x : Z) : Z := x mod 65536.
Definition u32 (x : Z) : Z := x mod 4294967296.

Definition int16 (x : Z) : Prop := -32768 <= x <= 32767.

(** ** Axis filter *)

(** The enumeration lives in arcan_event.h; only the four names used by
    event.c matter here. *)
Inductive ARCAN_ANALOGFILTER_KIND :=
| ARCAN_ANALOGFILTER_NONE
| ARCAN_ANALOGFILTER_PASS
| ARCAN_ANALOGFILTER_AVG
| ARCAN_ANALOGFILTER_ALAST.

Record axis_opts := mk_axis_opts {
  mode : ARCAN_ANALOGFILTER_KIND;
  oldmode : ARCAN_ANALOGFILTER_KIND;
  lower : Z;
  upper : Z;
  deadzone : Z;
  inlzone : bool;
  inuzone : bool;
  indzone : bool;
  kernel_sz : Z;
  kernel_ofs : Z;
  flt_kernel : list Z
}.

(** [sizeof(flt_kernel) / sizeof(flt_kernel[0])] *)
Definition kernel_lim : Z := 64.

Definition set_indzone (b : bool) (d : axis_opts) : axis_opts :=
  mk_axis_opts (mode d) (oldmode d) (lower d) (upper d) (deadzone d)
    (inlzone d) (inuzone d) b (kernel_sz d) (kernel_ofs d) (flt_kernel d).

Definition set_edgezone (l u : bool) (d : axis_opts) : axis_opts :=
  mk_axis_opts (mode d) (oldmode d) (lower d) (upper d) (deadzone d)
    l u (indzone d) (kernel_sz d) (kernel_ofs d) (flt_kernel d).

Definition set_kernel (ofs : Z) (k : list Z) (d : axis_opts) : axis_opts :=
  mk_axis_opts (mode d) (oldmode d) (lower d) (upper d) (deadzone d)
    (inlzone d) (inuzone d) (indzone d) (kernel_sz d) ofs k.

Definition set_mode (m : ARCAN_ANALOGFILTER_KIND) (d : axis_opts) : axis_opts :=
  mk_axis_opts m (oldmode d) (lower d) (upper d) (deadzone d)
    (inlzone d) (inuzone d) (indzone d) (kernel_sz d) (kernel_ofs d)
    (flt_kernel d).

(** "quickfilter deadzone": [None] is the [return false] of the source. *)
Definition quickfilter_deadzone (daxis : axis_opts) (samplev : Z)
  : option (axis_opts * Z) :=
  if Z.abs samplev <? deadzone daxis then
    if indzone daxis then None
    else Some (set_indzone true daxis, 0)
  else Some (set_indzone false daxis, samplev).

(** "quickfilter out controller edgenoise"; the bounds are [int] and the
    sample an [int16_t], hence the conversion when a bound is stored. *)
Definition quickfilter_edge (daxis : axis_opts) (samplev : Z)
  : option (axis_opts * Z) :=
  if samplev <? lower daxis then
    if inlzone daxis then None
    else Some (set_edgezone true false daxis, wrap16 (lower daxis))
  else if samplev >? upper daxis then
    if inuzone daxis then None
    else Some (set_edgezone false true daxis, wrap16 (upper daxis))
  else Some (set_edgezone false false daxis, samplev).

(** [for (i = 0; i < kernel_sz; i++) tot += flt_kernel[i]] on an [int32_t]. *)
Definition kernel_tot (k : list Z) (sz : Z) : Z :=
  fold_left (fun tot x => wrap32 (tot + x)) (take (Z.to_nat sz) k) 0.

(** The part of [process_axis] from the kernel store to [accept_sample].  A
    store outside the 64 entries is undefined in C; the list insert leaves
    the kernel as it is there. *)
Definition kernel_store (daxis : axis_opts) (samplev : Z)
  : axis_opts * option Z :=
  let k := <[Z.to_nat (kernel_ofs daxis) := samplev]> (flt_kernel daxis) in
  let ofs := kernel_ofs daxis + 1 in
  if ofs <? kernel_sz daxis then (set_kernel ofs k daxis, None)
  else
    let out :=
      if kernel_sz daxis >? 1 then
        match mode daxis with
        | ARCAN_ANALOGFILTER_ALAST =>
            wrap16 (nth (Z.to_nat (kernel_sz daxis - 1)) k 0)
        | _ =>
            let tot := kernel_tot k (kernel_sz daxis) in
            wrap16 (if tot =? 0 then 0 else Z.quot tot (kernel_sz daxis))
        end
      else samplev in
    (set_kernel 0 k daxis, Some out).

(** The rest of [process_axis] after the deadzone check: edge clamp, then
    the kernel. *)
Definition edge_and_kernel (daxis : axis_opts) (samplev : Z)
  : axis_opts * option Z :=
  match quickfilter_edge daxis samplev with
  | None => (daxis, None)
  | Some (d2, s2) => kernel_store d2 s2
  end.

(** [process_axis]: the returned option is [Some outv] when the source
    returns true with [*outv] written, [None] when it returns false. *)
Definition process_axis (daxis : axis_opts) (samplev : Z)
  : axis_opts * option Z :=
  match mode daxis with
  | ARCAN_ANALOGFILTER_NONE => (daxis, None)
  | ARCAN_ANALOGFILTER_PASS => (daxis, Some samplev)
  | _ =>
      match quickfilter_deadzone daxis samplev with
      | None => (daxis, None)
      | Some (d1, s1) => edge_and_kernel d1 s1
      end
  end.

Definition set_analogstate (dst : axis_opts)
  (lower_bound upper_bound deadzone_ kernel_size : Z)
  (mode_ : ARCAN_ANALOGFILTER_KIND) : axis_opts :=
  mk_axis_opts mode_ (oldmode dst) lower_bound upper_bound deadzone_
    (inlzone dst) (inuzone dst) (indzone dst) kernel_size 0 (flt_kernel dst).

(** The body of [platform_event_analogfilter] once the axis is found. *)
Definition analogfilter_axis (axis : axis_opts)
  (lower_bound upper_bound deadzone_ buffer_sz : Z)
  (kind : ARCAN_ANALOGFILTER_KIND) : axis_opts :=
  let buffer_sz := if buffer_sz >? kernel_lim then kernel_lim else buffer_sz in
  let buffer_sz := if buffer_sz <=? 0 then 1 else buffer_sz in
  set_analogstate axis lower_bound upper_bound deadzone_ buffer_sz kind.

(** Feeding a sequence of samples to one filter. *)
Fixpoint feed (d : axis_opts) (samples : list Z) : axis_opts * list (option Z) :=
  match samples with
  | [] => (d, [])
  | s :: rest =>
      let r := process_axis d s in
      let r' := feed (fst r) rest in
      (fst r', snd r :: snd r')
  end.

(** The value that the deadzone and edge stages let through to the kernel. *)
Definition accepted_sample (d : axis_opts) (s : Z) : option Z :=
  match mode d with
  | ARCAN_ANALOGFILTER_NONE | ARCAN_ANALOGFILTER_PASS => None
  | _ =>
      match quickfilter_deadzone d s with
      | None => None
      | Some (d1, s1) =>
          match quickfilter_edge d1 s1 with
          | None => None
          | Some (_, s2) => Some s2
          end
      end
  end.

Fixpoint accepted_values (d : axis_opts) (samples : list Z) : list Z :=
  match samples with
  | [] => []
  | s :: rest =>
      let d' := fst (process_axis d s) in
      match accepted_sample d s with
      | Some v => v :: accepted_values d' rest
      | None => accepted_values d' rest
      end
  end.

Definition sumZ (l : list Z) : Z := fold_right Z.add 0 l.


(** ** Constants of linux/input.h used by event.c *)

Definition EV_SYN : Z := 0.
Definition EV_KEY : Z := 1.
Definition EV_REL : Z := 2.
Definition EV_ABS : Z := 3.
Definition EV_MAX : Z := 31.
Definition KEY_MAX : Z := 767.
Definition ABS_MAX : Z := 63.
Definition REL_X : Z := 0.
Definition REL_Y : Z := 1.
Definition BTN_MOUSE : Z := 272.
Definition BTN_LEFT : Z := 272.
Definition BTN_RIGHT : Z := 273.
Definition BTN_MIDDLE : Z := 274.
Definition BTN_JOYSTICK : Z := 288.
Definition BTN_GAMEPAD : Z := 304.
Definition BTN_WHEEL : Z := 336.
Definition ABS_HAT0X : Z := 16.
Definition ABS_HAT3Y : Z := 23.
Definition POLLIN : Z := 1.
(** [sizeof(struct input_event)] on a 64-bit kernel ABI. *)
Definition sizeof_input_event : Z := 24.

Definition MAX_DEVICES : Z := 256.

(** ** Device nodes *)

Inductive devnode_type :=
| DEVNODE_SENSOR
| DEVNODE_GAME
| DEVNODE_MOUSE
| DEVNODE_TOUCH
| DEVNODE_KEYBOARD.

(** The decoders a node can be bound to (function pointers in the source). *)
Inductive handler :=
| defhandler_kbd_cb
| defhandler_game_cb
| defhandler_mouse_cb
| defhandler_null_cb.

(** [struct evhandler] is declared in device_db.h; these are the members
    event.c reads. *)
Record evhandler := mk_evhandler {
  eh_type : devnode_type;
  eh_handler : option handler;
  button_mask : Z;
  axis_mask : Z;
  digital_hat : bool
}.

(** What the headers that are not part of these sources fix: the enumerators
    whose value is 0 (the content of zero-filled memory), the default decoder
    table, and the keycode tables and key / modifier constants of
    keycode_xlate.h and arcan_event.h. *)
Class Headers := {
  zero_kind : ARCAN_ANALOGFILTER_KIND;
  zero_type : devnode_type;
  defhandlers : devnode_type -> option handler;
  klut : Z -> Z;
  lookup_keycode : Z -> Z;
  lookup_character : Z -> Z -> Z;
  K_LSHIFT : Z;
  K_RSHIFT : Z;
  K_LCTRL : Z;
  K_RCTRL : Z;
  K_CAPSLOCK : Z;
  ARKMOD_LSHIFT : Z;
  ARKMOD_RSHIFT : Z;
  ARKMOD_LCTRL : Z;
  ARKMOD_RCTRL : Z;
  ARKMOD_CAPS : Z
}.

(** [struct arcan_devnode].  The class sub-states share storage in the source
    (an anonymous union): on a 64-bit ABI [game.axes] lies on [cursor.mx],
    [keyboard.state] and [sensor.data.mode], and [game.adata] on the zone
    flags and the kernel size of [cursor.flt[0]] and on the kernel size and
    offset of [sensor.data].  Here every member has its
    own field, and only the member selected by [type] is read by the code
    that follows.  The fields of that member are those of the source as long
    as no other member was written before: [map_axes] writes [game.axes] and
    [game.adata] while the node is still a game node, so for a node of
    another class the fields stand for the source only when [map_axes]
    allocated no filter table for the device ([game_adata] is [None], all
    shared bytes are 0).  The fields of the members that [type] does not
    select are not the bytes of the source.  [game_adata] is [None] for a
    NULL pointer. *)
Record arcan_devnode := mk_devnode {
  handle : Z;
  hnd : evhandler;
  label : string;
  devnum : Z;
  button_count_ : Z;
  type : devnode_type;
  sensor_data : axis_opts;
  game_axes : Z;
  game_buttons : Z;
  game_hats : list Z;
  game_adata : option (list axis_opts);
  cursor_mx : Z;
  cursor_my : Z;
  cursor_flt0 : axis_opts;
  cursor_flt1 : axis_opts;
  keyboard_state : Z;
  touch_incomplete : bool
}.

Definition set_handle (h : Z) (n : arcan_devnode) : arcan_devnode :=
  mk_devnode h (hnd n) (label n) (devnum n) (button_count_ n) (type n)
    (sensor_data n) (game_axes n) (game_buttons n) (game_hats n)
    (game_adata n) (cursor_mx n) (cursor_my n) (cursor_flt0 n)
    (cursor_flt1 n) (keyboard_state n) (touch_incomplete n).

Definition set_hnd (h : evhandler) (n : arcan_devnode) : arcan_devnode :=
  mk_devnode (handle n) h (label n) (devnum n) (button_count_ n) (type n)
    (sensor_data n) (game_axes n) (game_buttons n) (game_hats n)
    (game_adata n) (cursor_mx n) (cursor_my n) (cursor_flt0 n)
    (cursor_flt1 n) (keyboard_state n) (touch_incomplete n).

Definition set_type (t : devnode_type) (n : arcan_devnode) : arcan_devnode :=
  mk_devnode (handle n) (hnd n) (label n) (devnum n) (button_count_ n) t
    (sensor_data n) (game_axes n) (game_buttons n) (game_hats n)
    (game_adata n) (cursor_mx n) (cursor_my n) (cursor_flt0 n)
    (cursor_flt1 n) (keyboard_state n) (touch_incomplete n).

Definition set_handler (cb : option handler) (h : evhandler) : evhandler :=
  mk_evhandler (eh_type h) cb (button_mask h) (axis_mask h) (digital_hat h).

Definition set_button_count (c : Z) (n : arcan_devnode) : arcan_devnode :=
  mk_devnode (handle n) (hnd n) (label n) (devnum n) c (type n)
    (sensor_data n) (game_axes n) (game_buttons n) (game_hats n)
    (game_adata n) (cursor_mx n) (cursor_my n) (cursor_flt0 n)
    (cursor_flt1 n) (keyboard_state n) (touch_incomplete n).

Definition set_sensor_data (a : axis_opts) (n : arcan_devnode) : arcan_devnode :=
  mk_devnode (handle n) (hnd n) (label n) (devnum n) (button_count_ n) (type n)
    a (game_axes n) (game_buttons n) (game_hats n)
    (game_adata n) (cursor_mx n) (cursor_my n) (cursor_flt0 n)
    (cursor_flt1 n) (keyboard_state n) (touch_incomplete n).

Definition set_game_axes (ax : Z) (ad : option (list axis_opts))
  (n : arcan_devnode) : arcan_devnode :=
  mk_devnode (handle n) (hnd n) (label n) (devnum n) (button_count_ n) (type n)
    (sensor_data n) ax (game_buttons n) (game_hats n)
    ad (cursor_mx n) (cursor_my n) (cursor_flt0 n)
    (cursor_flt1 n) (keyboard_state n) (touch_incomplete n).

Definition set_game_hats (h : list Z) (n : arcan_devnode) : arcan_devnode :=
  mk_devnode (handle n) (hnd n) (label n) (devnum n) (button_count_ n) (type n)
    (sensor_data n) (game_axes n) (game_buttons n) h
    (game_adata n) (cursor_mx n) (cursor_my n) (cursor_flt0 n)
    (cursor_flt1 n) (keyboard_state n) (touch_incomplete n).

Definition set_cursor_x (mx : Z) (f : axis_opts) (n : arcan_devnode)
  : arcan_devnode :=
  mk_devnode (handle n) (hnd n) (label n) (devnum n) (button_count_ n) (type n)
    (sensor_data n) (game_axes n) (game_buttons n) (game_hats n)
    (game_adata n) mx (cursor_my n) f
    (cursor_flt1 n) (keyboard_state n) (touch_incomplete n).

Definition set_cursor_y (my : Z) (f : axis_opts) (n : arcan_devnode)
  : arcan_devnode :=
  mk_devnode (handle n) (hnd n) (label n) (devnum n) (button_count_ n) (type n)
    (sensor_data n) (game_axes n) (game_buttons n) (game_hats n)
    (game_adata n) (cursor_mx n) my (cursor_flt0 n)
    f (keyboard_state n) (touch_incomplete n).

Definition set_keyboard_state (s : Z) (n : arcan_devnode) : arcan_devnode :=
  mk_devnode (handle n) (hnd n) (label n) (devnum n) (button_count_ n) (type n)
    (sensor_data n) (game_axes n) (game_buttons n) (game_hats n)
    (game_adata n) (cursor_mx n) (cursor_my n) (cursor_flt0 n)
    (cursor_flt1 n) s (touch_incomplete n).

Record pollfd := mk_pollfd { pfd : Z; events : Z; revents : Z }.

(** The process-wide [iodev]. *)
Record iodev_t := mk_iodev {
  n_devs : Z;
  sz_nodes : Z;
  period : Z;
  delay : Z;
  mouseid : Z;
  nodes : list arcan_devnode;
  pollset : list pollfd
}.

(** An [axis_opts] of zero bytes. *)
Definition axis_zero `{Headers} : axis_opts :=
  mk_axis_opts zero_kind zero_kind 0 0 0 false false false 0 0
    (replicate 64 0).

Definition evhandler_zero `{Headers} : evhandler :=
  mk_evhandler zero_type None 0 0 false.

(** A [struct arcan_devnode] of zero bytes. *)
Definition devnode_zero `{Headers} : arcan_devnode :=
  mk_devnode 0 evhandler_zero EmptyString 0 0 zero_type axis_zero
    0 0 (replicate 16 0) None 0 0 axis_zero axis_zero 0 false.

Definition pollfd_zero : pollfd := mk_pollfd 0 0 0.

(** [iodev = {0}] *)
Definition iodev_init : iodev_t := mk_iodev 0 0 0 0 0 [] [].

(** ** Lookup and per-axis accessors *)

(** First slot below [n] whose [devnum] is [devid] (the linear sweep of
    [lookup_devnode]). *)
Fixpoint sweep_devnum (l : list arcan_devnode) (i : nat) (n : nat) (devid : Z)
  : option nat :=
  match n, l with
  | S n', x :: rest =>
      if devnum x =? devid then Some i else sweep_devnum rest (S i) n' devid
  | _, _ => None
  end.

(** [lookup_devnode]: the slot index stands for the returned pointer.  The
    direct path hands out [&nodes[devid]] without looking at [sz_nodes]. *)
Definition lookup_devnode (io : iodev_t) (devid : Z) : option nat :=
  let devid := if devid <? 0 then mouseid io else devid in
  if devid <? n_devs io then Some (Z.to_nat devid)
  else sweep_devnum (nodes io) 0 (Z.to_nat (n_devs io)) devid.

(** Where an [axis_opts*] handed out by [find_axis] points to. *)
Inductive axis_ref :=
| AxSensor (slot : nat)
| AxGame (slot : nat) (axis : nat)
| AxCursor (slot : nat) (second : bool).

(** The [switch] of [find_axis] on a node; [axisid] is the unsigned value. *)
Definition node_axis (slot : nat) (node : arcan_devnode) (axisid : Z)
  : option axis_ref :=
  match type node with
  | DEVNODE_SENSOR => if axisid =? 0 then Some (AxSensor slot) else None
  | DEVNODE_GAME =>
      if axisid <? game_axes node then Some (AxGame slot (Z.to_nat axisid))
      else None
  | DEVNODE_MOUSE =>
      if axisid =? 0 then Some (AxCursor slot false)
      else if axisid =? 1 then Some (AxCursor slot true)
      else None
  | _ => None
  end.

(** [find_axis]: the axis found and the value stored through [outn].  A slot
    index past the table has no node to read; the source would read past the
    allocation there. *)
Definition find_axis (io : iodev_t) (devid : Z) (axisid : Z)
  : option axis_ref * bool :=
  match lookup_devnode io devid with
  | None => (None, false)
  | Some slot =>
      match nodes io !! slot with
      | None => (None, true)
      | Some node => (node_axis slot node (u32 axisid), true)
      end
  end.

Definition get_axis (io : iodev_t) (r : axis_ref) : option axis_opts :=
  match r with
  | AxSensor slot => sensor_data <$> nodes io !! slot
  | AxGame slot i =>
      match nodes io !! slot with
      | Some node =>
          match game_adata node with
          | Some ad => ad !! i
          | None => None
          end
      | None => None
      end
  | AxCursor slot second =>
      (if second then cursor_flt1 else cursor_flt0) <$> nodes io !! slot
  end.

(** The store through an [axis_opts*] of [find_axis].  The member that the
    class of the node selects is written; the fields of the other members
    are left as they are here, while in the source the bytes they share with
    the written filter change. *)
Definition put_node_axis (r : axis_ref) (a : axis_opts) (node : arcan_devnode)
  : arcan_devnode :=
  match r with
  | AxSensor _ => set_sensor_data a node
  | AxGame _ i =>
      set_game_axes (game_axes node) (<[i := a]> <$> game_adata node) node
  | AxCursor _ false => set_cursor_x (cursor_mx node) a node
  | AxCursor _ true => set_cursor_y (cursor_my node) a node
  end.

Definition ref_slot (r : axis_ref) : nat :=
  match r with AxSensor s | AxGame s _ | AxCursor s _ => s end.

Definition set_nodes (l : list arcan_devnode) (io : iodev_t) : iodev_t :=
  mk_iodev (n_devs io) (sz_nodes io) (period io) (delay io) (mouseid io)
    l (pollset io).

Definition put_axis (io : iodev_t) (r : axis_ref) (a : axis_opts) : iodev_t :=
  set_nodes (alter (put_node_axis r a) (ref_slot r) (nodes io)) io.

Inductive arcan_errc :=
| ARCAN_OK
| ARCAN_ERRC_BAD_RESOURCE
| ARCAN_ERRC_NO_SUCH_OBJECT.

(** The five out-parameters of [platform_event_analogstate]. *)
Record analog_out := mk_analog_out {
  o_lower_bound : Z;
  o_upper_bound : Z;
  o_deadzone : Z;
  o_kernel_size : Z;
  o_mode : ARCAN_ANALOGFILTER_KIND
}.

(** [platform_event_analogstate]: [out] holds what the five pointers refer to
    before the call, the result what they refer to after it. *)
Definition platform_event_analogstate (io : iodev_t) (devid axisid : Z)
  (out : analog_out) : arcan_errc * analog_out :=
  let '(axis, gotnode) := find_axis io devid axisid in
  match axis ≫= get_axis io with
  | None =>
      (if gotnode then ARCAN_ERRC_BAD_RESOURCE else ARCAN_ERRC_NO_SUCH_OBJECT,
       out)
  | Some axis =>
      (ARCAN_OK,
       mk_analog_out (lower axis) (upper axis) (deadzone axis)
         (kernel_sz axis) (mode axis))
  end.

Definition platform_event_analogfilter (io : iodev_t) (devid axisid : Z)
  (lower_bound upper_bound deadzone_ buffer_sz : Z)
  (kind : ARCAN_ANALOGFILTER_KIND) : iodev_t :=
  match fst (find_axis io devid axisid) with
  | None => io
  | Some r =>
      match get_axis io r with
      | None => io
      | Some axis =>
          put_axis io r
            (analogfilter_axis axis lower_bound upper_bound deadzone_
               buffer_sz kind)
      end
  end.

(** ** Identification, capability probing and registration *)

(** What the kernel answers for one opened device node.
    - [pr_fstat]: [None] when [fstat] fails, else whether
      [st_mode & (S_IFCHR | S_IFBLK)] is non-zero;
    - [pr_name]: the EVIOCGNAME answer, [None] when the ioctl fails;
    - [pr_hash]: [None] when EVIOCGID fails, else the value of [hash] after
      the mixing loops of [identify] (over the UNIQ buffer, or the label, the
      path and the id fields);
    - [pr_handler]: the entry [lookup_dev_handler] returns for the label;
    - [pr_evbit n]: the words of EVIOCGBIT(n, ..), [None] when it fails;
    - [pr_absinfo i]: (minimum, maximum) of EVIOCGABS(i);
    - [pr_realloc_nodes], [pr_realloc_poll]: whether the two [realloc]
      calls of a table growth succeed. *)
Record devprobe := mk_devprobe {
  pr_fstat : option bool;
  pr_name : option string;
  pr_hash : option Z;
  pr_handler : evhandler;
  pr_evbit : Z -> option (list Z);
  pr_absinfo : Z -> option (Z * Z);
  pr_realloc_nodes : bool;
  pr_realloc_poll : bool
}.

(** [identify]: label and [devnum]; the fold of the hash into the 16-bit id
    space above the dense index range. *)
Definition identify (pr : devprobe) : option (string * Z) :=
  let label := default "unknown"%string (pr_name pr) in
  match pr_hash pr with
  | None => None
  | Some hash =>
      let devnum := u16 hash in
      let devnum :=
        if devnum <? MAX_DEVICES then u16 (devnum + MAX_DEVICES) else devnum in
      Some (label, devnum)
  end.

(** [bit_isset(ary, bit)] over 64-bit words. *)
Definition bit_isset (ary : list Z) (bit : Z) : bool :=
  Z.land (Z.shiftr (nth (Z.to_nat (bit / 64)) ary 0) (bit mod 64)) 1 =? 1.

(** Number of [i] in [0, n) with [bit_isset bits i]. *)
Definition count_bits (bits : list Z) (n : Z) : Z :=
  fold_left (fun c i => if bit_isset bits i then c + 1 else c) (seqZ 0 n) 0.

(** [button_count]: the count and the values of [*got_mouse], [*got_joy]
    after the call (left as they were when the ioctl fails). *)
Definition button_count (pr : devprobe) (bitn : Z) (got_mouse got_joy : bool)
  : Z * bool * bool :=
  match pr_evbit pr bitn with
  | None => (0, got_mouse, got_joy)
  | Some bits =>
      (count_bits bits KEY_MAX,
       bit_isset bits BTN_MOUSE || bit_isset bits BTN_LEFT ||
       bit_isset bits BTN_RIGHT || bit_isset bits BTN_MIDDLE,
       bit_isset bits BTN_JOYSTICK || bit_isset bits BTN_GAMEPAD ||
       bit_isset bits BTN_WHEEL)
  end.

Definition check_mouse_axis (pr : devprobe) (bitn : Z) : bool :=
  match pr_evbit pr bitn with
  | None => false
  | Some bits => bit_isset bits REL_X && bit_isset bits REL_Y
  end.

(** One filter of [map_axes]: zero-filled, averaging, the signed 16-bit range
    unless EVIOCGABS reports one. *)
Definition map_axis (pr : devprobe) (i : Z) : axis_opts :=
  let ax :=
    mk_axis_opts ARCAN_ANALOGFILTER_AVG ARCAN_ANALOGFILTER_AVG (-32768) 32767
      0 false false false 0 0 (replicate 64 0) in
  match pr_absinfo pr i with
  | None => ax
  | Some (minimum, maximum) =>
      mk_axis_opts (mode ax) (oldmode ax) minimum maximum (deadzone ax)
        (inlzone ax) (inuzone ax) (indzone ax) (kernel_sz ax) (kernel_ofs ax)
        (flt_kernel ax)
  end.

(** [map_axes] (its assertions are left out). *)
Definition map_axes (pr : devprobe) (bitn : Z) (node : arcan_devnode)
  : arcan_devnode :=
  match pr_evbit pr bitn with
  | None => node
  | Some bits =>
      match game_adata node with
      | Some _ => node
      | None =>
          let axes := count_bits bits ABS_MAX in
          if axes =? 0 then set_game_axes 0 None node
          else
            set_game_axes axes
              (Some (map (map_axis pr)
                       (filter (fun i => bit_isset bits i = true)
                          (seqZ 0 ABS_MAX))))
              node
      end
  end.

(** The locals of [got_device] that the capability sweep updates. *)
Record probe_state := mk_probe_state {
  ps_node : arcan_devnode;
  ps_mouse_ax : bool;
  ps_mouse_btn : bool;
  ps_joystick_btn : bool
}.

(** The [switch (bit)] inside the sweep over the event-type bits. *)
Definition probe_bit (pr : devprobe) (st : probe_state) (bit : Z)
  : probe_state :=
  if bit =? EV_KEY then
    let '(c, gm, gj) :=
      button_count pr bit (ps_mouse_btn st) (ps_joystick_btn st) in
    mk_probe_state (set_button_count c (ps_node st)) (ps_mouse_ax st) gm gj
  else if bit =? EV_REL then
    mk_probe_state (ps_node st) (check_mouse_axis pr bit) (ps_mouse_btn st)
      (ps_joystick_btn st)
  else if bit =? EV_ABS then
    mk_probe_state (map_axes pr bit (ps_node st)) (ps_mouse_ax st)
      (ps_mouse_btn st) (ps_joystick_btn st)
  else st.

(** [for (bit = 0; bit < EV_MAX; bit++) if (1ul & prop[..] >> ..) switch ..] *)
Definition probe_caps (pr : devprobe) (prop : list Z)
  (st : probe_state) : probe_state :=
  fold_left
    (fun st bit => if bit_isset prop bit then probe_bit pr st bit else st)
    (seqZ 0 EV_MAX) st.

Definition set_mouseid (m : Z) (io : iodev_t) : iodev_t :=
  mk_iodev (n_devs io) (sz_nodes io) (period io) (delay io) m
    (nodes io) (pollset io).

(** The classification decision of [got_device] (from the handler lookup
    result to the end of the [if (!eh.handler)] statement); the registry is
    touched only through [mouseid].  The KDKBDREP ioctl issued for a
    keyboard leaves no trace in this state. *)
Definition classify `{Headers} (io : iodev_t) (eh : evhandler)
  (st : probe_state) : iodev_t * arcan_devnode :=
  let node := ps_node st in
  match eh_handler eh with
  | None =>
      let '(io, node) :=
        if ps_mouse_ax st && ps_mouse_btn st then
          let node := set_type DEVNODE_MOUSE node in
          let node :=
            set_cursor_x (cursor_mx node)
              (set_mode ARCAN_ANALOGFILTER_PASS (cursor_flt0 node)) node in
          let node :=
            set_cursor_y (cursor_my node)
              (set_mode ARCAN_ANALOGFILTER_PASS (cursor_flt1 node)) node in
          (if mouseid io =? 0 then set_mouseid (devnum node) io else io, node)
        else if negb (ps_mouse_btn st) && negb (ps_joystick_btn st) &&
                (button_count_ node >? 84)
        then (io, set_type DEVNODE_KEYBOARD node)
        else (io, node) in
      (io, set_hnd (set_handler (defhandlers (type node)) (hnd node)) node)
  | Some _ => (io, set_type (eh_type eh) (set_hnd eh node))
  end.

(** The node [got_device] starts from: [{ .handle = fd }] with the label and
    [devnum] of [identify] and the initial [DEVNODE_GAME]. *)
Definition fresh_node `{Headers} (fd : Z) (label : string) (devnum : Z)
  : arcan_devnode :=
  mk_devnode fd evhandler_zero label devnum 0 DEVNODE_GAME axis_zero
    0 0 (replicate 16 0) None 0 0 axis_zero axis_zero 0 false.

(** Outcome of the sweep over the slots at the end of [got_device]: the slot
    whose [devnum] matched, or the first hole seen. *)
Inductive sweep_result :=
| SlotMatch (i : nat)
| SlotHole (hole : option nat).

Fixpoint sweep_slots (l : list arcan_devnode) (i : nat) (hole : option nat)
  (dnum : Z) : sweep_result :=
  match l with
  | [] => SlotHole hole
  | x :: rest =>
      match hole with
      | None =>
          if handle x <=? 0 then sweep_slots rest (S i) (Some i) dnum
          else if devnum x =? dnum then SlotMatch i
          else sweep_slots rest (S i) hole dnum
      | Some _ =>
          if devnum x =? dnum then SlotMatch i
          else sweep_slots rest (S i) hole dnum
      end
  end.

Definition set_pollset (p : list pollfd) (io : iodev_t) : iodev_t :=
  mk_iodev (n_devs io) (sz_nodes io) (period io) (delay io) (mouseid io)
    (nodes io) p.

Definition poll_arm (fd : Z) (p : pollfd) : pollfd :=
  mk_pollfd fd POLLIN (revents p).

(** The tail of [got_device] from "pre-existing?" on.  The result is the
    registry and the descriptors passed to [close], in order. *)
Definition register_node `{Headers} (io : iodev_t) (pr : devprobe)
  (node : arcan_devnode) : iodev_t * list Z :=
  let fd := handle node in
  match sweep_slots (take (Z.to_nat (sz_nodes io)) (nodes io)) 0 None
          (devnum node) with
  | SlotMatch i =>
      let old := default 0 (handle <$> nodes io !! i) in
      (set_pollset (alter (poll_arm fd) i (pollset io))
         (set_nodes (alter (set_handle fd) i (nodes io)) io),
       if old >? 0 then [old] else [])
  | SlotHole (Some hole) =>
      (mk_iodev (n_devs io + 1) (sz_nodes io) (period io) (delay io)
         (mouseid io) (<[hole := node]> (nodes io))
         (alter (poll_arm fd) hole (pollset io)),
       [])
  | SlotHole None =>
      let new_sz := sz_nodes io + 8 in
      let keep := Z.to_nat (sz_nodes io) in
      let hole := keep in
      if negb (pr_realloc_nodes pr) then (io, [fd])
      else
        let nn := take keep (nodes io) ++ replicate 8 devnode_zero in
        if negb (pr_realloc_poll pr) then (set_nodes nn io, [fd])
        else
          let np := take keep (pollset io) ++ replicate 8 pollfd_zero in
          (mk_iodev (n_devs io + 1) new_sz (period io) (delay io) (mouseid io)
             (<[hole := node]> nn) (alter (poll_arm fd) hole np),
           [])
  end.

(** [got_device].  The branch on [n_devs >= MAX_DEVICES] closes the
    descriptor and, having no [return], falls through to the probing. *)
Definition got_device `{Headers} (io : iodev_t) (fd : Z) (pr : devprobe)
  : iodev_t * list Z :=
  match pr_fstat pr with
  | None | Some false => (io, [])
  | Some true =>
      match identify pr with
      | None => (io, [fd])
      | Some (label, devnum) =>
          let limit := if n_devs io >=? MAX_DEVICES then [fd] else [] in
          match pr_evbit pr 0 with
          | None => (io, limit ++ [fd])
          | Some prop =>
              let st :=
                probe_caps pr prop
                  (mk_probe_state (fresh_node fd label devnum)
                     false false false) in
              let '(io, node) := classify io (pr_handler pr) st in
              let '(io, closed) := register_node io pr node in
              (io, limit ++ closed)
          end
      end
  end.

(** [disconnect] of the node in slot [slot]: the first slot below [n_devs]
    with its [devnum] gets its poll entry cleared, the handle of the node is
    closed and set to 0 (its other members stay), and the count drops only
    when that slot is the last counted one. *)
Definition disconnect (io : iodev_t) (slot : nat) : iodev_t * list Z :=
  match nodes io !! slot with
  | None => (io, [])
  | Some node =>
      match sweep_devnum (nodes io) 0 (Z.to_nat (n_devs io)) (devnum node) with
      | None => (io, [])
      | Some i =>
          (mk_iodev
             (if Z.of_nat i =? n_devs io - 1 then n_devs io - 1 else n_devs io)
             (sz_nodes io) (period io) (delay io) (mouseid io)
             (alter (set_handle 0) slot (nodes io))
             (alter (fun p => mk_pollfd 0 0 (revents p)) i (pollset io)),
           [handle node])
      end
  end.

(** ** Decoders *)

(** [struct input_event] without its timestamp. *)
Record input_event := mk_input_event {
  ie_type : Z;
  ie_code : Z;
  ie_value : Z
}.

(** The events handed to [arcan_event_enqueue], by data type.  The members
    hold the values the source assigns; the widths of the members belong to
    arcan_event.h. *)
Inductive arcan_event :=
| ev_translated (devid scancode keysym modifiers subid : Z) (active : bool)
| ev_digital (devid subid : Z) (active : bool)
| ev_analog (devid subid : Z) (gotrel : bool) (axisval0 axisval1 nvalues : Z).

(** What a decoder leaves behind: the node was disconnected (the read
    returned -1), or the node state and the events enqueued, in order. *)
Inductive decoded :=
| Disconnect
| Decoded (node : arcan_devnode) (evs : list arcan_event).

(** The records a decoder walks over: [evs / sizeof(struct input_event)] of
    the buffer filled by [read]. *)
Definition records (evs : Z) (inev : list input_event) : list input_event :=
  take (Z.to_nat (evs / sizeof_input_event)) inev.

(** The [switch (klut[code])] of [update_state]: the modifier of a key, or
    [None] for the [default: return]. *)
Definition modifier_of `{Headers} (code : Z) : option Z :=
  let k := klut code in
  if k =? K_LSHIFT then Some ARKMOD_LSHIFT
  else if k =? K_RSHIFT then Some ARKMOD_RSHIFT
  else if k =? K_LCTRL then Some ARKMOD_LCTRL
  else if k =? K_RCTRL then Some ARKMOD_RCTRL
  else if k =? K_CAPSLOCK then Some ARKMOD_CAPS
  else None.

(** [update_state] on the [unsigned] modifier state: [1 << modifier] set on
    a press, cleared on a release.  The shift is taken in [Z] and the result
    cut to 32 bits; C leaves a shift by 31 or more undefined. *)
Definition update_state `{Headers} (code : Z) (state : bool) (statev : Z) : Z :=
  match modifier_of code with
  | None => statev
  | Some modifier =>
      if state then u32 (Z.lor statev (Z.shiftl 1 modifier))
      else u32 (Z.land statev (Z.lnot (Z.shiftl 1 modifier)))
  end.

(** The body of the record loop of [defhandler_kbd]. *)
Definition kbd_record `{Headers} (node : arcan_devnode) (r : input_event)
  : arcan_devnode * list arcan_event :=
  if ie_type r =? EV_KEY then
    let state :=
      update_state (ie_code r) (negb (ie_value r =? 0)) (keyboard_state node) in
    let node := set_keyboard_state state node in
    let newev :=
      ev_translated (devnum node) (ie_code r) (lookup_keycode (ie_code r))
        state (lookup_character (ie_code r) state) in
    if ie_value r =? 2 then (node, [newev false; newev true])
    else (node, [newev (negb (ie_value r =? 0))])
  else (node, []).

(** Running a record loop: the node state is threaded, the events appended. *)
Fixpoint decode_loop (body : arcan_devnode -> input_event ->
                             arcan_devnode * list arcan_event)
  (node : arcan_devnode) (rs : list input_event)
  : arcan_devnode * list arcan_event :=
  match rs with
  | [] => (node, [])
  | r :: rest =>
      let '(node1, e1) := body node r in
      let '(node2, e2) := decode_loop body node1 rest in
      (node2, e1 ++ e2)
  end.

(** [defhandler_kbd]; [evs] is the value returned by [read] and [inev] the
    buffer it filled. *)
Definition defhandler_kbd `{Headers} (node : arcan_devnode) (evs : Z)
  (inev : list input_event) : decoded :=
  if evs =? -1 then Disconnect
  else if (evs <? 0) || (evs <? sizeof_input_event) then Decoded node []
  else
    let '(node, out) := decode_loop kbd_record node (records evs inev) in
    Decoded node out.

(** [decode_hat]: [hats] is a [char] array, an entry is 0 or the clamped
    value stored last. *)
Definition decode_hat (node : arcan_devnode) (ind val : Z)
  : arcan_devnode * list arcan_event :=
  let ind := ind * 2 in
  let base := 64 in
  let digital subid active := ev_digital (devnum node) subid active in
  if (val <? 0) || (val >? 0) then
    let val := if val <? 0 then -1 else 1 in
    let ind := if val >? 0 then ind + 1 else ind in
    (set_game_hats (<[Z.to_nat ind := val]> (game_hats node)) node,
     [digital (base + ind) true])
  else
    let hats := game_hats node in
    let '(hats, e0) :=
      if nth (Z.to_nat ind) hats 0 =? 0 then (hats, [])
      else (<[Z.to_nat ind := 0]> hats, [digital (base + ind) false]) in
    let '(hats, e1) :=
      if nth (Z.to_nat (ind + 1)) hats 0 =? 0 then (hats, [])
      else (<[Z.to_nat (ind + 1) := 0]> hats,
            [digital (base + ind + 1) false]) in
    (set_game_hats hats node, e0 ++ e1).

Definition code_to_mouse (code : Z) : Z :=
  if (code <? BTN_MOUSE) || (code >=? BTN_JOYSTICK) then -1
  else code - BTN_MOUSE + 1.

(** The body of the record loop of [defhandler_mouse].  [samplev] is a
    [short]; the position counters are [uint16_t]; a button is active when
    its record value is not 0. *)
Definition mouse_record (node : arcan_devnode) (r : input_event)
  : arcan_devnode * list arcan_event :=
  if ie_type r =? EV_KEY then
    let samplev := code_to_mouse (ie_code r) in
    if samplev <? 0 then (node, [])
    else (node, [ev_digital (devnum node) samplev (negb (ie_value r =? 0))])
  else if ie_type r =? EV_REL then
    if ie_code r =? REL_X then
      match process_axis (cursor_flt0 node) (wrap16 (ie_value r)) with
      | (flt, None) => (set_cursor_x (cursor_mx node) flt node, [])
      | (flt, Some _) =>
          let samplev := wrap16 (ie_value r) in
          let mx :=
            u16 (if cursor_mx node + samplev <? 0 then 0
                 else cursor_mx node + samplev) in
          (set_cursor_x mx flt node,
           [ev_analog (devnum node) 0 true mx samplev 2])
      end
    else if ie_code r =? REL_Y then
      match process_axis (cursor_flt1 node) (wrap16 (ie_value r)) with
      | (flt, None) => (set_cursor_y (cursor_my node) flt node, [])
      | (flt, Some samplev) =>
          let my :=
            u16 (if cursor_my node + samplev <? 0 then 0
                 else cursor_my node + samplev) in
          (set_cursor_y my flt node,
           [ev_analog (devnum node) 1 true my samplev 2])
      end
    else (node, [])
  else (node, []).

Definition defhandler_mouse (node : arcan_devnode) (evs : Z)
  (inev : list input_event) : decoded :=
  if evs =? -1 then Disconnect
  else if (evs <? 0) || (evs <? sizeof_input_event) then Decoded node []
  else
    let '(node, out) := decode_loop mouse_record node (records evs inev) in
    Decoded node out.

(** ** Invariants used in the proofs *)

(** The fields of a filter that the deadzone and edge stages leave alone. *)
Definition same_kernel (d d' : axis_opts) : Prop :=
  mode d' = mode d /\ kernel_sz d' = kernel_sz d /\
  kernel_ofs d' = kernel_ofs d /\ flt_kernel d' = flt_kernel d /\
  lower d' = lower d /\ upper d' = upper d /\ deadzone d' = deadzone d.


(** ** Concrete inputs used by the examples *)

(** A zero-filled averaging filter with the signed 16-bit range, as
    [map_axes] creates it. *)
Definition axis_fresh : axis_opts :=
  mk_axis_opts ARCAN_ANALOGFILTER_AVG ARCAN_ANALOGFILTER_AVG (-32768) 32767
    0 false false false 0 0 (replicate 64 0).

(** ** Call sequences on one filter *)

(** The two ways the code touches a filter after its creation: the body of
    [platform_event_analogfilter], and [process_axis]. *)
Inductive axis_call :=
| Configure (lower_bound upper_bound deadzone_ buffer_sz : Z)
    (kind : ARCAN_ANALOGFILTER_KIND)
| Sample (samplev : Z).

Definition axis_apply (d : axis_opts) (c : axis_call) : axis_opts :=
  match c with
  | Configure lo hi dz sz kind => analogfilter_axis d lo hi dz sz kind
  | Sample s => fst (process_axis d s)
  end.

Definition axis_run (d : axis_opts) (calls : list axis_call) : axis_opts :=
  fold_left axis_apply calls d.

Definition is_configure (c : axis_call) : Prop :=
  match c with Configure _ _ _ _ _ => True | Sample _ => False end.

(** A filter with zero-filled kernel state (kernel size 0, offset 0).  This
    is how classification leaves the filters [map_axes] allocates and, for a
    device without a filter table, the cursor and sensor filters of its node;
    the cursor and sensor filters of a device with a filter table lie on
    [game.axes] and [game.adata] in the source and are not of this kind. *)
Definition created (d : axis_opts) : Prop :=
  kernel_sz d = 0 /\ kernel_ofs d = 0.

Definition ofs_inv (d : axis_opts) : Prop :=
  0 <= kernel_ofs d /\ 0 <= kernel_sz d <= 64 /\
  kernel_ofs d < Z.max 1 (kernel_sz d).

Definition ofs_inv_configured (d : axis_opts) : Prop :=
  1 <= kernel_sz d <= 64 /\ 0 <= kernel_ofs d < kernel_sz d.

(** ** Axes of a node, by class *)

(** The axis a node of each class has under the (signed) index [a]: a sensor
    its single filter, a game device one per mapped absolute axis, a mouse
    its two cursor filters, the other classes none. *)
Definition class_axis (node : arcan_devnode) (a : Z) : option axis_opts :=
  match type node with
  | DEVNODE_SENSOR => if a =? 0 then Some (sensor_data node) else None
  | DEVNODE_GAME =>
      if (0 <=? a) && (a <? game_axes node)
      then game_adata node ≫= (fun ad => ad !! Z.to_nat a)
      else None
  | DEVNODE_MOUSE =>
      if a =? 0 then Some (cursor_flt0 node)
      else if a =? 1 then Some (cursor_flt1 node)
      else None
  | DEVNODE_TOUCH | DEVNODE_KEYBOARD => None
  end.

(** [game.axes] is an [unsigned short] and counts the entries of
    [game.adata], as [map_axes] leaves them. *)
Definition node_wf (node : arcan_devnode) : Prop :=
  0 <= game_axes node <= 65535 /\
  match game_adata node with
  | Some ad => Z.of_nat (length ad) = game_axes node
  | None => game_axes node = 0
  end.

(** ** Capability signatures *)

(** The device reports event type [ty] and, under it, the code [code]. *)
Definition supports (pr : devprobe) (prop : list Z) (ty code : Z) : bool :=
  bit_isset prop ty &&
  match pr_evbit pr ty with
  | Some bits => bit_isset bits code
  | None => false
  end.

Definition mouse_button_signature (pr : devprobe) (prop : list Z) : bool :=
  supports pr prop EV_KEY BTN_MOUSE || supports pr prop EV_KEY BTN_LEFT ||
  supports pr prop EV_KEY BTN_RIGHT || supports pr prop EV_KEY BTN_MIDDLE.

Definition joystick_button_signature (pr : devprobe) (prop : list Z) : bool :=
  supports pr prop EV_KEY BTN_JOYSTICK || supports pr prop EV_KEY BTN_GAMEPAD ||
  supports pr prop EV_KEY BTN_WHEEL.

Definition relative_xy (pr : devprobe) (prop : list Z) : bool :=
  supports pr prop EV_REL REL_X && supports pr prop EV_REL REL_Y.

(** Number of key / button codes below [KEY_MAX] the device reports. *)
Definition counted_buttons (pr : devprobe) (prop : list Z) : Z :=
  if bit_isset prop EV_KEY then
    match pr_evbit pr EV_KEY with
    | Some bits => count_bits bits KEY_MAX
    | None => 0
    end
  else 0.

(** The node [got_device] has classified, before it goes to the table. *)
Definition classified `{Headers} (io : iodev_t) (fd : Z) (label : string)
  (devnum : Z) (pr : devprobe) (prop : list Z) : arcan_devnode :=
  snd (classify io (pr_handler pr)
         (probe_caps pr prop
            (mk_probe_state (fresh_node fd label devnum) false false false))).

(** ** Sample platform tables and devices for the examples *)

Definition headers_sample : Headers :=
  {| zero_kind := ARCAN_ANALOGFILTER_NONE;
     zero_type := DEVNODE_SENSOR;
     defhandlers := fun t =>
       match t with
       | DEVNODE_GAME => Some defhandler_game_cb
       | DEVNODE_MOUSE => Some defhandler_mouse_cb
       | DEVNODE_KEYBOARD => Some defhandler_kbd_cb
       | _ => Some defhandler_null_cb
       end;
     klut := fun code =>
       if code =? 42 then 304 else if code =? 54 then 303
       else if code =? 29 then 306 else if code =? 97 then 305
       else if code =? 58 then 301 else code;
     lookup_keycode := fun code => code;
     lookup_character := fun code _ => code;
     K_LSHIFT := 304; K_RSHIFT := 303; K_LCTRL := 306; K_RCTRL := 305;
     K_CAPSLOCK := 301;
     ARKMOD_LSHIFT := 0; ARKMOD_RSHIFT := 1; ARKMOD_LCTRL := 6;
     ARKMOD_RCTRL := 7; ARKMOD_CAPS := 13 |}.

Definition no_override : evhandler := mk_evhandler DEVNODE_GAME None 0 0 false.

(** A pad: keys with BTN_JOYSTICK, two absolute axes of range -128..127. *)
Definition pad_probe (hash : Z) : devprobe :=
  mk_devprobe (Some true) (Some "pad"%string) (Some hash) no_override
    (fun n =>
       if n =? 0 then Some [11]
       else if n =? EV_KEY then Some [0; 0; 0; 0; 4294967296; 0; 0; 0; 0; 0; 0; 0]
       else if n =? EV_ABS then Some [3]
       else None)
    (fun _ => Some (-128, 127)) true true.

(** A mouse: BTN_LEFT, REL_X and REL_Y. *)
Definition mouse_probe (hash : Z) : devprobe :=
  mk_devprobe (Some true) (Some "mouse"%string) (Some hash) no_override
    (fun n =>
       if n =? 0 then Some [7]
       else if n =? EV_KEY then Some [0; 0; 0; 0; 65536; 0; 0; 0; 0; 0; 0; 0]
       else if n =? EV_REL then Some [3; 0; 0; 0; 0; 0; 0; 0; 0; 0; 0; 0]
       else None)
    (fun _ => None) true true.

(** A keyboard: the first hundred key codes. *)
Definition kbd_probe (hash : Z) : devprobe :=
  mk_devprobe (Some true) (Some "kbd"%string) (Some hash) no_override
    (fun n =>
       if n =? 0 then Some [3]
       else if n =? EV_KEY then
         Some [18446744073709551615; 68719476735; 0; 0; 0; 0; 0; 0; 0; 0; 0; 0]
       else None)
    (fun _ => None) true true.


(** ** Registering a sequence of devices *)

(** [got_device] on each descriptor in turn; the closed descriptors are
    collected in order. *)
Fixpoint register_all `{Headers} (io : iodev_t) (devs : list (Z * devprobe))
  : iodev_t * list Z :=
  match devs with
  | [] => (io, [])
  | (fd, pr) :: rest =>
      let r := got_device io fd pr in
      let r' := register_all (fst r) rest in
      (fst r', snd r ++ snd r')
  end.

(** The derived identity of a device ([devnum] out of [identify]). *)
Definition identity_of (pr : devprobe) : option Z := snd <$> identify pr.





(** ** Hat states and sample nodes *)

(** Both directions of hat component [ind] are held active. *)
Definition both_active (node : arcan_devnode) (ind : Z) : bool :=
  negb (nth (Z.to_nat (2 * ind)) (game_hats node) 0 =? 0) &&
  negb (nth (Z.to_nat (2 * ind + 1)) (game_hats node) 0 =? 0).

(** One of the directions of hat component [ind] is held active. *)
Definition some_active (node : arcan_devnode) (ind : Z) : bool :=
  negb (nth (Z.to_nat (2 * ind)) (game_hats node) 0 =? 0) ||
  negb (nth (Z.to_nat (2 * ind + 1)) (game_hats node) 0 =? 0).

(** Whether the sub-id [subid] is active for a consumer that has seen the
    digital events [evs], none being active at the start. *)
Definition held (evs : list arcan_event) (subid : Z) : bool :=
  fold_left
    (fun h e =>
       match e with
       | ev_digital _ s a => if s =? subid then a else h
       | _ => h
       end)
    evs false.

Definition is_activation (e : arcan_event) : bool :=
  match e with
  | ev_digital _ _ true => true
  | _ => false
  end.

(** The nodes [got_device] stores for the sample pad, mouse and keyboard. *)
Definition pad_node : arcan_devnode :=
  classified (H := headers_sample) iodev_init 5 "pad" 4660 (pad_probe 4660) [11].

Definition kbd_node : arcan_devnode :=
  classified (H := headers_sample) iodev_init 6 "kbd" 4661 (kbd_probe 4661) [3].

(** The registry after the sample mouse was registered and both of its
    cursor filters were set, through [platform_event_analogfilter], to an
    averaging filter of kernel size 1 with the band -10..10. *)
Definition mouse_registry : iodev_t :=
  platform_event_analogfilter
    (platform_event_analogfilter
       (fst (got_device (H := headers_sample) iodev_init 7 (mouse_probe 4662)))
       4662 0 (-10) 10 0 1 ARCAN_ANALOGFILTER_AVG)
    4662 1 (-10) 10 0 1 ARCAN_ANALOGFILTER_AVG.

Definition mouse_node : arcan_devnode :=
  default (devnode_zero (H := headers_sample)) (nodes mouse_registry !! 0%nat).

(** ** Further filter invariants *)

(** A keep-last filter of kernel size [K] after [cnt] values went into its
    kernel. *)
Definition last_inv (K : Z) (cnt : nat) (d : axis_opts) : Prop :=
  mode d = ARCAN_ANALOGFILTER_ALAST /\
  kernel_sz d = K /\
  length (flt_kernel d) = 64%nat /\
  kernel_ofs d = Z.of_nat cnt mod K.

(** A configured multi-sample filter with the band [lo]..[hi]: the pending
    kernel entries lie in the band. *)
Definition band_inv (lo hi : Z) (d : axis_opts) : Prop :=
  mode d <> ARCAN_ANALOGFILTER_NONE /\
  mode d <> ARCAN_ANALOGFILTER_PASS /\
  lower d = lo /\ upper d = hi /\
  1 <= kernel_sz d <= 64 /\
  0 <= kernel_ofs d < kernel_sz d /\
  length (flt_kernel d) = 64%nat /\
  Forall (fun v => lo <= v <= hi) (take (Z.to_nat (kernel_ofs d)) (flt_kernel d)).

(** ** Game device decoder *)

(** What [defhandler_game] enqueues: a button or hat event, or an axis event
    ([EVENT_IO_AXIS_MOVE], analog, [gotrel] false, [nvalues] 2) of which
    [axisval[0]] is assigned and [axisval[1]] is not. *)
Inductive game_event :=
| gev_digital (e : arcan_event)
| gev_axis (devid subid axisval0 : Z).

(** [mask && code <= 64 && ((mask >> code) & 1)].  The mask is an unsigned
    member of [struct evhandler] (device_db.h); the shift is taken in [Z]. *)
Definition masked (mask code : Z) : bool :=
  negb (mask =? 0) && (code <=? 64) &&
  negb (Z.land (Z.shiftr mask code) 1 =? 0).

(** The body of the record loop of [defhandler_game].  [inev[i].code] is a
    16-bit unsigned member, so [inev[i].code -= BTN_JOYSTICK] wraps; the
    sub-id is then computed from the reduced code.  An axis record below
    [game.axes] steps the filter [game.adata[code]] whether or not a sample
    comes out; where the table is missing or shorter than [game.axes] the
    source reads outside it, and the record is left without effect here. *)
Definition game_record (node : arcan_devnode) (r : input_event)
  : arcan_devnode * list game_event :=
  if ie_type r =? EV_KEY then
    let code := u16 (ie_code r - BTN_JOYSTICK) in
    if masked (button_mask (hnd node)) code then (node, [])
    else
      (node,
       [gev_digital
          (ev_digital (devnum node) (code - BTN_JOYSTICK)
             (negb (ie_value r =? 0)))])
  else if ie_type r =? EV_ABS then
    let code := ie_code r in
    if masked (axis_mask (hnd node)) code then (node, [])
    else if digital_hat (hnd node) && (code >=? ABS_HAT0X) &&
            (code <=? ABS_HAT3Y)
    then
      let '(node, evs) := decode_hat node (code - ABS_HAT0X) (ie_value r) in
      (node, map gev_digital evs)
    else if code <? game_axes node then
      match game_adata node with
      | None => (node, [])
      | Some ad =>
          match ad !! Z.to_nat code with
          | None => (node, [])
          | Some flt =>
              let '(flt, out) := process_axis flt (wrap16 (ie_value r)) in
              (set_game_axes (game_axes node)
                 (Some (<[Z.to_nat code := flt]> ad)) node,
               match out with
               | Some samplev => [gev_axis (devnum node) code samplev]
               | None => []
               end)
          end
      end
    else (node, [])
  else (node, []).

Fixpoint game_loop (node : arcan_devnode) (rs : list input_event)
  : arcan_devnode * list game_event :=
  match rs with
  | [] => (node, [])
  | r :: rest =>
      let '(node1, e1) := game_record node r in
      let '(node2, e2) := game_loop node1 rest in
      (node2, e1 ++ e2)
  end.

Inductive game_decoded :=
| GameDisconnect
| GameDecoded (node : arcan_devnode) (evs : list game_event).

Definition defhandler_game (node : arcan_devnode) (evs : Z)
  (inev : list input_event) : game_decoded :=
  if evs =? -1 then GameDisconnect
  else if (evs <? 0) || (evs <? sizeof_input_event) then GameDecoded node []
  else
    let '(node, out) := game_loop node (records evs inev) in
    GameDecoded node out.

(** ** Labels and key repeat *)

(** [platform_event_devlabel]; [None] where the source reads a node past
    the end of the table. *)
Definition platform_event_devlabel (io : iodev_t) (devid : Z)
  : option string :=
  if devid =? -1 then Some "mouse"%string
  else if (devid <? 0) || (devid >=? n_devs io) then Some "no device"%string
  else
    match nodes io !! Z.to_nat devid with
    | None => None
    | Some node =>
        Some match label node with
             | EmptyString => "no identifier"%string
             | l => l
             end
    end.

(** [platform_device_lock]: the (descriptor, argument) of the EVIOCGRAB
    ioctl it issues, none when the lookup finds no node or the node found has
    the handle 0.  A slot index past the table has no node to read. *)
Definition platform_device_lock (io : iodev_t) (devind : Z) (state : bool)
  : list (Z * Z) :=
  match lookup_devnode io devind with
  | None => []
  | Some slot =>
      match nodes io !! slot with
      | None => []
      | Some node =>
          if handle node =? 0 then []
          else [(handle node, if state then 1 else 0)]
      end
  end.

Definition is_keyboard (node : arcan_devnode) : bool :=
  match type node with DEVNODE_KEYBOARD => true | _ => false end.

(** [platform_event_keyrepeat]: the registry, the values left in [*period]
    and [*delay], and the (handle, period, delay) of each KDKBDREP ioctl.
    [iodev.period] and [iodev.delay] are [unsigned], the two arguments and
    the members of [struct kbd_repeat] are [int]. *)
Definition platform_event_keyrepeat (io : iodev_t) (period_ delay_ : Z)
  : iodev_t * (Z * Z) * list (Z * Z * Z) :=
  let '(period_out, new_period, upd) :=
    if period_ <? 0 then (wrap32 (period io), period io, false)
    else (wrap32 (period io), u32 period_, true) in
  let '(delay_out, new_delay, upd) :=
    if delay_ <? 0 then (wrap32 (delay io), u32 delay_, true)
    else (delay_, delay io, upd) in
  (mk_iodev (n_devs io) (sz_nodes io) new_period new_delay (mouseid io)
     (nodes io) (pollset io),
   (period_out, delay_out),
   if upd then
     map (fun node => (handle node, wrap32 new_period, wrap32 new_delay))
       (filter (fun node => is_keyboard node = true)
          (take (Z.to_nat (n_devs io)) (nodes io)))
   else []).

(** ** Shutdown *)

(** The file-scope [gstate]. *)
Record gstate_t := mk_gstate {
  gs_kbmode : Z;
  gs_mode : Z;
  gs_leds : Z;
  gs_mute : bool;
  gs_tty : Z;
  gs_notify : Z
}.

Inductive kd_request := KDSKBMUTE | KDSETMODE | KDSKBMODE | KDSETLED.

(** The system calls of [platform_event_deinit] that act on a descriptor. *)
Inductive syscall :=
| sys_ioctl (fd : Z) (req : kd_request) (arg : Z)
| sys_close (fd : Z).

(** linux/kd.h and unistd.h *)
Definition KD_TEXT : Z := 0.
Definition K_XLATE : Z := 1.
Definition K_OFF : Z := 4.
Definition STDIN_FILENO : Z := 0.

(** The closing loop of [platform_event_deinit] over the first [n] slots. *)
Fixpoint deinit_nodes `{Headers} (n : nat) (l : list arcan_devnode)
  : list arcan_devnode * list syscall :=
  match n, l with
  | S n', x :: rest =>
      let '(rest', log) := deinit_nodes n' rest in
      if handle x >? 0 then (devnode_zero :: rest', sys_close (handle x) :: log)
      else (x :: rest', log)
  | _, _ => (l, [])
  end.

(** [platform_event_deinit]; [isatty] is the answer of [isatty(gstate.tty)]. *)
Definition platform_event_deinit `{Headers} (isatty : bool) (g : gstate_t)
  (io : iodev_t) : gstate_t * iodev_t * list syscall :=
  let '(g, log1) :=
    if isatty && gs_mute g then
      let kb := if gs_kbmode g =? K_OFF then K_XLATE else gs_kbmode g in
      (mk_gstate kb (gs_mode g) (gs_leds g) false (gs_tty g) (gs_notify g),
       [sys_ioctl (gs_tty g) KDSKBMUTE 0;
        sys_ioctl (gs_tty g) KDSETMODE KD_TEXT;
        sys_ioctl (gs_tty g) KDSKBMODE kb;
        sys_ioctl (gs_tty g) KDSETLED (gs_leds g)])
    else (g, []) in
  let '(g, log2) :=
    if gs_tty g =? STDIN_FILENO then (g, [])
    else
      (mk_gstate (gs_kbmode g) (gs_mode g) (gs_leds g) (gs_mute g)
         STDIN_FILENO (gs_notify g),
       [sys_close (gs_tty g)]) in
  let '(g, log3) :=
    if gs_notify g =? -1 then (g, [])
    else
      (mk_gstate (gs_kbmode g) (gs_mode g) (gs_leds g) (gs_mute g)
         (gs_tty g) (-1),
       [sys_close (gs_notify g)]) in
  let '(nodes', log4) := deinit_nodes (Z.to_nat (n_devs io)) (nodes io) in
  (g,
   mk_iodev 0 (sz_nodes io) (period io) (delay io) (mouseid io) nodes'
     (pollset io),
   log1 ++ log2 ++ log3 ++ log4).

(** A pad with six absolute axes (codes 0..5) and one hat (ABS_HAT0X,
    ABS_HAT0Y: codes 16 and 17). *)
Definition hatpad_probe (hash : Z) : devprobe :=
  mk_devprobe (Some true) (Some "hatpad"%string) (Some hash) no_override
    (fun n =>
       if n =? 0 then Some [11]
       else if n =? EV_KEY then Some [0; 0; 0; 0; 4294967296; 0; 0; 0; 0; 0; 0; 0]
       else if n =? EV_ABS then Some [196671]
       else None)
    (fun _ => Some (-128, 127)) true true.

(** ** Registries the platform can be in *)

(** What [map_axes] leaves in a node: [game.axes] counts the entries of
    [game.adata], of which there is one per absolute axis code. *)
Definition axes_allocated (node : arcan_devnode) : Prop :=
  0 <= game_axes node <= ABS_MAX /\
  match game_adata node with
  | Some ad => Z.of_nat (length ad) = game_axes node
  | None => game_axes node = 0
  end.


(** * Properties *)

(** Boolean comparisons in the hypotheses, as propositions. *)
Ltac zbool :=
  repeat match goal with
         | H : (_ >? _) = _ |- _ => rewrite Z.gtb_ltb in H
         | H : (_ >=? _) = _ |- _ => rewrite Z.geb_leb in H
         | H : (_ <? _) = true |- _ => apply Z.ltb_lt in H
         | H : (_ <? _) = false |- _ => apply Z.ltb_ge in H
         | H : (_ <=? _) = true |- _ => apply Z.leb_le in H
         | H : (_ <=? _) = false |- _ => apply Z.leb_gt in H
         | H : (_ =? _) = true |- _ => apply Z.eqb_eq in H
         | H : (_ =? _) = false |- _ => apply Z.eqb_neq in H
         end.

(** ** Integer conversions *)

Lemma wrap16_id x : int16 x -> wrap16 x = x.
Proof.
  unfold int16, wrap16. intros Hx.
  rewrite Z.mod_small by lia. lia.
Qed.

Lemma wrap16_int16 x : int16 (wrap16 x).
Proof.
  unfold int16, wrap16.
  pose proof (Z.mod_pos_bound (x + 32768) 65536). lia.
Qed.

Lemma wrap32_id x : -2147483648 <= x <= 2147483647 -> wrap32 x = x.
Proof.
  unfold wrap32. intros Hx. rewrite Z.mod_small by lia. lia.
Qed.

(** ** Lists *)

Lemma sumZ_app l1 l2 : sumZ (l1 ++ l2) = sumZ l1 + sumZ l2.
Proof. unfold sumZ. induction l1 as [|x l1 IH]; simpl; lia. Qed.






(** The [int32_t] accumulation of at most 64 [int16_t] entries is their sum. *)
Lemma fold_wrap32_sum (l : list Z) (acc : Z) :
  Forall int16 l ->
  (length l <= 64)%nat ->
  -32768 * (64 - Z.of_nat (length l)) <= acc <= 32767 * (64 - Z.of_nat (length l)) ->
  fold_left (fun tot x => wrap32 (tot + x)) l acc = acc + sumZ l.
Proof.
  intros Hl. revert acc.
  induction Hl as [|x l Hx Hl IH]; intros acc Hlen Hacc; simpl.
  - unfold sumZ. simpl. lia.
  - simpl length in *. rewrite Nat2Z.inj_succ in Hacc.
    unfold int16 in Hx.
    rewrite wrap32_id by lia.
    rewrite IH by lia. unfold sumZ. simpl. lia.
Qed.

Lemma kernel_tot_sum (k : list Z) (sz : Z) :
  Forall int16 (take (Z.to_nat sz) k) ->
  0 <= sz <= 64 ->
  kernel_tot k sz = sumZ (take (Z.to_nat sz) k).
Proof.
  intros Hk Hsz. unfold kernel_tot.
  rewrite fold_wrap32_sum; [lia | assumption | |].
  - rewrite length_take. lia.
  - rewrite length_take. lia.
Qed.

(** ** Feeding samples *)

Lemma feed_app d l1 l2 :
  feed d (l1 ++ l2) =
  (fst (feed (fst (feed d l1)) l2),
   snd (feed d l1) ++ snd (feed (fst (feed d l1)) l2)).
Proof.
  revert d. induction l1 as [|s l1 IH]; intros d; simpl.
  - destruct (feed d l2); reflexivity.
  - rewrite IH. reflexivity.
Qed.

Lemma feed_length d l : length (snd (feed d l)) = length l.
Proof.
  revert d. induction l as [|s l IH]; intros d; simpl; [reflexivity|].
  rewrite IH. reflexivity.
Qed.

Lemma feed_lookup d l n s :
  l !! n = Some s ->
  snd (feed d l) !! n = Some (snd (process_axis (fst (feed d (take n l))) s)).
Proof.
  intros Hn.
  rewrite <- (take_drop_middle l n s Hn) at 1.
  rewrite feed_app. simpl.
  rewrite lookup_app_r; rewrite feed_length, length_take_le;
    try (apply lookup_lt_Some in Hn; lia).
  rewrite Nat.sub_diag. reflexivity.
Qed.

Lemma accepted_values_app d l1 l2 :
  accepted_values d (l1 ++ l2) =
  accepted_values d l1 ++ accepted_values (fst (feed d l1)) l2.
Proof.
  revert d. induction l1 as [|s l1 IH]; intros d; simpl; [reflexivity|].
  destruct (accepted_sample d s); rewrite IH; reflexivity.
Qed.

Lemma accepted_sample_int16 d s v :
  int16 s -> accepted_sample d s = Some v -> int16 v.
Proof.
  intros Hs. unfold accepted_sample, quickfilter_deadzone, quickfilter_edge.
  intros Hv.
  assert (H0 : int16 0) by (unfold int16; lia).
  repeat case_match; simplify_eq; first [apply wrap16_int16 | assumption].
Qed.

(** ** The averaging kernel *)

Lemma same_kernel_refl d : same_kernel d d.
Proof. unfold same_kernel. tauto. Qed.

(** In a filtering mode a sample either stops in the deadzone or edge stage,
    leaving the kernel alone, or reaches [kernel_store] with the value
    [accepted_sample] names. *)
Lemma process_axis_stages d s :
  mode d <> ARCAN_ANALOGFILTER_NONE ->
  mode d <> ARCAN_ANALOGFILTER_PASS ->
  match accepted_sample d s with
  | None =>
      snd (process_axis d s) = None /\ same_kernel d (fst (process_axis d s))
  | Some v =>
      exists d2, process_axis d s = kernel_store d2 v /\ same_kernel d d2
  end.
Proof.
  intros Hn Hp.
  unfold accepted_sample, process_axis, edge_and_kernel,
    quickfilter_deadzone, quickfilter_edge.
  destruct (mode d) eqn:Hm; try congruence;
    repeat case_match; simplify_eq; simpl;
    try (split; [reflexivity | unfold same_kernel; simpl; tauto]);
    (eexists; split; [reflexivity | unfold same_kernel; simpl; tauto]).
Qed.

Lemma mod_succ_lt (n K : Z) :
  0 < K -> 0 <= n -> n mod K + 1 < K -> (n + 1) mod K = n mod K + 1.
Proof.
  intros HK Hn Hlt.
  pose proof (Z.mod_pos_bound n K HK).
  symmetry. apply (Z.mod_unique_pos _ _ (n / K)); [lia|].
  pose proof (Z.div_mod n K). lia.
Qed.

Lemma mod_succ_wrap (n K : Z) :
  0 < K -> 0 <= n -> n mod K + 1 = K -> (n + 1) mod K = 0.
Proof.
  intros HK Hn Heq.
  symmetry. apply (Z.mod_unique_pos _ _ (n / K + 1)); [lia|].
  pose proof (Z.div_mod n K). lia.
Qed.

Lemma take_insert_snoc (k : list Z) (o : nat) (v : Z) :
  (o < length k)%nat -> take (S o) (<[o := v]> k) = take o k ++ [v].
Proof.
  intros Ho.
  rewrite (take_S_r _ _ v) by (apply list_lookup_insert_eq; assumption).
  rewrite take_insert_ge by lia. reflexivity.
Qed.





Lemma analogfilter_axis_fields d lo hi dz sz kind :
  mode (analogfilter_axis d lo hi dz sz kind) = kind /\
  1 <= kernel_sz (analogfilter_axis d lo hi dz sz kind) <= 64 /\
  kernel_ofs (analogfilter_axis d lo hi dz sz kind) = 0 /\
  flt_kernel (analogfilter_axis d lo hi dz sz kind) = flt_kernel d.
Proof.
  unfold analogfilter_axis, set_analogstate, kernel_lim. simpl.
  repeat split; repeat case_match; lia.
Qed.




(** ** Deadzone *)

Lemma edge_and_kernel_keeps d s :
  indzone (fst (edge_and_kernel d s)) = indzone d /\
  deadzone (fst (edge_and_kernel d s)) = deadzone d /\
  mode (fst (edge_and_kernel d s)) = mode d /\
  lower (fst (edge_and_kernel d s)) = lower d /\
  upper (fst (edge_and_kernel d s)) = upper d /\
  kernel_sz (fst (edge_and_kernel d s)) = kernel_sz d.
Proof.
  unfold edge_and_kernel, quickfilter_edge, kernel_store.
  repeat case_match; simplify_eq; simpl; tauto.
Qed.

(** Inside the zone with the flag set, a sample changes nothing. *)
Lemma process_axis_in_deadzone d s :
  mode d <> ARCAN_ANALOGFILTER_PASS ->
  indzone d = true -> Z.abs s < deadzone d -> process_axis d s = (d, None).
Proof.
  intros Hp Hin Hs. unfold process_axis, quickfilter_deadzone.
  apply Z.ltb_lt in Hs. rewrite Hs, Hin.
  destruct (mode d); congruence.
Qed.

Lemma feed_in_deadzone d rest :
  mode d <> ARCAN_ANALOGFILTER_PASS ->
  indzone d = true ->
  Forall (fun s => Z.abs s < deadzone d) rest ->
  feed d rest = (d, map (fun _ => None) rest).
Proof.
  intros Hp Hin Hrest. induction Hrest as [|s rest Hs Hrest IH]; simpl.
  - reflexivity.
  - rewrite (process_axis_in_deadzone d s Hp Hin Hs). simpl. rewrite IH.
    reflexivity.
Qed.

(** With a kernel of at most one entry and a value inside the band, the
    stages after the deadzone check output the value at once. *)
Lemma edge_and_kernel_pass d s :
  kernel_sz d <= 1 -> 0 <= kernel_ofs d -> lower d <= s <= upper d ->
  snd (edge_and_kernel d s) = Some s /\
  kernel_ofs (fst (edge_and_kernel d s)) = 0.
Proof.
  intros HK Hofs Hband.
  unfold edge_and_kernel, quickfilter_edge, kernel_store.
  destruct (s <? lower d) eqn:E1; [apply Z.ltb_lt in E1; lia|].
  destruct (s >? upper d) eqn:E2;
    [rewrite Z.gtb_ltb in E2; apply Z.ltb_lt in E2; lia|].
  simpl.
  destruct (kernel_ofs d + 1 <? kernel_sz d) eqn:E3;
    [apply Z.ltb_lt in E3; lia|].
  destruct (kernel_sz d >? 1) eqn:E4;
    [rewrite Z.gtb_ltb in E4; apply Z.ltb_lt in E4; lia|].
  simpl. auto.
Qed.

(** C2, as the code has it.  A filter in a filtering mode that is outside its
    deadzone and then sees a run of samples of magnitude below the deadzone:
    the first of them is replaced by 0 and handed to the edge and kernel
    stages, every later one yields nothing and leaves the filter alone; with
    a kernel of at most one entry and 0 inside the band the first sample
    yields the output 0.  The next sample at or above the deadzone clears the
    flag and is processed with its own value (and is the output when it lies
    inside the band and the kernel has at most one entry). *)
Theorem deadzone_entry_once (d : axis_opts) (s1 : Z) (rest : list Z)
  (s_exit : Z) :
  mode d <> ARCAN_ANALOGFILTER_NONE ->
  mode d <> ARCAN_ANALOGFILTER_PASS ->
  indzone d = false ->
  Z.abs s1 < deadzone d ->
  Forall (fun s => Z.abs s < deadzone d) rest ->
  deadzone d <= Z.abs s_exit ->
  let entry := edge_and_kernel (set_indzone true d) 0 in
  feed d (s1 :: rest) = (fst entry, snd entry :: map (fun _ => None) rest) /\
  (kernel_sz d <= 1 -> kernel_ofs d = 0 -> lower d <= 0 <= upper d ->
   snd (feed d (s1 :: rest)) = Some 0 :: map (fun _ => None) rest) /\
  process_axis (fst entry) s_exit =
    edge_and_kernel (set_indzone false (fst entry)) s_exit /\
  (kernel_sz d <= 1 -> kernel_ofs d = 0 -> lower d <= 0 <= upper d ->
   lower d <= s_exit <= upper d ->
   snd (process_axis (fst entry) s_exit) = Some s_exit).
Proof.
  intros Hn Hp Hout Hs1 Hrest Hexit entry.
  destruct (edge_and_kernel_keeps (set_indzone true d) 0)
    as (Ki & Kd & Km & Kl & Ku & Ks).
  fold entry in Ki, Kd, Km, Kl, Ku, Ks. simpl in Ki, Kd, Km, Kl, Ku, Ks.
  assert (Hstep : process_axis d s1 = entry).
  { unfold process_axis, quickfilter_deadzone.
    apply Z.ltb_lt in Hs1. rewrite Hs1, Hout.
    destruct (mode d); try congruence; reflexivity. }
  assert (Hfeed : feed d (s1 :: rest) =
                  (fst entry, snd entry :: map (fun _ => None) rest)).
  { simpl. rewrite Hstep.
    rewrite feed_in_deadzone; [reflexivity | congruence | assumption |].
    rewrite Kd. assumption. }
  assert (Hresume : process_axis (fst entry) s_exit =
                    edge_and_kernel (set_indzone false (fst entry)) s_exit).
  { unfold process_axis, quickfilter_deadzone. rewrite Kd, Km.
    destruct (Z.abs s_exit <? deadzone d) eqn:E;
      [apply Z.ltb_lt in E; lia|].
    destruct (mode d); try congruence; reflexivity. }
  assert (Hzero : kernel_sz d <= 1 -> kernel_ofs d = 0 ->
                  lower d <= 0 <= upper d ->
                  snd entry = Some 0 /\ kernel_ofs (fst entry) = 0).
  { intros HK Hofs Hband. subst entry.
    apply edge_and_kernel_pass; simpl; lia. }
  repeat split.
  - exact Hfeed.
  - intros HK Hofs Hband. rewrite Hfeed. simpl.
    destruct (Hzero HK Hofs Hband) as [-> _]. reflexivity.
  - exact Hresume.
  - intros HK Hofs Hband Hs. rewrite Hresume.
    destruct (Hzero HK Hofs Hband) as [_ Hofs'].
    apply edge_and_kernel_pass; simpl; lia.
Qed.

Lemma deadzone_entry_once_witness :
  snd (feed (analogfilter_axis axis_fresh (-100) 100 10 1 ARCAN_ANALOGFILTER_AVG)
         [5; 3; -2]) = [Some 0; None; None] /\
  snd (process_axis
         (fst (feed (analogfilter_axis axis_fresh (-100) 100 10 1
                       ARCAN_ANALOGFILTER_AVG) [5; 3; -2])) 50) = Some 50.
Proof.
  assert (Hrest : Forall (fun s => Z.abs s < 10) [3; -2])
    by (repeat (apply Forall_cons_2; [simpl; lia|]); apply Forall_nil_2).
  destruct (deadzone_entry_once
              (analogfilter_axis axis_fresh (-100) 100 10 1
                 ARCAN_ANALOGFILTER_AVG) 5 [3; -2] 50
              ltac:(discriminate) ltac:(discriminate) eq_refl
              ltac:(simpl; lia) Hrest ltac:(simpl; lia))
    as (_ & Hzero & _ & Hexit).
  split.
  - apply Hzero; simpl; lia.
  - apply Hexit; simpl; lia.
Defined.

(** C2 as stated fails: with a kernel of two entries the zeroed sample only
    goes into the kernel and the run yields no output; with a band that
    excludes 0 the first in-zone sample yields the lower bound. *)
Lemma deadzone_entry_counterexample :
  snd (feed (analogfilter_axis axis_fresh (-100) 100 10 2 ARCAN_ANALOGFILTER_AVG)
         [5; 3; 2]) = [None; None; None] /\
  snd (feed (analogfilter_axis axis_fresh 20 100 10 1 ARCAN_ANALOGFILTER_AVG)
         [5; 3; 2]) = [Some 20; None; None].
Proof. split; reflexivity. Qed.

(** ** Kernel write offset *)

Lemma process_axis_ofs_inv d s : ofs_inv d -> ofs_inv (fst (process_axis d s)).
Proof.
  unfold ofs_inv, process_axis, edge_and_kernel, quickfilter_deadzone,
    quickfilter_edge, kernel_store.
  intros (H0 & Hsz & Hlt).
  repeat case_match; simplify_eq; simpl in *; zbool; lia.
Qed.

Lemma process_axis_ofs_inv_configured d s :
  ofs_inv_configured d -> ofs_inv_configured (fst (process_axis d s)).
Proof.
  unfold ofs_inv_configured, process_axis, edge_and_kernel,
    quickfilter_deadzone, quickfilter_edge, kernel_store.
  intros (Hsz & Hofs).
  repeat case_match; simplify_eq; simpl in *; zbool; lia.
Qed.

Lemma analogfilter_axis_configured d lo hi dz sz kind :
  ofs_inv_configured (analogfilter_axis d lo hi dz sz kind).
Proof.
  destruct (analogfilter_axis_fields d lo hi dz sz kind) as (_ & Hsz & Hofs & _).
  unfold ofs_inv_configured. lia.
Qed.

Lemma ofs_inv_configured_weaken d : ofs_inv_configured d -> ofs_inv d.
Proof. unfold ofs_inv_configured, ofs_inv. lia. Qed.

Lemma axis_run_configured d calls :
  ofs_inv_configured d -> ofs_inv_configured (axis_run d calls).
Proof.
  unfold axis_run. revert d.
  induction calls as [|c calls IH]; intros d Hd; simpl; [assumption|].
  apply IH. destruct c; simpl.
  - apply analogfilter_axis_configured.
  - apply process_axis_ofs_inv_configured. assumption.
Qed.

Lemma axis_run_ofs_inv d calls : ofs_inv d -> ofs_inv (axis_run d calls).
Proof.
  unfold axis_run. revert d.
  induction calls as [|c calls IH]; intros d Hd; simpl; [assumption|].
  apply IH. destruct c; simpl.
  - apply ofs_inv_configured_weaken, analogfilter_axis_configured.
  - apply process_axis_ofs_inv. assumption.
Qed.

Lemma axis_run_once_configured d calls :
  ofs_inv d -> Exists is_configure calls ->
  ofs_inv_configured (axis_run d calls).
Proof.
  intros Hd Hex. revert d Hd.
  induction Hex as [c calls Hc | c calls Hex IH]; intros d Hd.
  - destruct c; [|contradiction].
    apply (axis_run_configured _ calls), analogfilter_axis_configured.
  - apply (IH (axis_apply d c)).
    destruct c; simpl.
    + apply ofs_inv_configured_weaken, analogfilter_axis_configured.
    + apply process_axis_ofs_inv. assumption.
Qed.

(** From a filter with kernel size 0 and offset 0, after any sequence of
    configuration and sample calls the write offset is non-negative and below
    the larger of 1 and the kernel size, which is at most 64; once the
    sequence contains a configuration call the offset is strictly below the
    kernel size; and every configuration call leaves the kernel size clamped
    to 1..64 (64 for a larger request, 1 for a request of 0 or less) and the
    offset at 0. *)
Lemma created_offset_bounded (d0 : axis_opts) (calls : list axis_call) :
  created d0 ->
  (0 <= kernel_ofs (axis_run d0 calls) /\
   kernel_ofs (axis_run d0 calls) < Z.max 1 (kernel_sz (axis_run d0 calls)) /\
   0 <= kernel_sz (axis_run d0 calls) <= 64) /\
  (Exists is_configure calls ->
   kernel_ofs (axis_run d0 calls) < kernel_sz (axis_run d0 calls)) /\
  (forall lo hi dz sz kind,
     let d' := analogfilter_axis (axis_run d0 calls) lo hi dz sz kind in
     kernel_ofs d' = 0 /\
     kernel_sz d' = Z.max 1 (Z.min 64 sz) /\
     kernel_ofs d' < kernel_sz d').
Proof.
  intros (Hsz & Hofs).
  assert (H0 : ofs_inv d0) by (unfold ofs_inv; lia).
  split; [|split].
  - pose proof (axis_run_ofs_inv d0 calls H0) as H. unfold ofs_inv in H. lia.
  - intros Hex.
    pose proof (axis_run_once_configured d0 calls H0 Hex) as H.
    unfold ofs_inv_configured in H. lia.
  - intros lo hi dz sz kind d'. subst d'.
    unfold analogfilter_axis, set_analogstate, kernel_lim. simpl.
    repeat case_match; lia.
Qed.

Lemma map_axis_created pr i : created (map_axis pr i).
Proof. unfold created, map_axis. repeat case_match; simpl; auto. Qed.

(** C9 as stated fails at creation: the filter [map_axes] creates has kernel
    size 0 and offset 0, and sample calls keep both. *)
Lemma kernel_offset_counterexample :
  ~ (kernel_ofs (axis_run axis_fresh []) < kernel_sz (axis_run axis_fresh [])) /\
  ~ (kernel_ofs (axis_run axis_fresh [Sample 5; Sample 7]) <
     kernel_sz (axis_run axis_fresh [Sample 5; Sample 7])).
Proof. split; vm_compute; discriminate. Qed.

(** ** Per-axis state query *)

Lemma u32_nonneg a : 0 <= a < 2147483648 -> u32 a = a.
Proof. intros Ha. unfold u32. apply Z.mod_small. lia. Qed.

Lemma u32_neg a : -2147483648 <= a < 0 -> u32 a = a + 4294967296.
Proof.
  intros Ha. unfold u32. symmetry.
  apply (Z.mod_unique_pos _ _ (-1)); lia.
Qed.

Lemma find_axis_class io slot node a :
  -2147483648 <= a < 2147483648 ->
  nodes io !! slot = Some node ->
  node_wf node ->
  node_axis slot node (u32 a) ≫= get_axis io = class_axis node a.
Proof.
  intros Ha Hnode (Hax & Hwf).
  unfold node_axis, class_axis.
  destruct (Z_lt_dec a 0) as [Hneg|Hpos].
  - rewrite (u32_neg a) by lia.
    destruct (type node); simpl; repeat case_match; zbool; simpl;
      try reflexivity; try lia; try discriminate.
  - rewrite (u32_nonneg a) by lia.
    assert (H0a : (0 <=? a) = true) by (apply Z.leb_le; lia).
    rewrite H0a. simpl andb.
    destruct (type node); simpl.
    + destruct (a =? 0); simpl; [rewrite Hnode|]; reflexivity.
    + destruct (a <? game_axes node); simpl; [rewrite Hnode|]; reflexivity.
    + destruct (a =? 0); simpl; [rewrite Hnode; reflexivity|].
      destruct (a =? 1); simpl; [rewrite Hnode|]; reflexivity.
    + reflexivity.
    + reflexivity.
Qed.

(** The per-axis state query relative to the lookup, on a registry whose
    looked-up node is well formed: no node for the id gives
    [ARCAN_ERRC_NO_SUCH_OBJECT], a node
    without that axis for its class gives [ARCAN_ERRC_BAD_RESOURCE], and in
    both cases the five outputs keep the values they had; a node that has the
    axis gives [ARCAN_OK] and the five outputs are the bounds, deadzone,
    kernel size and mode of that axis. *)
Theorem analogstate_errors (io : iodev_t) (devid axisid : Z) (out : analog_out) :
  -2147483648 <= axisid < 2147483648 ->
  match lookup_devnode io devid with
  | None =>
      platform_event_analogstate io devid axisid out =
        (ARCAN_ERRC_NO_SUCH_OBJECT, out)
  | Some slot =>
      forall node,
        nodes io !! slot = Some node ->
        node_wf node ->
        match class_axis node axisid with
        | None =>
            platform_event_analogstate io devid axisid out =
              (ARCAN_ERRC_BAD_RESOURCE, out)
        | Some axis =>
            platform_event_analogstate io devid axisid out =
              (ARCAN_OK,
               mk_analog_out (lower axis) (upper axis) (deadzone axis)
                 (kernel_sz axis) (mode axis))
        end
  end.
Proof.
  intros Ha. unfold platform_event_analogstate, find_axis.
  destruct (lookup_devnode io devid) as [slot|]; [|reflexivity].
  intros node Hnode Hwf. rewrite Hnode.
  rewrite (find_axis_class io slot node axisid Ha Hnode Hwf).
  destruct (class_axis node axisid); reflexivity.
Qed.

Lemma analogstate_errors_witness :
  platform_event_analogstate
    (fst (got_device (H := headers_sample) iodev_init 5 (pad_probe 4660)))
    4660 1 (mk_analog_out 0 0 0 0 ARCAN_ANALOGFILTER_NONE) =
  (ARCAN_OK, mk_analog_out (-128) 127 0 0 ARCAN_ANALOGFILTER_AVG).
Proof.
  pose proof (analogstate_errors
                (fst (got_device (H := headers_sample) iodev_init 5
                        (pad_probe 4660)))
                4660 1 (mk_analog_out 0 0 0 0 ARCAN_ANALOGFILTER_NONE)
                ltac:(lia)) as T.
  set (io := fst (got_device (H := headers_sample) iodev_init 5
                    (pad_probe 4660))) in *.
  assert (Hl : lookup_devnode io 4660 = Some 0%nat) by (vm_compute; reflexivity).
  rewrite Hl in T.
  destruct (nodes io !! 0%nat) as [node|] eqn:Hnode;
    [|vm_compute in Hnode; discriminate].
  specialize (T node eq_refl).
  assert (Hwf : node_wf node).
  { vm_compute in Hnode. injection Hnode as <-.
    split; [split; vm_compute; discriminate | reflexivity]. }
  specialize (T Hwf).
  assert (Hax : class_axis node 1 =
                Some (mk_axis_opts ARCAN_ANALOGFILTER_AVG ARCAN_ANALOGFILTER_AVG
                        (-128) 127 0 false false false 0 0 (replicate 64 0))).
  { vm_compute in Hnode. injection Hnode as <-. reflexivity. }
  rewrite Hax in T. exact T.
Defined.

(** C10 at a failing input.  A pad (slot 0) and a mouse (slot 1) are
    registered.  After the mouse, in the last counted slot, is disconnected,
    the query for its id answers [ARCAN_ERRC_NO_SUCH_OBJECT] and leaves the
    outputs alone.  After the pad is disconnected instead, no node holds a
    descriptor for its id, and [platform_device_lock] on that id issues no
    ioctl, yet the query for axis 0 answers [ARCAN_OK] with the state of the
    filter the pad had, and for axis 5 [ARCAN_ERRC_BAD_RESOURCE].  Once the
    pad has been registered again the count is 3 with two devices, and the
    query for id 2, a zero-filled slot, answers [ARCAN_OK] as well (the
    zero-filled class being the sensor of the sample tables). *)
Theorem analogstate_without_device :
  let io0 :=
    fst (register_all (H := headers_sample) iodev_init
           [(5, pad_probe 4660); (7, mouse_probe 4662)]) in
  let out := mk_analog_out 1 2 3 4 ARCAN_ANALOGFILTER_ALAST in
  let mouse_gone := fst (disconnect io0 1) in
  let pad_gone := fst (disconnect io0 0) in
  let pad_back :=
    fst (got_device (H := headers_sample) pad_gone 9 (pad_probe 4660)) in
  (platform_event_analogstate io0 4662 0 out =
     (ARCAN_OK, mk_analog_out 0 0 0 0 ARCAN_ANALOGFILTER_PASS) /\
   platform_device_lock io0 4660 true = [(5, 1)]) /\
  (snd (disconnect io0 1) = [7] /\
   platform_event_analogstate mouse_gone 4662 0 out =
     (ARCAN_ERRC_NO_SUCH_OBJECT, out)) /\
  (snd (disconnect io0 0) = [5] /\
   Forall (fun node => devnum node = 4660 -> handle node = 0)
     (nodes pad_gone) /\
   platform_device_lock pad_gone 4660 true = [] /\
   platform_event_analogstate pad_gone 4660 0 out =
     (ARCAN_OK, mk_analog_out (-128) 127 0 0 ARCAN_ANALOGFILTER_AVG) /\
   platform_event_analogstate pad_gone 4660 5 out =
     (ARCAN_ERRC_BAD_RESOURCE, out)) /\
  (n_devs pad_back = 3 /\
   nodes pad_back !! 2%nat = Some (devnode_zero (H := headers_sample)) /\
   platform_device_lock pad_back 2 true = [] /\
   platform_event_analogstate pad_back 2 0 out =
     (ARCAN_OK, mk_analog_out 0 0 0 0 ARCAN_ANALOGFILTER_NONE)).
Proof.
  vm_compute. repeat split.
  repeat (apply Forall_cons_2; [intros Hd; first [reflexivity | discriminate]|]).
  apply Forall_nil_2.
Qed.

(** ** Classification *)

Lemma probe_bit_other pr st bit :
  (bit =? EV_KEY) || (bit =? EV_REL) || (bit =? EV_ABS) = false ->
  probe_bit pr st bit = st.
Proof.
  unfold probe_bit. intros H.
  apply orb_false_elim in H as [H H3]. apply orb_false_elim in H as [H1 H2].
  rewrite H1, H2, H3. reflexivity.
Qed.

Lemma probe_step_other pr (prop : list Z) st bit :
  (bit =? EV_KEY) || (bit =? EV_REL) || (bit =? EV_ABS) = false ->
  (if bit_isset prop bit then probe_bit pr st bit else st) = st.
Proof.
  intros H. rewrite probe_bit_other by assumption.
  destruct (bit_isset prop bit); reflexivity.
Qed.

(** Only the EV_KEY, EV_REL and EV_ABS bits act in the sweep, in that
    order. *)
Lemma probe_caps_steps pr prop st :
  probe_caps pr prop st =
  let st1 := if bit_isset prop EV_KEY then probe_bit pr st EV_KEY else st in
  let st2 := if bit_isset prop EV_REL then probe_bit pr st1 EV_REL else st1 in
  if bit_isset prop EV_ABS then probe_bit pr st2 EV_ABS else st2.
Proof.
  unfold probe_caps.
  change (seqZ 0 EV_MAX) with
    ([0; EV_KEY; EV_REL; EV_ABS] ++ seqZ 4 27).
  rewrite fold_left_app.
  cbv zeta.
  set (st3 := fold_left _ [0; EV_KEY; EV_REL; EV_ABS] st).
  assert (Hrest : forall l s,
             Forall (fun b => (b =? EV_KEY) || (b =? EV_REL) || (b =? EV_ABS)
                              = false) l ->
             fold_left
               (fun st bit =>
                  if bit_isset prop bit then probe_bit pr st bit else st) l s
             = s).
  { induction l as [|b l IH]; intros s Hl; simpl; [reflexivity|].
    apply Forall_cons in Hl as [Hb Hl].
    rewrite probe_step_other by assumption. apply IH. assumption. }
  rewrite Hrest by (vm_compute; repeat constructor).
  subst st3. simpl fold_left.
  rewrite (probe_step_other pr prop st 0) by reflexivity.
  reflexivity.
Qed.

Lemma map_axes_keeps pr bitn node :
  type (map_axes pr bitn node) = type node /\
  button_count_ (map_axes pr bitn node) = button_count_ node /\
  cursor_flt0 (map_axes pr bitn node) = cursor_flt0 node /\
  cursor_flt1 (map_axes pr bitn node) = cursor_flt1 node /\
  hnd (map_axes pr bitn node) = hnd node /\
  devnum (map_axes pr bitn node) = devnum node /\
  handle (map_axes pr bitn node) = handle node.
Proof.
  unfold map_axes. repeat case_match; simpl; tauto.
Qed.

(** What the sweep leaves in the locals of [got_device]. *)
Lemma probe_caps_flags `{Headers} fd label devnum pr prop :
  let st :=
    probe_caps pr prop
      (mk_probe_state (fresh_node fd label devnum) false false false) in
  ps_mouse_ax st = relative_xy pr prop /\
  ps_mouse_btn st = mouse_button_signature pr prop /\
  ps_joystick_btn st = joystick_button_signature pr prop /\
  button_count_ (ps_node st) = counted_buttons pr prop /\
  type (ps_node st) = DEVNODE_GAME.
Proof.
  cbv zeta. rewrite probe_caps_steps. cbv zeta.
  unfold probe_bit.
  change (EV_KEY =? EV_KEY) with true.
  change (EV_REL =? EV_KEY) with false.
  change (EV_REL =? EV_REL) with true.
  change (EV_ABS =? EV_KEY) with false.
  change (EV_ABS =? EV_REL) with false.
  change (EV_ABS =? EV_ABS) with true.
  cbv iota.
  unfold relative_xy, mouse_button_signature, joystick_button_signature,
    counted_buttons, supports, button_count, check_mouse_axis.
  destruct (bit_isset prop EV_KEY), (pr_evbit pr EV_KEY) as [kb|],
    (bit_isset prop EV_REL), (pr_evbit pr EV_REL) as [rb|],
    (bit_isset prop EV_ABS).
  all: repeat match goal with
           | |- context [count_bits ?b ?m] =>
               generalize (count_bits b m); intro
           | |- context [bit_isset ?b ?m] =>
               generalize (bit_isset b m); intro
           end.
  all: cbn [ps_mouse_ax ps_mouse_btn ps_joystick_btn ps_node andb orb].
  all: repeat match goal with
           | |- context [map_axes ?p ?b ?n] =>
               let Ht := fresh in
               let Hb := fresh in
               pose proof (map_axes_keeps p b n) as (Ht & Hb & _);
               rewrite ?Ht, ?Hb; clear Ht Hb
           end.
  all: cbn [button_count_ type set_button_count fresh_node].
  all: rewrite ?andb_diag.
  all: repeat split.
  all: match goal with |- ?x = ?x => exact (eq_refl x) end.
Qed.

(** [got_device] hands the classified node to the table. *)
Lemma got_device_classified `{Headers} io fd pr label dnum prop :
  pr_fstat pr = Some true ->
  identify pr = Some (label, dnum) ->
  pr_evbit pr 0 = Some prop ->
  got_device io fd pr =
    (fst (register_node
            (fst (classify io (pr_handler pr)
                    (probe_caps pr prop
                       (mk_probe_state (fresh_node fd label dnum)
                          false false false))))
            pr (classified io fd label dnum pr prop)),
     (if n_devs io >=? MAX_DEVICES then [fd] else []) ++
     snd (register_node
            (fst (classify io (pr_handler pr)
                    (probe_caps pr prop
                       (mk_probe_state (fresh_node fd label dnum)
                          false false false))))
            pr (classified io fd label dnum pr prop))).
Proof.
  intros Hstat Hid Hprop. unfold got_device, classified.
  rewrite Hstat, Hid, Hprop.
  destruct (classify io (pr_handler pr) _) as [io1 node]. cbn [fst snd].
  destruct (register_node io1 pr node). reflexivity.
Qed.

(** C4.  A device for which the handler lookup has no override: with both
    relative axes and a mouse-button signature it becomes a mouse whose two
    cursor filters are in pass-through mode; failing that, without mouse and
    without joystick button signature and with more than 84 counted buttons
    it becomes a keyboard; in every other case it stays a game device. *)
Theorem classification_decision `{Headers} (io : iodev_t) (fd : Z)
  (label : string) (devnum : Z) (pr : devprobe) (prop : list Z) :
  eh_handler (pr_handler pr) = None ->
  let node := classified io fd label devnum pr prop in
  if relative_xy pr prop && mouse_button_signature pr prop then
    type node = DEVNODE_MOUSE /\
    mode (cursor_flt0 node) = ARCAN_ANALOGFILTER_PASS /\
    mode (cursor_flt1 node) = ARCAN_ANALOGFILTER_PASS
  else if negb (mouse_button_signature pr prop) &&
          negb (joystick_button_signature pr prop) &&
          (counted_buttons pr prop >? 84)
  then type node = DEVNODE_KEYBOARD
  else type node = DEVNODE_GAME.
Proof.
  intros Heh. cbv zeta. unfold classified, classify. rewrite Heh.
  destruct (probe_caps_flags fd label devnum pr prop)
    as (Hax & Hbtn & Hjoy & Hcnt & Hty).
  cbv zeta in Hax, Hbtn, Hjoy, Hcnt, Hty.
  set (st := probe_caps pr prop _) in *. clearbody st.
  destruct st as [n0 ax btn joy].
  cbn [ps_node ps_mouse_ax ps_mouse_btn ps_joystick_btn] in *.
  rewrite Hax, Hbtn, Hjoy, Hcnt.
  destruct (relative_xy pr prop && mouse_button_signature pr prop).
  - simpl. auto.
  - destruct (negb (mouse_button_signature pr prop) &&
              negb (joystick_button_signature pr prop) &&
              (counted_buttons pr prop >? 84)); simpl; auto.
Qed.

Lemma classification_decision_witness :
  type (classified (H := headers_sample) iodev_init 5 "mouse" 4660
          (mouse_probe 4660) [7]) = DEVNODE_MOUSE /\
  type (classified (H := headers_sample) iodev_init 6 "kbd" 4661
          (kbd_probe 4661) [3]) = DEVNODE_KEYBOARD /\
  type (classified (H := headers_sample) iodev_init 7 "pad" 4662
          (pad_probe 4662) [11]) = DEVNODE_GAME.
Proof.
  pose proof (classification_decision (H := headers_sample) iodev_init 5
                "mouse" 4660 (mouse_probe 4660) [7] eq_refl) as Hm.
  pose proof (classification_decision (H := headers_sample) iodev_init 6
                "kbd" 4661 (kbd_probe 4661) [3] eq_refl) as Hk.
  pose proof (classification_decision (H := headers_sample) iodev_init 7
                "pad" 4662 (pad_probe 4662) [11] eq_refl) as Hp.
  cbv zeta in Hm, Hk, Hp.
  assert (E1 : relative_xy (mouse_probe 4660) [7] &&
               mouse_button_signature (mouse_probe 4660) [7] = true)
    by (vm_compute; reflexivity).
  assert (E2 : relative_xy (kbd_probe 4661) [3] &&
               mouse_button_signature (kbd_probe 4661) [3] = false)
    by (vm_compute; reflexivity).
  assert (E3 : negb (mouse_button_signature (kbd_probe 4661) [3]) &&
               negb (joystick_button_signature (kbd_probe 4661) [3]) &&
               (counted_buttons (kbd_probe 4661) [3] >? 84) = true)
    by (vm_compute; reflexivity).
  assert (E4 : relative_xy (pad_probe 4662) [11] &&
               mouse_button_signature (pad_probe 4662) [11] = false)
    by (vm_compute; reflexivity).
  assert (E5 : negb (mouse_button_signature (pad_probe 4662) [11]) &&
               negb (joystick_button_signature (pad_probe 4662) [11]) &&
               (counted_buttons (pad_probe 4662) [11] >? 84) = false)
    by (vm_compute; reflexivity).
  rewrite E1 in Hm. rewrite E2, E3 in Hk. rewrite E4, E5 in Hp.
  exact (conj (proj1 Hm) (conj Hk Hp)).
Defined.

(** ** Filters as classification creates them *)

Lemma map_axes_created pr bitn node :
  created (cursor_flt0 node) /\ created (cursor_flt1 node) /\
  created (sensor_data node) /\
  Forall created (default [] (game_adata node)) ->
  created (cursor_flt0 (map_axes pr bitn node)) /\
  created (cursor_flt1 (map_axes pr bitn node)) /\
  created (sensor_data (map_axes pr bitn node)) /\
  Forall created (default [] (game_adata (map_axes pr bitn node))).
Proof.
  intros (H0 & H1 & Hs & Had). unfold map_axes.
  destruct (pr_evbit pr bitn) as [bits|]; [|tauto].
  destruct (game_adata node) as [ad|] eqn:E; [rewrite E; tauto|].
  destruct (count_bits bits ABS_MAX =? 0); cbn;
    refine (conj H0 (conj H1 (conj Hs _))); [apply Forall_nil_2|].
  apply List.Forall_map. apply Forall_forall. intros i _.
  apply map_axis_created.
Qed.

Lemma probe_caps_created pr prop st :
  created (cursor_flt0 (ps_node st)) /\ created (cursor_flt1 (ps_node st)) /\
  created (sensor_data (ps_node st)) /\
  Forall created (default [] (game_adata (ps_node st))) ->
  created (cursor_flt0 (ps_node (probe_caps pr prop st))) /\
  created (cursor_flt1 (ps_node (probe_caps pr prop st))) /\
  created (sensor_data (ps_node (probe_caps pr prop st))) /\
  Forall created (default [] (game_adata (ps_node (probe_caps pr prop st)))).
Proof.
  unfold probe_caps. generalize (seqZ 0 EV_MAX). intros l. revert st.
  induction l as [|bit l IH]; intros st Hst; simpl; [assumption|].
  apply IH. destruct (bit_isset prop bit); [|assumption].
  unfold probe_bit.
  destruct (bit =? EV_KEY).
  - destruct (button_count pr bit (ps_mouse_btn st) (ps_joystick_btn st))
      as [[c gm] gj]. exact Hst.
  - destruct (bit =? EV_REL); [exact Hst|].
    destruct (bit =? EV_ABS); [|exact Hst].
    cbn [ps_node]. apply map_axes_created. exact Hst.
Qed.

Lemma classify_created `{Headers} io eh st :
  created (cursor_flt0 (ps_node st)) /\ created (cursor_flt1 (ps_node st)) /\
  created (sensor_data (ps_node st)) /\
  Forall created (default [] (game_adata (ps_node st))) ->
  created (cursor_flt0 (snd (classify io eh st))) /\
  created (cursor_flt1 (snd (classify io eh st))) /\
  created (sensor_data (snd (classify io eh st))) /\
  Forall created (default [] (game_adata (snd (classify io eh st)))).
Proof.
  intros Hst. unfold classify.
  destruct (eh_handler eh); [exact Hst|].
  destruct (ps_mouse_ax st && ps_mouse_btn st); [exact Hst|].
  destruct (negb (ps_mouse_btn st) && negb (ps_joystick_btn st) &&
            (button_count_ (ps_node st) >? 84)); exact Hst.
Qed.

Lemma fresh_node_created `{Headers} fd label dnum :
  created (cursor_flt0 (fresh_node fd label dnum)) /\
  created (cursor_flt1 (fresh_node fd label dnum)) /\
  created (sensor_data (fresh_node fd label dnum)) /\
  Forall created (default [] (game_adata (fresh_node fd label dnum))).
Proof.
  refine (conj _ (conj _ (conj _ (Forall_nil_2 _)))); split; reflexivity.
Qed.

Lemma classified_created `{Headers} io fd label dnum pr prop :
  created (cursor_flt0 (classified io fd label dnum pr prop)) /\
  created (cursor_flt1 (classified io fd label dnum pr prop)) /\
  created (sensor_data (classified io fd label dnum pr prop)) /\
  Forall created
    (default [] (game_adata (classified io fd label dnum pr prop))).
Proof.
  unfold classified. apply classify_created.
  apply (probe_caps_created pr prop
           (mk_probe_state (fresh_node fd label dnum) false false false)).
  apply fresh_node_created.
Qed.

(** C9, as the code has it.  The filters that classification creates with
    zero-filled kernel state are the filters [map_axes] allocates for the
    absolute axes of a device and, for a device for which [map_axes]
    allocated no table, the two cursor filters and the sensor filter of its
    node.  From such a filter (kernel size 0, offset 0), after any sequence
    of configuration and sample calls the write offset is non-negative and
    below the larger of 1 and the kernel size, which is at most 64; once the
    sequence contains a configuration call the offset is strictly below the
    kernel size; and every configuration call leaves the kernel size clamped
    to 1..64 (64 for a larger request, 1 for a request of 0 or less) and the
    offset at 0.  The cursor and sensor filters of a device with a filter
    table share storage with [game.axes] and [game.adata] in the source and
    are not part of this statement. *)
Theorem kernel_offset_bounded `{Headers} (io : iodev_t) (fd : Z)
  (label : string) (dnum : Z) (pr : devprobe) (prop : list Z)
  (d0 : axis_opts) (calls : list axis_call) :
  let node := classified io fd label dnum pr prop in
  d0 ∈ default [] (game_adata node) \/
  game_adata node = None /\
  (d0 = cursor_flt0 node \/ d0 = cursor_flt1 node \/ d0 = sensor_data node) ->
  (kernel_sz d0 = 0 /\ kernel_ofs d0 = 0) /\
  (0 <= kernel_ofs (axis_run d0 calls) /\
   kernel_ofs (axis_run d0 calls) < Z.max 1 (kernel_sz (axis_run d0 calls)) /\
   0 <= kernel_sz (axis_run d0 calls) <= 64) /\
  (Exists is_configure calls ->
   kernel_ofs (axis_run d0 calls) < kernel_sz (axis_run d0 calls)) /\
  (forall lo hi dz sz kind,
     let d' := analogfilter_axis (axis_run d0 calls) lo hi dz sz kind in
     kernel_ofs d' = 0 /\
     kernel_sz d' = Z.max 1 (Z.min 64 sz) /\
     kernel_ofs d' < kernel_sz d').
Proof.
  cbv zeta. intros Hd0.
  destruct (classified_created io fd label dnum pr prop)
    as (H0 & H1 & Hs & Had).
  assert (Hc : created d0).
  { destruct Hd0 as [Hin | (_ & [-> | [-> | ->]])]; try assumption.
    exact (proj1 (Forall_forall _ _) Had d0 Hin). }
  split; [exact Hc|].
  exact (created_offset_bounded d0 calls Hc).
Qed.

Lemma kernel_offset_bounded_witness :
  let d0 :=
    mk_axis_opts ARCAN_ANALOGFILTER_AVG ARCAN_ANALOGFILTER_AVG (-128) 127 0
      false false false 0 0 (replicate 64 0) in
  let calls :=
    [Sample 3; Configure (-10) 10 0 100 ARCAN_ANALOGFILTER_AVG;
     Sample 4; Sample 5] in
  game_adata pad_node = Some [d0; d0] /\
  kernel_ofs (axis_run d0 calls) < kernel_sz (axis_run d0 calls).
Proof.
  cbv zeta.
  assert (Had : game_adata pad_node =
                Some [mk_axis_opts ARCAN_ANALOGFILTER_AVG
                        ARCAN_ANALOGFILTER_AVG (-128) 127 0
                        false false false 0 0 (replicate 64 0);
                      mk_axis_opts ARCAN_ANALOGFILTER_AVG
                        ARCAN_ANALOGFILTER_AVG (-128) 127 0
                        false false false 0 0 (replicate 64 0)])
    by (vm_compute; reflexivity).
  split; [exact Had|].
  apply (kernel_offset_bounded (H := headers_sample) iodev_init 5 "pad" 4660
           (pad_probe 4660) [11]).
  - left. fold pad_node. rewrite Had. apply list_elem_of_here.
  - apply Exists_cons_tl, Exists_cons_hd. exact I.
Defined.

(** ** Registration *)

Lemma probe_caps_keeps_id pr prop st :
  handle (ps_node (probe_caps pr prop st)) = handle (ps_node st) /\
  devnum (ps_node (probe_caps pr prop st)) = devnum (ps_node st).
Proof.
  rewrite probe_caps_steps. cbv zeta. unfold probe_bit.
  change (EV_KEY =? EV_KEY) with true.
  change (EV_REL =? EV_KEY) with false.
  change (EV_REL =? EV_REL) with true.
  change (EV_ABS =? EV_KEY) with false.
  change (EV_ABS =? EV_REL) with false.
  change (EV_ABS =? EV_ABS) with true.
  cbv iota.
  destruct (bit_isset prop EV_KEY), (bit_isset prop EV_REL),
    (bit_isset prop EV_ABS);
    try destruct (button_count pr EV_KEY _ _) as [[c gm] gj];
    cbn [ps_node];
    try match goal with
        | |- context [map_axes ?p ?b ?n] =>
            destruct (map_axes_keeps p b n) as (_ & _ & _ & _ & _ & Hd & Hh);
            rewrite Hd, Hh
        end;
    split; reflexivity.
Qed.

Lemma classify_keeps `{Headers} io eh st :
  handle (snd (classify io eh st)) = handle (ps_node st) /\
  devnum (snd (classify io eh st)) = devnum (ps_node st) /\
  n_devs (fst (classify io eh st)) = n_devs io /\
  sz_nodes (fst (classify io eh st)) = sz_nodes io /\
  nodes (fst (classify io eh st)) = nodes io /\
  pollset (fst (classify io eh st)) = pollset io.
Proof.
  unfold classify. destruct st as [n0 ax btn joy]. cbn [ps_node ps_mouse_ax
    ps_mouse_btn ps_joystick_btn].
  repeat case_match; simplify_eq; simpl; tauto.
Qed.


Lemma identity_of_identify pr dnum :
  identity_of pr = Some dnum ->
  identify pr = Some (default "unknown"%string (pr_name pr), dnum).
Proof.
  unfold identity_of, identify.
  destruct (pr_hash pr); simpl; [|discriminate].
  intros [= <-]. reflexivity.
Qed.




(** The reconnect of the example keeps the filter configured before it. *)
Example reregistration_keeps_filter :
  let io :=
    platform_event_analogfilter
      (fst (got_device (H := headers_sample) iodev_init 5 (pad_probe 4660)))
      4660 0 (-50) 50 5 4 ARCAN_ANALOGFILTER_AVG in
  snd (got_device (H := headers_sample) io 9 (pad_probe 4660)) = [5] /\
  platform_event_analogstate
    (fst (got_device (H := headers_sample) io 9 (pad_probe 4660))) 4660 0
    (mk_analog_out 0 0 0 0 ARCAN_ANALOGFILTER_NONE) =
  (ARCAN_OK, mk_analog_out (-50) 50 5 4 ARCAN_ANALOGFILTER_AVG).
Proof. vm_compute. split; reflexivity. Qed.

(** A slot whose handle [disconnect] has set to 0 is a hole for the sweep:
    when it is the first one, its [devnum] is not compared, and the returning
    device is stored in it as a new node. *)
Example stale_slot_is_a_hole :
  let io0 :=
    fst (register_all (H := headers_sample) iodev_init
           [(5, pad_probe 4660); (7, mouse_probe 4662)]) in
  let io1 :=
    platform_event_analogfilter io0 4660 0 (-50) 50 5 4 ARCAN_ANALOGFILTER_AVG in
  let io2 := fst (disconnect io1 0) in
  let io3 := fst (got_device (H := headers_sample) io2 9 (pad_probe 4660)) in
  n_devs io1 = 2 /\ snd (disconnect io1 0) = [5] /\ n_devs io2 = 2 /\
  n_devs io3 = 3 /\
  platform_event_analogstate io3 4660 0
    (mk_analog_out 0 0 0 0 ARCAN_ANALOGFILTER_NONE) =
  (ARCAN_OK, mk_analog_out (-128) 127 0 0 ARCAN_ANALOGFILTER_AVG).
Proof. vm_compute. repeat split. Qed.

(** C3 at a failing input.  A keyboard, a pad and a mouse are registered (slots
    0, 1, 2) and axis 0 of the pad is configured.  While the pad holds a live
    handle, registering it again takes its slot over in place: the count
    stays 3, the old handle is closed and the configured filter is kept.
    After [disconnect] has set the handle of the pad to 0 (its slot keeps the
    device number), registering it again depends on the slots before it: when
    its slot is the first free one the sweep takes it as the hole without
    comparing the device number, the pad is stored as a new node, the count
    goes from 3 to 4 and the filter is back at what [map_axes] creates; when
    the keyboard before it was disconnected too, the sweep compares the
    device number of the same slot and takes it over in place, count and
    filter kept. *)
Theorem stale_slot_reregistration :
  let io0 :=
    fst (register_all (H := headers_sample) iodev_init
           [(5, kbd_probe 5000); (6, pad_probe 4660); (7, mouse_probe 4662)]) in
  let io1 :=
    platform_event_analogfilter io0 4660 0 (-50) 50 5 4 ARCAN_ANALOGFILTER_AVG in
  let out := mk_analog_out 0 0 0 0 ARCAN_ANALOGFILTER_NONE in
  let live := got_device (H := headers_sample) io1 9 (pad_probe 4660) in
  let stale_first :=
    got_device (H := headers_sample) (fst (disconnect io1 1)) 9
      (pad_probe 4660) in
  let stale_behind :=
    got_device (H := headers_sample)
      (fst (disconnect (fst (disconnect io1 0)) 1)) 9 (pad_probe 4660) in
  (n_devs io1 = 3 /\ (handle <$> nodes io1 !! 1%nat) = Some 6 /\
   (devnum <$> nodes io1 !! 1%nat) = Some 4660) /\
  (n_devs (fst live) = 3 /\ snd live = [6] /\
   (handle <$> nodes (fst live) !! 1%nat) = Some 9 /\
   platform_event_analogstate (fst live) 4660 0 out =
     (ARCAN_OK, mk_analog_out (-50) 50 5 4 ARCAN_ANALOGFILTER_AVG)) /\
  (n_devs (fst (disconnect io1 1)) = 3 /\
   (handle <$> nodes (fst (disconnect io1 1)) !! 1%nat) = Some 0 /\
   (devnum <$> nodes (fst (disconnect io1 1)) !! 1%nat) = Some 4660 /\
   n_devs (fst stale_first) = 4 /\ snd stale_first = [] /\
   (handle <$> nodes (fst stale_first) !! 1%nat) = Some 9 /\
   platform_event_analogstate (fst stale_first) 4660 0 out =
     (ARCAN_OK, mk_analog_out (-128) 127 0 0 ARCAN_ANALOGFILTER_AVG)) /\
  (n_devs (fst (disconnect (fst (disconnect io1 0)) 1)) = 3 /\
   n_devs (fst stale_behind) = 3 /\ snd stale_behind = [] /\
   (handle <$> nodes (fst stale_behind) !! 1%nat) = Some 9 /\
   platform_event_analogstate (fst stale_behind) 4660 0 out =
     (ARCAN_OK, mk_analog_out (-50) 50 5 4 ARCAN_ANALOGFILTER_AVG)).
Proof. vm_compute. repeat split. Qed.

(** ** Registering up to the device limit *)

Lemma identity_of_range pr dnum :
  identity_of pr = Some dnum -> MAX_DEVICES <= dnum <= 65535.
Proof.
  unfold identity_of, identify, u16, MAX_DEVICES.
  destruct (pr_hash pr) as [h|]; simpl; [|discriminate].
  pose proof (Z.mod_pos_bound h 65536 ltac:(lia)).
  destruct (h mod 65536 <? 256) eqn:E; zbool; intros [= <-].
  - rewrite Z.mod_small by lia. lia.
  - lia.
Qed.

Lemma sweep_slots_nomatch l i h dnum :
  Forall (fun n => devnum n <> dnum) l ->
  sweep_slots l i (Some h) dnum = SlotHole (Some h).
Proof.
  intros Hl. revert i. induction Hl as [|x l Hx Hl IH]; intros i; simpl.
  - reflexivity.
  - destruct (devnum x =? dnum) eqn:E; zbool; [contradiction | apply IH].
Qed.


Lemma sweep_devnum_find l i n dnum k x :
  l !! k = Some x -> devnum x = dnum -> (k < n)%nat ->
  (forall j y, (j < k)%nat -> l !! j = Some y -> devnum y <> dnum) ->
  sweep_devnum l i n dnum = Some (i + k)%nat.
Proof.
  revert i n k. induction l as [|a l IH]; intros i n k Hk Hd Hn Hbefore.
  - rewrite lookup_nil in Hk. discriminate.
  - destruct n as [|n]; [lia|]. simpl.
    destruct k as [|k].
    + simpl in Hk. injection Hk as ->.
      rewrite Hd, Z.eqb_refl. f_equal. lia.
    + destruct (devnum a =? dnum) eqn:E; zbool.
      * exfalso. apply (Hbefore 0%nat a); [lia | reflexivity | assumption].
      * rewrite (IH (S i) n k Hk Hd ltac:(lia)).
        -- f_equal. lia.
        -- intros j y Hj Hy. apply (Hbefore (S j) y); [lia | exact Hy].
Qed.









(** ** Hat switches *)

Lemma nth_insert_same (l : list Z) (i : nat) (v d : Z) :
  (i < length l)%nat -> nth i (<[i := v]> l) d = v.
Proof.
  intros Hi. rewrite nth_lookup, list_lookup_insert_eq by assumption.
  reflexivity.
Qed.

Lemma nth_insert_other (l : list Z) (i j : nat) (v d : Z) :
  i <> j -> nth j (<[i := v]> l) d = nth j l d.
Proof.
  intros Hij. rewrite !nth_lookup, list_lookup_insert_ne by assumption.
  reflexivity.
Qed.

Lemma decode_hat_center node ind :
  0 <= ind <= 7 -> length (game_hats node) = 16%nat ->
  nth (Z.to_nat (ind * 2)) (game_hats (fst (decode_hat node ind 0))) 0 = 0 /\
  nth (Z.to_nat (ind * 2 + 1)) (game_hats (fst (decode_hat node ind 0))) 0 = 0 /\
  snd (decode_hat node ind 0) =
    (if nth (Z.to_nat (ind * 2)) (game_hats node) 0 =? 0 then []
     else [ev_digital (devnum node) (64 + ind * 2) false]) ++
    (if nth (Z.to_nat (ind * 2 + 1)) (game_hats node) 0 =? 0 then []
     else [ev_digital (devnum node) (64 + ind * 2 + 1) false]).
Proof.
  intros Hind Hlen. unfold decode_hat.
  change ((0 <? 0) || (0 >? 0)) with false. cbv iota.
  destruct (nth (Z.to_nat (ind * 2)) (game_hats node) 0 =? 0) eqn:E0.
  - destruct (nth (Z.to_nat (ind * 2 + 1)) (game_hats node) 0 =? 0) eqn:E1;
      cbn [fst snd game_hats set_game_hats]; zbool.
    + auto.
    + rewrite nth_insert_same by lia.
      rewrite nth_insert_other by lia. auto.
  - rewrite nth_insert_other by lia.
    destruct (nth (Z.to_nat (ind * 2 + 1)) (game_hats node) 0 =? 0) eqn:E1;
      cbn [fst snd game_hats set_game_hats]; zbool.
    + rewrite nth_insert_same by lia.
      rewrite nth_insert_other by lia. auto.
    + rewrite nth_insert_same by (rewrite length_insert; lia).
      rewrite nth_insert_other by lia.
      rewrite nth_insert_same by lia. auto.
Qed.

Lemma decode_hat_direction node ind val :
  0 <= ind <= 7 -> length (game_hats node) = 16%nat -> val <> 0 ->
  let dir := if val >? 0 then ind * 2 + 1 else ind * 2 in
  game_hats (fst (decode_hat node ind val)) =
    <[Z.to_nat dir := if val >? 0 then 1 else -1]> (game_hats node) /\
  snd (decode_hat node ind val) = [ev_digital (devnum node) (64 + dir) true].
Proof.
  intros Hind Hlen Hval. unfold decode_hat.
  destruct (val <? 0) eqn:En; destruct (val >? 0) eqn:Ep; zbool; try lia;
    cbn [orb]; cbv iota zeta.
  - change (-1 >? 0) with false. cbv iota.
    cbn [fst snd game_hats set_game_hats]. auto.
  - change (1 >? 0) with true. cbv iota.
    cbn [fst snd game_hats set_game_hats]. auto.
Qed.

(** C5, as the code has it.  For a hat component [ind] of a game device:
    from the centred state, the value +1 followed by 0 yields exactly two
    events, the activation of the positive sub-id 64+2*ind+1 and then its
    release, and none for the negative sub-id; a 0 record leaves the
    component centred.  A single transition emits at most one activation,
    and both directions are held active after it only if one of them was
    held active before it: a direction is released by a 0 record, not by
    the opposite direction. *)
Theorem hat_transitions (node : arcan_devnode) (ind : Z) :
  0 <= ind <= 7 ->
  length (game_hats node) = 16%nat ->
  (some_active node ind = false ->
   snd (decode_hat node ind 1) =
     [ev_digital (devnum node) (64 + 2 * ind + 1) true] /\
   snd (decode_hat (fst (decode_hat node ind 1)) ind 0) =
     [ev_digital (devnum node) (64 + 2 * ind + 1) false]) /\
  some_active (fst (decode_hat node ind 0)) ind = false /\
  (forall val,
     (length (filter (fun e => is_activation e = true)
                (snd (decode_hat node ind val))) <= 1)%nat /\
     (both_active (fst (decode_hat node ind val)) ind = true ->
      some_active node ind = true)).
Proof.
  intros Hind Hlen.
  replace (2 * ind) with (ind * 2) by lia.
  unfold some_active, both_active.
  replace (2 * ind) with (ind * 2) by lia.
  split; [|split].
  - intros Hc. apply orb_false_elim in Hc as [H0 H1].
    apply negb_false_iff in H0, H1. zbool.
    destruct (decode_hat_direction node ind 1 Hind Hlen ltac:(lia))
      as [Hh Hev].
    change (1 >? 0) with true in Hh, Hev. cbv iota zeta in Hh, Hev.
    split.
    + rewrite Hev. do 2 f_equal. lia.
    + assert (Hlen1 : length (game_hats (fst (decode_hat node ind 1))) = 16%nat)
        by (rewrite Hh, length_insert; assumption).
      destruct (decode_hat_center _ ind Hind Hlen1) as (_ & _ & Hev0).
      rewrite Hev0, Hh.
      rewrite nth_insert_other by lia. rewrite H0. simpl.
      rewrite nth_insert_same by lia. simpl.
      reflexivity.
  - destruct (decode_hat_center node ind Hind Hlen) as (H0 & H1 & _).
    rewrite H0, H1. reflexivity.
  - intros val. destruct (Z.eq_dec val 0) as [->|Hval].
    + destruct (decode_hat_center node ind Hind Hlen) as (H0 & H1 & Hev).
      split.
      * rewrite Hev. repeat case_match; simpl; lia.
      * rewrite H0. simpl. discriminate.
    + destruct (decode_hat_direction node ind val Hind Hlen Hval)
        as [Hh Hev].
      cbv zeta in Hh, Hev. split.
      * rewrite Hev. simpl. lia.
      * rewrite Hh. intros Hboth.
        apply andb_true_iff in Hboth as [Hb0 Hb1].
        apply orb_true_iff.
        destruct (val >? 0).
        -- rewrite nth_insert_other in Hb0 by lia. auto.
        -- rewrite nth_insert_other in Hb1 by lia. auto.
Qed.

Lemma hat_transitions_witness :
  snd (decode_hat pad_node 0 1) = [ev_digital 4660 65 true] /\
  snd (decode_hat (fst (decode_hat pad_node 0 1)) 0 0) =
    [ev_digital 4660 65 false].
Proof.
  destruct (hat_transitions pad_node 0 ltac:(lia) eq_refl) as (Ha & _ & _).
  exact (Ha eq_refl).
Defined.

(** C5 as stated fails for a direct flip: with only the positive direction
    held, the value -1 activates the negative sub-id and releases nothing, so
    both directions are held at once, in the state of the node and for a
    consumer of the events. *)
Lemma hat_flip_counterexample :
  both_active (fst (decode_hat pad_node 0 1)) 0 = false /\
  snd (decode_hat (fst (decode_hat pad_node 0 1)) 0 (-1)) =
    [ev_digital 4660 64 true] /\
  both_active (fst (decode_hat (fst (decode_hat pad_node 0 1)) 0 (-1))) 0 = true /\
  held (snd (decode_hat pad_node 0 1)) 64 = false /\
  held (snd (decode_hat pad_node 0 1) ++
        snd (decode_hat (fst (decode_hat pad_node 0 1)) 0 (-1))) 64 = true /\
  held (snd (decode_hat pad_node 0 1) ++
        snd (decode_hat (fst (decode_hat pad_node 0 1)) 0 (-1))) 65 = true.
Proof. vm_compute. repeat split. Qed.

(** ** Keyboard decoder *)

Lemma decode_loop_app body node l1 l2 :
  decode_loop body node (l1 ++ l2) =
  (fst (decode_loop body (fst (decode_loop body node l1)) l2),
   snd (decode_loop body node l1) ++
   snd (decode_loop body (fst (decode_loop body node l1)) l2)).
Proof.
  revert node. induction l1 as [|r l1 IH]; intros node; simpl.
  - destruct (decode_loop body node l2); reflexivity.
  - destruct (body node r) as [n1 e1]. rewrite IH.
    destruct (decode_loop body n1 l1) as [n2 e2]. simpl.
    destruct (decode_loop body n2 l2) as [n3 e3]. simpl.
    rewrite app_assoc. reflexivity.
Qed.

Lemma kbd_loop_devnum `{Headers} node l :
  devnum (fst (decode_loop kbd_record node l)) = devnum node.
Proof.
  revert node. induction l as [|r l IH]; intros node; simpl; [reflexivity|].
  destruct (kbd_record node r) as [n1 e1] eqn:Hr.
  specialize (IH n1). destruct (decode_loop kbd_record n1 l) as [n2 e2].
  simpl in *. rewrite IH.
  unfold kbd_record in Hr. repeat case_match; simplify_eq; reflexivity.
Qed.

Lemma records_all (inev : list input_event) :
  records (sizeof_input_event * Z.of_nat (length inev)) inev = inev.
Proof.
  unfold records, sizeof_input_event.
  rewrite Z.mul_comm, Z.div_mul by lia. rewrite Nat2Z.id. apply firstn_all.
Qed.

(** The bit of a modifier after [update_state]. *)
Lemma update_state_bit `{Headers} code (pressed : bool) statev m :
  modifier_of code = Some m -> 0 <= m < 32 ->
  Z.testbit (update_state code pressed statev) m = pressed.
Proof.
  intros Hm Hrange. unfold update_state, u32. rewrite Hm.
  change 4294967296 with (2 ^ 32).
  destruct pressed.
  - rewrite Z.mod_pow2_bits_low by lia.
    rewrite Z.lor_spec, Z.shiftl_spec by lia.
    rewrite Z.sub_diag. simpl. apply orb_true_r.
  - rewrite Z.mod_pow2_bits_low by lia.
    rewrite Z.land_spec, Z.lnot_spec, Z.shiftl_spec by lia.
    rewrite Z.sub_diag. simpl. apply andb_false_r.
Qed.

(** C6.  A batch read by the keyboard decoder, with a key record [r] in it:
    the events before and after [r] are those of the records before and
    after it, and [r] itself yields exactly one translated-key event whose
    [active] tells press (value not 0) from release (value 0), or, for the
    driver's repeat value 2, exactly two events, a release followed by a
    press.  The events carry the modifier state as [update_state] leaves it
    for this record: the bit of a modifier key is set by its press and
    cleared by its release, and any other key leaves the state alone. *)
Theorem kbd_press_release_repeat `{Headers} (node : arcan_devnode)
  (before after : list input_event) (r : input_event) (evs : Z) :
  ie_type r = EV_KEY ->
  evs = sizeof_input_event * Z.of_nat (length (before ++ r :: after)) ->
  let n1 := fst (decode_loop kbd_record node before) in
  let pressed := negb (ie_value r =? 0) in
  let state := update_state (ie_code r) pressed (keyboard_state n1) in
  let ev :=
    ev_translated (devnum node) (ie_code r) (lookup_keycode (ie_code r))
      state (lookup_character (ie_code r) state) in
  let n2 := set_keyboard_state state n1 in
  defhandler_kbd node evs (before ++ r :: after) =
    Decoded (fst (decode_loop kbd_record n2 after))
      (snd (decode_loop kbd_record node before) ++
       (if ie_value r =? 2 then [ev false; ev true] else [ev pressed]) ++
       snd (decode_loop kbd_record n2 after)) /\
  (forall m, modifier_of (ie_code r) = Some m -> 0 <= m < 32 ->
             Z.testbit state m = pressed) /\
  (modifier_of (ie_code r) = None -> state = keyboard_state n1).
Proof.
  intros Hty Hevs n1 pressed state ev n2.
  split; [|split].
  - unfold defhandler_kbd.
    assert (Hpos : sizeof_input_event <= evs).
    { rewrite Hevs, length_app. simpl length. unfold sizeof_input_event. lia. }
    unfold sizeof_input_event in *.
    destruct (evs =? -1) eqn:E1; zbool; [lia|].
    destruct (evs <? 0) eqn:E2; zbool; [lia|].
    destruct (evs <? 24) eqn:E3; zbool; [lia|].
    cbn [orb].
    rewrite Hevs. fold sizeof_input_event. rewrite records_all.
    rewrite decode_loop_app. fold n1.
    cbn [decode_loop].
    assert (Hrec : kbd_record n1 r =
                   (n2, if ie_value r =? 2 then [ev false; ev true]
                        else [ev pressed])).
    { unfold kbd_record. rewrite Hty. change (EV_KEY =? EV_KEY) with true.
      cbv iota. fold pressed. fold state. fold n2.
      assert (Hdev : devnum n2 = devnum node)
        by (subst n2 n1; simpl; apply kbd_loop_devnum).
      rewrite Hdev. fold ev.
      destruct (ie_value r =? 2); reflexivity. }
    rewrite Hrec.
    destruct (decode_loop kbd_record n2 after) as [n3 e3].
    reflexivity.
  - intros m Hm Hrange. apply update_state_bit; assumption.
  - intros Hm. subst state. unfold update_state. rewrite Hm. reflexivity.
Qed.

Lemma kbd_press_release_repeat_witness :
  defhandler_kbd (H := headers_sample) kbd_node 96
    [mk_input_event EV_KEY 42 1; mk_input_event EV_KEY 30 1;
     mk_input_event EV_KEY 30 2; mk_input_event EV_KEY 30 0] =
  Decoded (set_keyboard_state 1 kbd_node)
    [ev_translated 4661 42 42 1 42 true;
     ev_translated 4661 30 30 1 30 true;
     ev_translated 4661 30 30 1 30 false;
     ev_translated 4661 30 30 1 30 true;
     ev_translated 4661 30 30 1 30 false].
Proof.
  exact (proj1 (kbd_press_release_repeat (H := headers_sample) kbd_node []
                  [mk_input_event EV_KEY 30 1; mk_input_event EV_KEY 30 2;
                   mk_input_event EV_KEY 30 0]
                  (mk_input_event EV_KEY 42 1) 96 eq_refl eq_refl)).
Defined.

(** ** Mouse decoder *)

(** What the two relative-axis cases of [defhandler_mouse] do with a sample
    the filter accepts: the X case adds the raw delta to its counter and
    reports it, the Y case adds and reports the output of the filter. *)
Lemma mouse_record_rel_x node value flt out :
  process_axis (cursor_flt0 node) (wrap16 value) = (flt, Some out) ->
  mouse_record node (mk_input_event EV_REL REL_X value) =
    (set_cursor_x
       (u16 (if cursor_mx node + wrap16 value <? 0 then 0
             else cursor_mx node + wrap16 value)) flt node,
     [ev_analog (devnum node) 0 true
        (u16 (if cursor_mx node + wrap16 value <? 0 then 0
              else cursor_mx node + wrap16 value))
        (wrap16 value) 2]).
Proof.
  intros Hp. unfold mouse_record. cbn [ie_type ie_code ie_value].
  change (EV_REL =? EV_KEY) with false. change (EV_REL =? EV_REL) with true.
  change (REL_X =? REL_X) with true. cbv iota. rewrite Hp. reflexivity.
Qed.

Lemma mouse_record_rel_y node value flt out :
  process_axis (cursor_flt1 node) (wrap16 value) = (flt, Some out) ->
  mouse_record node (mk_input_event EV_REL REL_Y value) =
    (set_cursor_y
       (u16 (if cursor_my node + out <? 0 then 0 else cursor_my node + out))
       flt node,
     [ev_analog (devnum node) 1 true
        (u16 (if cursor_my node + out <? 0 then 0 else cursor_my node + out))
        out 2]).
Proof.
  intros Hp. unfold mouse_record. cbn [ie_type ie_code ie_value].
  change (EV_REL =? EV_KEY) with false. change (EV_REL =? EV_REL) with true.
  change (REL_Y =? REL_X) with false. change (REL_Y =? REL_Y) with true.
  cbv iota. rewrite Hp. reflexivity.
Qed.

(** C7 at a failing input.  On the sample mouse, whose two cursor filters
    clamp to -10..10, a relative motion of 50 is accepted by either filter
    with output 10.  The X record moves its counter by the raw 50 (not by the
    filter output); the Y record moves its counter by 10 and reports 10 as
    the delta (not the raw 50). *)
Theorem mouse_axes_disagree :
  snd (process_axis (cursor_flt0 mouse_node) (wrap16 50)) = Some 10 /\
  snd (process_axis (cursor_flt1 mouse_node) (wrap16 50)) = Some 10 /\
  match defhandler_mouse mouse_node 24 [mk_input_event EV_REL REL_X 50] with
  | Decoded n evs =>
      cursor_mx mouse_node = 0 /\ cursor_mx n = 50 /\
      evs = [ev_analog 4662 0 true 50 50 2]
  | Disconnect => False
  end /\
  match defhandler_mouse mouse_node 24 [mk_input_event EV_REL REL_Y 50] with
  | Decoded n evs =>
      cursor_my mouse_node = 0 /\ cursor_my n = 10 /\
      evs = [ev_analog 4662 1 true 10 10 2]
  | Disconnect => False
  end.
Proof. vm_compute. repeat split. Qed.

(** * Further properties of the code *)

(** ** Keep-last mode *)

Lemma kernel_store_last K cnt d v :
  1 <= K <= 64 -> int16 v -> last_inv K cnt d ->
  last_inv K (S cnt) (fst (kernel_store d v)) /\
  snd (kernel_store d v) =
    if Z.of_nat (S cnt) mod K =? 0 then Some v else None.
Proof.
  intros HK Hv (Hm & Hsz & Hlen & Hofs).
  pose proof (Z.mod_pos_bound (Z.of_nat cnt) K ltac:(lia)) as Hb.
  rewrite <- Hofs in Hb.
  rewrite Nat2Z.inj_succ. unfold Z.succ.
  unfold kernel_store. rewrite Hsz.
  destruct (kernel_ofs d + 1 <? K) eqn:Hlt; zbool.
  - assert (Hmod : (Z.of_nat cnt + 1) mod K = kernel_ofs d + 1)
      by (rewrite Hofs; apply mod_succ_lt; lia).
    simpl. split.
    + unfold last_inv; simpl. rewrite length_insert.
      rewrite Nat2Z.inj_succ. unfold Z.succ. rewrite Hmod. auto.
    + rewrite Hmod. destruct (kernel_ofs d + 1 =? 0) eqn:E; zbool;
        [lia | reflexivity].
  - assert (Hmod : (Z.of_nat cnt + 1) mod K = 0)
      by (apply mod_succ_wrap; lia).
    simpl. split.
    + unfold last_inv; simpl. rewrite length_insert.
      rewrite Nat2Z.inj_succ. unfold Z.succ. rewrite Hmod. auto.
    + rewrite Hmod. simpl. f_equal.
      destruct (K >? 1) eqn:HK1; [|reflexivity].
      rewrite Hm.
      replace (Z.to_nat (K - 1)) with (Z.to_nat (kernel_ofs d)) by lia.
      rewrite nth_lookup, list_lookup_insert_eq by lia. simpl.
      apply wrap16_id. assumption.
Qed.

Lemma last_inv_same_kernel K cnt d d' :
  same_kernel d d' -> last_inv K cnt d -> last_inv K cnt d'.
Proof.
  intros (Hm & Hsz & Hofs & Hk & _) (Im & Isz & Ilen & Iofs).
  unfold last_inv. rewrite Hm, Hsz, Hofs, Hk. tauto.
Qed.

Lemma process_axis_last_step K cnt d s :
  1 <= K <= 64 -> int16 s -> last_inv K cnt d ->
  match accepted_sample d s with
  | None =>
      snd (process_axis d s) = None /\ last_inv K cnt (fst (process_axis d s))
  | Some v =>
      last_inv K (S cnt) (fst (process_axis d s)) /\
      snd (process_axis d s) =
        if Z.of_nat (S cnt) mod K =? 0 then Some v else None
  end.
Proof.
  intros HK Hs Hinv.
  assert (Hm : mode d = ARCAN_ANALOGFILTER_ALAST) by apply Hinv.
  pose proof (process_axis_stages d s) as Hst.
  pose proof (accepted_sample_int16 d s) as Hint.
  destruct (accepted_sample d s) as [v|].
  - destruct Hst as (d2 & Heq & Hsame); try congruence.
    rewrite Heq. apply kernel_store_last; auto.
    eapply last_inv_same_kernel; eauto.
  - destruct Hst as (Hout & Hsame); try congruence.
    split; [assumption|]. eapply last_inv_same_kernel; eauto.
Qed.

Lemma last_inv_feed K d0 l :
  1 <= K <= 64 -> Forall int16 l -> last_inv K 0 d0 ->
  last_inv K (length (accepted_values d0 l)) (fst (feed d0 l)).
Proof.
  intros HK. induction l as [|s l IH] using rev_ind; intros Hl H0.
  - exact H0.
  - apply Forall_app in Hl as [Hl Hs]. apply Forall_inv in Hs.
    specialize (IH Hl H0).
    rewrite feed_app, accepted_values_app. simpl.
    pose proof (process_axis_last_step K _ _ s HK Hs IH) as Hstep.
    destruct (accepted_sample (fst (feed d0 l)) s).
    + rewrite length_app. simpl length. rewrite Nat.add_1_r. apply Hstep.
    + rewrite app_nil_r. apply Hstep.
Qed.

(** X1.  A filter configured in keep-last mode with resulting kernel size K
    and fed 16-bit samples: the n-th sample yields an output exactly when it
    is let through to the kernel and the number of samples let through so far
    is a multiple of K, and the output is that most recent sample as the
    kernel received it. *)
Theorem keeplast_once_per_kernel (d0 : axis_opts) (lo hi dz bufsz : Z)
  (samples : list Z) :
  length (flt_kernel d0) = 64%nat ->
  Forall int16 samples ->
  forall (n : nat) (s : Z),
    samples !! n = Some s ->
    let d := analogfilter_axis d0 lo hi dz bufsz ARCAN_ANALOGFILTER_ALAST in
    let K := kernel_sz d in
    let cnt := length (accepted_values d (take (S n) samples)) in
    snd (feed d samples) !! n =
      Some (match accepted_sample (fst (feed d (take n samples))) s with
            | Some v => if Z.of_nat cnt mod K =? 0 then Some v else None
            | None => None
            end).
Proof.
  intros Hlen Hsamples n s Hn d K cnt.
  destruct (analogfilter_axis_fields d0 lo hi dz bufsz ARCAN_ANALOGFILTER_ALAST)
    as (Hm & HK & Hofs & Hk).
  fold d in Hm, HK, Hofs, Hk. fold K in HK.
  assert (H0 : last_inv K 0 d).
  { unfold last_inv. rewrite Hm, Hofs, Hk. simpl.
    rewrite Z.mod_0_l by lia. auto. }
  assert (Hpre : Forall int16 (take n samples)) by (apply Forall_take; assumption).
  assert (Hs : int16 s) by exact (Forall_lookup_1 _ _ _ _ Hsamples Hn).
  pose proof (last_inv_feed K d (take n samples) HK Hpre H0) as Hinv.
  pose proof (process_axis_last_step K _ _ s HK Hs Hinv) as Hstep.
  rewrite (feed_lookup _ _ _ _ Hn). f_equal.
  subst cnt. rewrite (take_S_r _ _ _ Hn), accepted_values_app. simpl.
  destruct (accepted_sample (fst (feed d (take n samples))) s).
  - rewrite length_app. simpl length. rewrite Nat.add_1_r. apply Hstep.
  - apply Hstep.
Qed.

Lemma keeplast_once_per_kernel_witness :
  snd (feed (analogfilter_axis axis_fresh (-100) 100 0 2
               ARCAN_ANALOGFILTER_ALAST) [10; 21; -5; -8]) !! 1%nat
    = Some (Some 21) /\
  snd (feed (analogfilter_axis axis_fresh (-100) 100 0 2
               ARCAN_ANALOGFILTER_ALAST) [10; 21; -5; -8]) !! 2%nat
    = Some None.
Proof.
  assert (Hs : Forall int16 [10; 21; -5; -8])
    by (repeat (apply Forall_cons_2; [unfold int16; lia|]); apply Forall_nil_2).
  split.
  - exact (keeplast_once_per_kernel axis_fresh (-100) 100 0 2
             [10; 21; -5; -8] eq_refl Hs 1%nat 21 eq_refl).
  - exact (keeplast_once_per_kernel axis_fresh (-100) 100 0 2
             [10; 21; -5; -8] eq_refl Hs 2%nat (-5) eq_refl).
Defined.

(** ** Edge hysteresis *)

Lemma set_indzone_same d : indzone d = false -> set_indzone false d = d.
Proof. destruct d; simpl; intros ->; reflexivity. Qed.

Lemma kernel_store_flags d v :
  mode (fst (kernel_store d v)) = mode d /\
  lower (fst (kernel_store d v)) = lower d /\
  upper (fst (kernel_store d v)) = upper d /\
  deadzone (fst (kernel_store d v)) = deadzone d /\
  inlzone (fst (kernel_store d v)) = inlzone d /\
  inuzone (fst (kernel_store d v)) = inuzone d /\
  indzone (fst (kernel_store d v)) = indzone d.
Proof.
  unfold kernel_store. destruct (kernel_ofs d + 1 <? kernel_sz d); simpl; tauto.
Qed.

Lemma kernel_store_at_once d v :
  kernel_sz d <= 1 -> 0 <= kernel_ofs d -> snd (kernel_store d v) = Some v.
Proof.
  intros HK Hofs. unfold kernel_store.
  destruct (kernel_ofs d + 1 <? kernel_sz d) eqn:E; zbool; [lia|].
  destruct (kernel_sz d >? 1) eqn:E1; zbool; [lia|]. reflexivity.
Qed.

(** Past the upper bound with the flag set and outside the deadzone, a
    sample changes nothing. *)
Lemma process_axis_in_upper_zone d s :
  mode d <> ARCAN_ANALOGFILTER_PASS ->
  lower d <= upper d -> indzone d = false -> inuzone d = true ->
  upper d < s -> deadzone d <= Z.abs s ->
  process_axis d s = (d, None).
Proof.
  intros Hp Hband Hin Hu Hs Hdz.
  unfold process_axis, quickfilter_deadzone, edge_and_kernel, quickfilter_edge.
  destruct (Z.abs s <? deadzone d) eqn:E0; zbool; [lia|].
  rewrite (set_indzone_same d Hin).
  destruct (s <? lower d) eqn:E1; zbool; [lia|].
  destruct (s >? upper d) eqn:E2; zbool; [|lia].
  rewrite Hu. destruct (mode d); try reflexivity; congruence.
Qed.

Lemma process_axis_in_lower_zone d s :
  mode d <> ARCAN_ANALOGFILTER_PASS ->
  indzone d = false -> inlzone d = true ->
  s < lower d -> deadzone d <= Z.abs s ->
  process_axis d s = (d, None).
Proof.
  intros Hp Hin Hl Hs Hdz.
  unfold process_axis, quickfilter_deadzone, edge_and_kernel, quickfilter_edge.
  destruct (Z.abs s <? deadzone d) eqn:E0; zbool; [lia|].
  rewrite (set_indzone_same d Hin).
  destruct (s <? lower d) eqn:E1; zbool; [|lia].
  rewrite Hl. destruct (mode d); try reflexivity; congruence.
Qed.

Lemma feed_constant d (P : Z -> Prop) rest :
  (forall s, P s -> process_axis d s = (d, None)) ->
  Forall P rest ->
  feed d rest = (d, map (fun _ => None) rest).
Proof.
  intros Hstep Hrest. induction Hrest as [|s rest Hs Hrest IH]; simpl.
  - reflexivity.
  - rewrite (Hstep s Hs). simpl. rewrite IH. reflexivity.
Qed.

(** A sample inside the band and outside the deadzone clears both edge
    flags. *)
Lemma process_axis_in_band_flags d s :
  mode d <> ARCAN_ANALOGFILTER_NONE -> mode d <> ARCAN_ANALOGFILTER_PASS ->
  lower d <= s <= upper d -> deadzone d <= Z.abs s ->
  inlzone (fst (process_axis d s)) = false /\
  inuzone (fst (process_axis d s)) = false.
Proof.
  intros Hn Hp Hband Hdz.
  assert (Heq : process_axis d s =
                kernel_store (set_edgezone false false (set_indzone false d)) s).
  { unfold process_axis, quickfilter_deadzone, edge_and_kernel,
      quickfilter_edge.
    destruct (Z.abs s <? deadzone d) eqn:E0; zbool; [lia|].
    cbn [lower upper set_indzone].
    destruct (s <? lower d) eqn:E1; zbool; [lia|].
    destruct (s >? upper d) eqn:E2; zbool; [lia|].
    destruct (mode d); try reflexivity; congruence. }
  rewrite Heq.
  destruct (kernel_store_flags
              (set_edgezone false false (set_indzone false d)) s)
    as (_ & _ & _ & _ & Hl & Hu & _).
  rewrite Hl, Hu. split; reflexivity.
Qed.

(** X2.  A filter in a filtering mode with lower <= upper whose upper-zone
    flag is clear, fed a run of samples above the upper bound (and outside
    the deadzone): the first one is replaced by the upper bound and handed to
    the kernel, every later one yields nothing and leaves the filter as it
    is; with a kernel of at most one entry the run yields the upper bound
    exactly once.  A following sample inside the band clears both edge
    flags, so that the next excursion is reported again. *)
Theorem upper_edge_once (d : axis_opts) (s1 : Z) (rest : list Z) :
  mode d <> ARCAN_ANALOGFILTER_NONE ->
  mode d <> ARCAN_ANALOGFILTER_PASS ->
  lower d <= upper d ->
  inuzone d = false ->
  Forall (fun s => upper d < s /\ deadzone d <= Z.abs s) (s1 :: rest) ->
  let entry :=
    kernel_store (set_edgezone false true (set_indzone false d))
      (wrap16 (upper d)) in
  feed d (s1 :: rest) = (fst entry, snd entry :: map (fun _ => None) rest) /\
  (kernel_sz d <= 1 -> 0 <= kernel_ofs d ->
   snd (feed d (s1 :: rest)) =
     Some (wrap16 (upper d)) :: map (fun _ => None) rest) /\
  (forall s, lower d <= s <= upper d -> deadzone d <= Z.abs s ->
     inlzone (fst (process_axis (fst (feed d (s1 :: rest))) s)) = false /\
     inuzone (fst (process_axis (fst (feed d (s1 :: rest))) s)) = false).
Proof.
  intros Hn Hp Hband Hu Hrun entry.
  apply Forall_cons in Hrun as [[Hs1 Hdz1] Hrest].
  destruct (kernel_store_flags
              (set_edgezone false true (set_indzone false d))
              (wrap16 (upper d)))
    as (Km & Kl & Kup & Kd & Kil & Kiu & Kid).
  fold entry in Km, Kl, Kup, Kd, Kil, Kiu, Kid.
  cbn [mode lower upper deadzone inlzone inuzone indzone set_edgezone
         set_indzone] in Km, Kl, Kup, Kd, Kil, Kiu, Kid.
  assert (Hstep : process_axis d s1 = entry).
  { unfold process_axis, quickfilter_deadzone, edge_and_kernel,
      quickfilter_edge.
    destruct (Z.abs s1 <? deadzone d) eqn:E0; zbool; [lia|].
    cbn [lower upper inuzone set_indzone].
    destruct (s1 <? lower d) eqn:E1; zbool; [lia|].
    destruct (s1 >? upper d) eqn:E2; zbool; [|lia].
    rewrite Hu. destruct (mode d); try reflexivity; congruence. }
  assert (Hfeed : feed d (s1 :: rest) =
                  (fst entry, snd entry :: map (fun _ => None) rest)).
  { simpl. rewrite Hstep.
    rewrite (feed_constant (fst entry)
               (fun s => upper d < s /\ deadzone d <= Z.abs s) rest);
      [reflexivity | | assumption].
    intros s [Hs Hdz]. apply process_axis_in_upper_zone; congruence || lia. }
  split; [exact Hfeed|]. split.
  - intros HK Hofs. rewrite Hfeed. simpl. f_equal.
    subst entry. apply kernel_store_at_once; simpl; assumption.
  - intros s Hs Hdz. rewrite Hfeed. simpl.
    apply process_axis_in_band_flags; congruence || lia.
Qed.

Lemma upper_edge_once_witness :
  snd (feed (analogfilter_axis axis_fresh (-100) 100 0 1
               ARCAN_ANALOGFILTER_AVG) [150; 170; 160]) =
    [Some 100; None; None].
Proof.
  assert (Hrun : Forall (fun s => 100 < s /\ 0 <= Z.abs s) [150; 170; 160])
    by (repeat (apply Forall_cons_2; [simpl; lia|]); apply Forall_nil_2).
  destruct (upper_edge_once
              (analogfilter_axis axis_fresh (-100) 100 0 1
                 ARCAN_ANALOGFILTER_AVG) 150 [170; 160]
              ltac:(discriminate) ltac:(discriminate) ltac:(simpl; lia)
              eq_refl Hrun) as (_ & Hone & _).
  apply Hone; simpl; lia.
Defined.

(** X3.  The same at the lower bound: with the lower-zone flag clear, a run
    of samples below the lower bound (and outside the deadzone) hands the
    lower bound to the kernel once, every later sample of the run yields
    nothing and leaves the filter as it is; with a kernel of at most one
    entry the run yields the lower bound exactly once. *)
Theorem lower_edge_once (d : axis_opts) (s1 : Z) (rest : list Z) :
  mode d <> ARCAN_ANALOGFILTER_NONE ->
  mode d <> ARCAN_ANALOGFILTER_PASS ->
  inlzone d = false ->
  Forall (fun s => s < lower d /\ deadzone d <= Z.abs s) (s1 :: rest) ->
  let entry :=
    kernel_store (set_edgezone true false (set_indzone false d))
      (wrap16 (lower d)) in
  feed d (s1 :: rest) = (fst entry, snd entry :: map (fun _ => None) rest) /\
  (kernel_sz d <= 1 -> 0 <= kernel_ofs d ->
   snd (feed d (s1 :: rest)) =
     Some (wrap16 (lower d)) :: map (fun _ => None) rest).
Proof.
  intros Hn Hp Hl Hrun entry.
  apply Forall_cons in Hrun as [[Hs1 Hdz1] Hrest].
  destruct (kernel_store_flags
              (set_edgezone true false (set_indzone false d))
              (wrap16 (lower d)))
    as (Km & Kl & Kup & Kd & Kil & Kiu & Kid).
  fold entry in Km, Kl, Kup, Kd, Kil, Kiu, Kid.
  cbn [mode lower upper deadzone inlzone inuzone indzone set_edgezone
         set_indzone] in Km, Kl, Kup, Kd, Kil, Kiu, Kid.
  assert (Hstep : process_axis d s1 = entry).
  { unfold process_axis, quickfilter_deadzone, edge_and_kernel,
      quickfilter_edge.
    destruct (Z.abs s1 <? deadzone d) eqn:E0; zbool; [lia|].
    cbn [lower upper inlzone set_indzone].
    destruct (s1 <? lower d) eqn:E1; zbool; [|lia].
    rewrite Hl. destruct (mode d); try reflexivity; congruence. }
  assert (Hfeed : feed d (s1 :: rest) =
                  (fst entry, snd entry :: map (fun _ => None) rest)).
  { simpl. rewrite Hstep.
    rewrite (feed_constant (fst entry)
               (fun s => s < lower d /\ deadzone d <= Z.abs s) rest);
      [reflexivity | | assumption].
    intros s [Hs Hdz]. apply process_axis_in_lower_zone; congruence || lia. }
  split; [exact Hfeed|].
  intros HK Hofs. rewrite Hfeed. simpl. f_equal.
  subst entry. apply kernel_store_at_once; simpl; assumption.
Qed.

Lemma lower_edge_once_witness :
  snd (feed (analogfilter_axis axis_fresh (-100) 100 0 1
               ARCAN_ANALOGFILTER_AVG) [-150; -170]) = [Some (-100); None].
Proof.
  assert (Hrun : Forall (fun s => s < -100 /\ 0 <= Z.abs s) [-150; -170])
    by (repeat (apply Forall_cons_2; [simpl; lia|]); apply Forall_nil_2).
  destruct (lower_edge_once
              (analogfilter_axis axis_fresh (-100) 100 0 1
                 ARCAN_ANALOGFILTER_AVG) (-150) [-170]
              ltac:(discriminate) ltac:(discriminate) eq_refl Hrun)
    as (_ & Hone).
  apply Hone; simpl; lia.
Defined.

(** ** Outputs stay inside the band *)

Lemma sumZ_band lo hi l :
  Forall (fun v => lo <= v <= hi) l ->
  lo * Z.of_nat (length l) <= sumZ l <= hi * Z.of_nat (length l).
Proof.
  unfold sumZ. induction 1 as [|x l Hx Hl IH]; simpl length; simpl fold_right.
  - lia.
  - rewrite Nat2Z.inj_succ, !Z.mul_succ_r. lia.
Qed.

Lemma quickfilter_edge_band d s d2 v :
  lower d <= upper d -> int16 (lower d) -> int16 (upper d) ->
  quickfilter_edge d s = Some (d2, v) ->
  lower d <= v <= upper d /\ same_kernel d d2.
Proof.
  intros Hband Hl Hu. unfold quickfilter_edge.
  repeat case_match; intros Heq; simplify_eq; zbool;
    rewrite ?(wrap16_id _ Hl), ?(wrap16_id _ Hu);
    (split; [lia | unfold same_kernel; simpl; tauto]).
Qed.

Lemma band_inv_same_kernel lo hi d d' :
  same_kernel d d' -> band_inv lo hi d -> band_inv lo hi d'.
Proof.
  intros (Hm & Hsz & Hofs & Hk & Hl & Hu & _).
  unfold band_inv. rewrite Hm, Hsz, Hofs, Hk, Hl, Hu. tauto.
Qed.

Lemma kernel_store_band lo hi d v :
  int16 lo -> int16 hi -> lo <= v <= hi -> band_inv lo hi d ->
  band_inv lo hi (fst (kernel_store d v)) /\
  forall o, snd (kernel_store d v) = Some o -> lo <= o <= hi.
Proof.
  intros Hlo Hhi Hv (Hn & Hp & Hl & Hu & HK & Hofs & Hlen & Hpend).
  assert (Hv16 : int16 v) by (unfold int16 in *; lia).
  assert (Htake : take (S (Z.to_nat (kernel_ofs d)))
                    (<[Z.to_nat (kernel_ofs d) := v]> (flt_kernel d)) =
                  take (Z.to_nat (kernel_ofs d)) (flt_kernel d) ++ [v])
    by (apply take_insert_snoc; lia).
  assert (Hall : Forall (fun x => lo <= x <= hi)
                   (take (Z.to_nat (kernel_ofs d)) (flt_kernel d) ++ [v]))
    by (apply Forall_app; split; [assumption | apply Forall_singleton; lia]).
  unfold kernel_store.
  destruct (kernel_ofs d + 1 <? kernel_sz d) eqn:Hlt; zbool.
  - split; [|discriminate].
    unfold band_inv; simpl. rewrite length_insert.
    repeat split; try assumption; try lia.
    replace (Z.to_nat (kernel_ofs d + 1)) with (S (Z.to_nat (kernel_ofs d)))
      by lia.
    rewrite Htake. exact Hall.
  - split.
    + unfold band_inv; simpl. rewrite length_insert.
      repeat split; try assumption; try lia. constructor.
    + simpl. intros o [= <-].
      destruct (kernel_sz d >? 1) eqn:HK1; [|lia].
      assert (HofsK : Z.to_nat (kernel_sz d) = S (Z.to_nat (kernel_ofs d)))
        by lia.
      destruct (mode d) eqn:Hm; try congruence.
      * rewrite kernel_tot_sum; try lia.
        2:{ rewrite HofsK, Htake.
            eapply Forall_impl; [exact Hall|].
            unfold int16 in *. simpl. intros; lia. }
        rewrite HofsK, Htake.
        pose proof (sumZ_band lo hi _ Hall) as Hs.
        rewrite length_app, length_take in Hs. simpl length in Hs.
        replace (Z.of_nat (Z.to_nat (kernel_ofs d) `min` length (flt_kernel d) + 1))
          with (kernel_sz d) in Hs by lia.
        set (tot := sumZ _) in *.
        assert (Hq : lo <= Z.quot tot (kernel_sz d) <= hi).
        { split.
          - apply Z.quot_le_lower_bound; lia.
          - apply Z.quot_le_upper_bound; lia. }
        destruct (tot =? 0) eqn:E; zbool.
        -- rewrite E, Z.quot_0_l in Hq by lia.
           rewrite wrap16_id by (unfold int16; lia). exact Hq.
        -- rewrite wrap16_id by (unfold int16 in *; lia). exact Hq.
      * replace (Z.to_nat (kernel_sz d - 1)) with (Z.to_nat (kernel_ofs d))
          by lia.
        rewrite nth_lookup, list_lookup_insert_eq by lia. simpl.
        rewrite wrap16_id by assumption. lia.
Qed.

Lemma process_axis_band lo hi d s :
  lo <= hi -> int16 lo -> int16 hi -> band_inv lo hi d ->
  band_inv lo hi (fst (process_axis d s)) /\
  forall o, snd (process_axis d s) = Some o -> lo <= o <= hi.
Proof.
  intros Hband Hlo Hhi Hinv.
  assert (Hinv' := Hinv).
  destruct Hinv' as (Hn & Hp & Hl & Hu & _).
  unfold process_axis.
  destruct (mode d) eqn:Hm; try congruence.
  - destruct (quickfilter_deadzone d s) as [[d1 s1]|] eqn:Hdz;
      [|split; [assumption | discriminate]].
    assert (Hsame1 : same_kernel d d1).
    { unfold quickfilter_deadzone in Hdz.
      repeat case_match; simplify_eq; unfold same_kernel; simpl; tauto. }
    pose proof (band_inv_same_kernel _ _ _ _ Hsame1 Hinv) as Hinv1.
    unfold edge_and_kernel.
    destruct (quickfilter_edge d1 s1) as [[d2 v]|] eqn:He;
      [|split; [assumption | discriminate]].
    destruct Hinv1 as (_ & _ & Hl1 & Hu1 & _).
    destruct (quickfilter_edge_band d1 s1 d2 v) as [Hv Hsame2];
      rewrite ?Hl1, ?Hu1; try assumption.
    rewrite Hl1, Hu1 in Hv.
    apply kernel_store_band; try assumption.
    eapply band_inv_same_kernel; [exact Hsame2|].
    eapply band_inv_same_kernel; eassumption.
  - destruct (quickfilter_deadzone d s) as [[d1 s1]|] eqn:Hdz;
      [|split; [assumption | discriminate]].
    assert (Hsame1 : same_kernel d d1).
    { unfold quickfilter_deadzone in Hdz.
      repeat case_match; simplify_eq; unfold same_kernel; simpl; tauto. }
    pose proof (band_inv_same_kernel _ _ _ _ Hsame1 Hinv) as Hinv1.
    unfold edge_and_kernel.
    destruct (quickfilter_edge d1 s1) as [[d2 v]|] eqn:He;
      [|split; [assumption | discriminate]].
    destruct Hinv1 as (_ & _ & Hl1 & Hu1 & _).
    destruct (quickfilter_edge_band d1 s1 d2 v) as [Hv Hsame2];
      rewrite ?Hl1, ?Hu1; try assumption.
    rewrite Hl1, Hu1 in Hv.
    apply kernel_store_band; try assumption.
    eapply band_inv_same_kernel; [exact Hsame2|].
    eapply band_inv_same_kernel; eassumption.
Qed.

Lemma feed_band lo hi d samples :
  lo <= hi -> int16 lo -> int16 hi -> band_inv lo hi d ->
  Forall (fun r => forall o, r = Some o -> lo <= o <= hi) (snd (feed d samples)).
Proof.
  intros Hband Hlo Hhi. revert d.
  induction samples as [|s samples IH]; intros d Hinv; simpl.
  - constructor.
  - destruct (process_axis_band lo hi d s Hband Hlo Hhi Hinv) as [Hinv' Hout].
    constructor; [exact Hout | apply IH; exact Hinv'].
Qed.

(** X4.  A filter configured in averaging or keep-last mode with 16-bit
    bounds lower <= upper never outputs a value outside lower..upper,
    whatever samples it is fed. *)
Theorem outputs_within_band (d0 : axis_opts) (lo hi dz bufsz : Z)
  (kind : ARCAN_ANALOGFILTER_KIND) (samples : list Z) :
  kind <> ARCAN_ANALOGFILTER_NONE ->
  kind <> ARCAN_ANALOGFILTER_PASS ->
  int16 lo -> int16 hi -> lo <= hi ->
  length (flt_kernel d0) = 64%nat ->
  forall n o,
    snd (feed (analogfilter_axis d0 lo hi dz bufsz kind) samples) !! n
      = Some (Some o) ->
    lo <= o <= hi.
Proof.
  intros Hn Hp Hlo Hhi Hband Hlen n o Hout.
  destruct (analogfilter_axis_fields d0 lo hi dz bufsz kind)
    as (Hm & HK & Hofs & Hk).
  assert (Hinv : band_inv lo hi (analogfilter_axis d0 lo hi dz bufsz kind)).
  { unfold band_inv. rewrite Hm, Hofs, Hk.
    change (Z.to_nat 0) with 0%nat. rewrite take_0.
    repeat split; try assumption; try lia; try reflexivity. constructor. }
  pose proof (feed_band lo hi _ samples Hband Hlo Hhi Hinv) as Hall.
  exact (Forall_lookup_1 _ _ _ _ Hall Hout o eq_refl).
Qed.

Lemma outputs_within_band_witness :
  snd (feed (analogfilter_axis axis_fresh (-10) 10 3 2 ARCAN_ANALOGFILTER_AVG)
         [50; 60; 1; 70]) !! 2%nat = Some (Some 5) /\
  -10 <= 5 <= 10.
Proof.
  split; [reflexivity|].
  refine (outputs_within_band axis_fresh (-10) 10 3 2 ARCAN_ANALOGFILTER_AVG
            [50; 60; 1; 70] ltac:(discriminate) ltac:(discriminate)
            ltac:(unfold int16; lia) ltac:(unfold int16; lia) ltac:(lia)
            eq_refl 2%nat 5 _).
  reflexivity.
Defined.

(** ** Setting and reading back a filter *)

Lemma sweep_devnum_alter (f : arcan_devnode -> arcan_devnode) l k i n d :
  (forall x, devnum (f x) = devnum x) ->
  sweep_devnum (alter f k l) i n d = sweep_devnum l i n d.
Proof.
  intros Hf. unfold alter. revert k i n.
  induction l as [|x l IH]; intros k i n; [reflexivity|].
  destruct n as [|n]; [destruct k; reflexivity|].
  destruct k as [|k]; simpl.
  - rewrite Hf. reflexivity.
  - rewrite IH. reflexivity.
Qed.

Lemma put_node_axis_keeps r a node :
  devnum (put_node_axis r a node) = devnum node /\
  type (put_node_axis r a node) = type node /\
  game_axes (put_node_axis r a node) = game_axes node /\
  handle (put_node_axis r a node) = handle node /\
  label (put_node_axis r a node) = label node.
Proof. destruct r as [s|s i|s []]; simpl; tauto. Qed.

Lemma lookup_devnode_put_axis io r a devid :
  lookup_devnode (put_axis io r a) devid = lookup_devnode io devid.
Proof.
  unfold lookup_devnode, put_axis. simpl.
  rewrite sweep_devnum_alter; [reflexivity|].
  intros x. apply put_node_axis_keeps.
Qed.

Lemma find_axis_put_axis io r a devid axisid :
  find_axis (put_axis io r a) devid axisid = find_axis io devid axisid.
Proof.
  unfold find_axis. rewrite lookup_devnode_put_axis.
  destruct (lookup_devnode io devid) as [slot|]; [|reflexivity].
  unfold put_axis. simpl.
  destruct (decide (ref_slot r = slot)) as [<-|Hne].
  - rewrite list_lookup_alter_eq.
    destruct (nodes io !! ref_slot r) as [node|]; simpl; [|reflexivity].
    destruct (put_node_axis_keeps r a node) as (_ & Ht & Hax & _).
    unfold node_axis. rewrite Ht, Hax. reflexivity.
  - rewrite list_lookup_alter_ne by assumption. reflexivity.
Qed.

Lemma get_put_axis_same io r a old :
  get_axis io r = Some old -> get_axis (put_axis io r a) r = Some a.
Proof.
  unfold get_axis, put_axis.
  destruct r as [s|s i|s second]; simpl; rewrite list_lookup_alter_eq;
    destruct (nodes io !! s) as [node|]; simpl; try discriminate.
  - reflexivity.
  - destruct (game_adata node) as [ad|]; simpl; [|discriminate].
    intros Hi. apply list_lookup_insert_eq. eapply lookup_lt_Some; eauto.
  - destruct second; reflexivity.
Qed.

Lemma get_put_axis_other io r a r' :
  r' <> r -> get_axis (put_axis io r a) r' = get_axis io r'.
Proof.
  intros Hne. unfold get_axis, put_axis.
  destruct r' as [s'|s' i'|s' second']; simpl;
    (destruct (decide (ref_slot r = s')) as [Hs|Hs];
     [rewrite <- Hs, list_lookup_alter_eq
     |rewrite list_lookup_alter_ne by assumption; reflexivity]);
    destruct (nodes io !! ref_slot r) as [node|]; simpl; try reflexivity;
    destruct r as [s|s i|s second]; simpl in *; subst; try reflexivity;
    try congruence.
  all: repeat match goal with b : bool |- _ => destruct b end;
    try reflexivity; try congruence.
  destruct (game_adata node) as [ad|]; simpl; [|reflexivity].
  apply list_lookup_insert_ne. congruence.
Qed.

Lemma analogstate_ok_axis io devid axisid out :
  fst (platform_event_analogstate io devid axisid out) = ARCAN_OK ->
  exists r axis,
    fst (find_axis io devid axisid) = Some r /\ get_axis io r = Some axis.
Proof.
  unfold platform_event_analogstate.
  destruct (find_axis io devid axisid) as [[r|] gotnode]; simpl.
  - destruct (get_axis io r) as [axis|] eqn:Hg; simpl.
    + intros _. eauto.
    + destruct gotnode; discriminate.
  - destruct gotnode; discriminate.
Qed.

(** X5.  When the state query succeeds for (devid, axisid), setting the
    filter of that axis and querying again returns what was set: the bounds,
    the deadzone and the mode as given, the kernel size clamped to 1..64. *)
Theorem analogfilter_then_analogstate (io : iodev_t) (devid axisid : Z)
  (lo hi dz sz : Z) (kind : ARCAN_ANALOGFILTER_KIND) (out out' : analog_out) :
  fst (platform_event_analogstate io devid axisid out) = ARCAN_OK ->
  platform_event_analogstate
    (platform_event_analogfilter io devid axisid lo hi dz sz kind)
    devid axisid out' =
  (ARCAN_OK, mk_analog_out lo hi dz (Z.max 1 (Z.min 64 sz)) kind).
Proof.
  intros Hok.
  destruct (analogstate_ok_axis io devid axisid out Hok)
    as (r & axis & Hfind & Hget).
  unfold platform_event_analogfilter. rewrite Hfind, Hget.
  unfold platform_event_analogstate.
  rewrite find_axis_put_axis.
  destruct (find_axis io devid axisid) as [r0 gotnode]. simpl in Hfind.
  subst r0. simpl.
  rewrite (get_put_axis_same io r _ axis Hget).
  unfold analogfilter_axis, set_analogstate, kernel_lim. simpl.
  do 2 f_equal. repeat case_match; zbool; lia.
Qed.

Lemma analogfilter_then_analogstate_witness :
  platform_event_analogstate
    (platform_event_analogfilter
       (fst (got_device (H := headers_sample) iodev_init 5 (pad_probe 4660)))
       4660 1 (-50) 50 5 100 ARCAN_ANALOGFILTER_ALAST)
    4660 1 (mk_analog_out 0 0 0 0 ARCAN_ANALOGFILTER_NONE) =
  (ARCAN_OK, mk_analog_out (-50) 50 5 64 ARCAN_ANALOGFILTER_ALAST).
Proof.
  apply (analogfilter_then_analogstate
           (fst (got_device (H := headers_sample) iodev_init 5
                   (pad_probe 4660)))
           4660 1 (-50) 50 5 100 ARCAN_ANALOGFILTER_ALAST
           (mk_analog_out 0 0 0 0 ARCAN_ANALOGFILTER_NONE)).
  vm_compute. reflexivity.
Defined.

(** X6.  Setting a filter touches nothing else: an axis that the state query
    resolves to a different filter reads as before, the lookup of every id is
    as before, and the count, the table size, the poll set and the pointer id
    stay.  When (devid, axisid) resolves to no axis the registry is left as
    it is. *)
Theorem analogfilter_frame (io : iodev_t) (devid axisid : Z)
  (lo hi dz sz : Z) (kind : ARCAN_ANALOGFILTER_KIND) :
  let io' := platform_event_analogfilter io devid axisid lo hi dz sz kind in
  (forall devid' axisid' out,
     fst (find_axis io devid' axisid') <> fst (find_axis io devid axisid) ->
     platform_event_analogstate io' devid' axisid' out =
     platform_event_analogstate io devid' axisid' out) /\
  (forall devid', lookup_devnode io' devid' = lookup_devnode io devid') /\
  n_devs io' = n_devs io /\ sz_nodes io' = sz_nodes io /\
  pollset io' = pollset io /\ mouseid io' = mouseid io /\
  length (nodes io') = length (nodes io) /\
  (fst (platform_event_analogstate io devid axisid
          (mk_analog_out 0 0 0 0 kind)) <> ARCAN_OK -> io' = io).
Proof.
  cbv zeta. unfold platform_event_analogfilter.
  destruct (fst (find_axis io devid axisid)) as [r|] eqn:Hfind.
  - destruct (get_axis io r) as [axis|] eqn:Hget.
    + repeat split; try reflexivity.
      * intros devid' axisid' out Hne.
        unfold platform_event_analogstate. rewrite find_axis_put_axis.
        destruct (find_axis io devid' axisid') as [[r'|] gotnode];
          simpl in *; [|reflexivity].
        rewrite get_put_axis_other by congruence. reflexivity.
      * intros devid'. apply lookup_devnode_put_axis.
      * unfold put_axis. simpl. apply length_alter.
      * intros Hbad. exfalso. apply Hbad.
        unfold platform_event_analogstate.
        destruct (find_axis io devid axisid) as [r0 gotnode].
        simpl in Hfind. subst r0. simpl. rewrite Hget. reflexivity.
    + repeat split; reflexivity.
  - repeat split; reflexivity.
Qed.

(** ** Looking a device up *)

Lemma sweep_devnum_sound l i n dnum s :
  sweep_devnum l i n dnum = Some s ->
  exists k x,
    s = (i + k)%nat /\ (k < n)%nat /\ l !! k = Some x /\ devnum x = dnum /\
    forall j y, (j < k)%nat -> l !! j = Some y -> devnum y <> dnum.
Proof.
  revert i n. induction l as [|a l IH]; intros i n Hs.
  - destruct n; discriminate.
  - destruct n as [|n]; [discriminate|]. simpl in Hs.
    destruct (devnum a =? dnum) eqn:E; zbool.
    + injection Hs as <-. exists 0%nat, a.
      repeat split; try lia; try assumption.
    + destruct (IH _ _ Hs) as (k & x & -> & Hk & Hx & Hd & Hbefore).
      exists (S k), x. repeat split; try lia; try assumption.
      intros [|j] y Hj Hy.
      * injection Hy as <-. assumption.
      * apply (Hbefore j y); [lia | assumption].
Qed.

Lemma sweep_devnum_none l i n dnum :
  sweep_devnum l i n dnum = None ->
  forall k x, (k < n)%nat -> l !! k = Some x -> devnum x <> dnum.
Proof.
  revert i n. induction l as [|a l IH]; intros i n Hs k x Hk Hx.
  - rewrite lookup_nil in Hx. discriminate.
  - destruct n as [|n]; [lia|]. simpl in Hs.
    destruct (devnum a =? dnum) eqn:E; zbool; [discriminate|].
    destruct k as [|k].
    + injection Hx as <-. assumption.
    + apply (IH _ _ Hs k x); [lia | assumption].
Qed.

(** X7.  What a lookup returns.  With a pointer id that is not negative, the
    slot returned is below the device count, and it is either the id itself
    (an id below the count) or the first slot below the count whose device
    number is the id; a lookup that fails means the id is not below the count
    and no slot below the count carries it.  A negative id stands for the
    pointer id. *)
Theorem lookup_devnode_result (io : iodev_t) (devid : Z) :
  0 <= mouseid io ->
  let id := if devid <? 0 then mouseid io else devid in
  match lookup_devnode io devid with
  | Some slot =>
      Z.of_nat slot < n_devs io /\
      (id < n_devs io /\ Z.of_nat slot = id \/
       n_devs io <= id /\
       exists node,
         nodes io !! slot = Some node /\ devnum node = id /\
         forall j y, (j < slot)%nat -> nodes io !! j = Some y ->
                     devnum y <> id)
  | None =>
      n_devs io <= id /\
      forall k x, Z.of_nat k < n_devs io -> nodes io !! k = Some x ->
                  devnum x <> id
  end.
Proof.
  intros Hm. cbv zeta. unfold lookup_devnode.
  set (id := if devid <? 0 then mouseid io else devid).
  assert (Hid : 0 <= id).
  { subst id. destruct (devid <? 0) eqn:E; zbool; lia. }
  clearbody id.
  destruct (id <? n_devs io) eqn:E; zbool.
  - split; [lia|]. left. split; [assumption | lia].
  - destruct (sweep_devnum (nodes io) 0 (Z.to_nat (n_devs io)) id) as [s|]
      eqn:Hs.
    + destruct (sweep_devnum_sound _ _ _ _ _ Hs)
        as (k & x & -> & Hk & Hx & Hd & Hbefore).
      simpl. split; [lia|]. right. split; [assumption|].
      exists x. repeat split; assumption.
    + split; [assumption|]. intros k x Hk.
      apply (sweep_devnum_none _ _ _ _ Hs). lia.
Qed.

Lemma lookup_devnode_result_witness :
  let io := fst (got_device (H := headers_sample) iodev_init 5
                   (pad_probe 4660)) in
  0 <= mouseid io /\
  match lookup_devnode io 4660 with
  | Some slot =>
      Z.of_nat slot < n_devs io /\
      (4660 < n_devs io /\ Z.of_nat slot = 4660 \/
       n_devs io <= 4660 /\
       exists node,
         nodes io !! slot = Some node /\ devnum node = 4660 /\
         forall j y, (j < slot)%nat -> nodes io !! j = Some y ->
                     devnum y <> 4660)
  | None =>
      n_devs io <= 4660 /\
      forall k x, Z.of_nat k < n_devs io -> nodes io !! k = Some x ->
                  devnum x <> 4660
  end.
Proof.
  cbv zeta.
  set (io := fst (got_device (H := headers_sample) iodev_init 5
                    (pad_probe 4660))).
  assert (Hm : 0 <= mouseid io) by (vm_compute; discriminate).
  split; [exact Hm|].
  exact (lookup_devnode_result io 4660 Hm).
Defined.

(** X8.  A registered device answers to either id: for a node in slot [i]
    below the device count whose device number is not below the count and is
    carried by no earlier slot, the lookup of the slot index and the lookup
    of the device number both return slot [i]. *)
Theorem lookup_either_id (io : iodev_t) (i : nat) (node : arcan_devnode) :
  nodes io !! i = Some node ->
  Z.of_nat i < n_devs io ->
  n_devs io <= devnum node ->
  (forall j y, (j < i)%nat -> nodes io !! j = Some y ->
               devnum y <> devnum node) ->
  lookup_devnode io (Z.of_nat i) = Some i /\
  lookup_devnode io (devnum node) = Some i.
Proof.
  intros Hi Hlt Hge Hfirst. unfold lookup_devnode. split.
  - destruct (Z.of_nat i <? 0) eqn:E0; zbool; [lia|].
    destruct (Z.of_nat i <? n_devs io) eqn:E; zbool; [|lia].
    rewrite Nat2Z.id. reflexivity.
  - destruct (devnum node <? 0) eqn:E0; zbool; [lia|].
    destruct (devnum node <? n_devs io) eqn:E; zbool; [lia|].
    rewrite (sweep_devnum_find (nodes io) 0 (Z.to_nat (n_devs io))
               (devnum node) i node Hi eq_refl ltac:(lia) Hfirst).
    reflexivity.
Qed.

Lemma lookup_either_id_witness :
  let io := fst (got_device (H := headers_sample)
                   (fst (got_device (H := headers_sample) iodev_init 5
                           (pad_probe 4660))) 6 (mouse_probe 9029)) in
  lookup_devnode io 1 = Some 1%nat /\ lookup_devnode io 9029 = Some 1%nat.
Proof.
  cbv zeta.
  set (io := fst (got_device (H := headers_sample)
                   (fst (got_device (H := headers_sample) iodev_init 5
                           (pad_probe 4660))) 6 (mouse_probe 9029))).
  assert (Hn : exists node, nodes io !! 1%nat = Some node /\
                            devnum node = 9029 /\ n_devs io = 2 /\
                            (forall y, nodes io !! 0%nat = Some y ->
                                       devnum y <> 9029)).
  { vm_compute. eexists. split; [reflexivity|].
    split; [reflexivity|]. split; [reflexivity|].
    intros y [= <-]. discriminate. }
  destruct Hn as (node & Hnode & Hd & Hc & H0).
  rewrite <- Hd.
  apply (lookup_either_id io 1 node Hnode); try lia.
  intros [|j] y Hj Hy; [|lia]. rewrite Hd. apply H0. assumption.
Defined.

(** ** What a registration leaves alone *)

Lemma sweep_slots_result l i hole dnum :
  match sweep_slots l i hole dnum with
  | SlotMatch k =>
      exists j old, k = (i + j)%nat /\ l !! j = Some old /\ devnum old = dnum
  | SlotHole (Some h) =>
      hole = Some h \/
      hole = None /\
      exists j x, h = (i + j)%nat /\ l !! j = Some x /\ handle x <= 0
  | SlotHole None => hole = None
  end.
Proof.
  revert i hole. induction l as [|a l IH]; intros i hole; simpl.
  - destruct hole; [left|]; reflexivity.
  - destruct hole as [h|].
    + destruct (devnum a =? dnum) eqn:E; zbool.
      * exists 0%nat, a. repeat split; [lia | assumption].
      * specialize (IH (S i) (Some h)).
        destruct (sweep_slots l (S i) (Some h) dnum) as [k|[h'|]].
        -- destruct IH as (j & old & -> & Hj & Hd).
           exists (S j), old. repeat split; [lia | assumption..].
        -- destruct IH as [IH|(IH & _)]; [left; assumption | discriminate].
        -- discriminate.
    + destruct (handle a <=? 0) eqn:Eh; zbool.
      * specialize (IH (S i) (Some i)).
        destruct (sweep_slots l (S i) (Some i) dnum) as [k|[h'|]].
        -- destruct IH as (j & old & -> & Hj & Hd).
           exists (S j), old. repeat split; [lia | assumption..].
        -- destruct IH as [[= <-]|(IH & _)]; [|discriminate].
           right. split; [reflexivity|]. exists 0%nat, a.
           repeat split; [lia | assumption].
        -- discriminate.
      * destruct (devnum a =? dnum) eqn:E; zbool.
        -- exists 0%nat, a. repeat split; [lia | assumption].
        -- specialize (IH (S i) None).
           destruct (sweep_slots l (S i) None dnum) as [k|[h'|]].
           ++ destruct IH as (j & old & -> & Hj & Hd).
              exists (S j), old. repeat split; [lia | assumption..].
           ++ destruct IH as [IH|(_ & j & x & -> & Hj & Hx)]; [discriminate|].
              right. split; [reflexivity|]. exists (S j), x.
              repeat split; [lia | assumption..].
           ++ reflexivity.
Qed.

Lemma register_node_frame `{Headers} io pr node j n :
  nodes io !! j = Some n -> Z.of_nat j < sz_nodes io ->
  0 < handle n -> devnum n <> devnum node ->
  nodes (fst (register_node io pr node)) !! j = Some n.
Proof.
  intros Hj Hsz Hlive Hother. unfold register_node.
  pose proof (sweep_slots_result
                (take (Z.to_nat (sz_nodes io)) (nodes io)) 0 None
                (devnum node)) as Hres.
  destruct (sweep_slots _ 0 None (devnum node)) as [k|[h|]]; simpl.
  - destruct Hres as (k' & old & -> & Hk & Hd). simpl.
    apply lookup_take_Some in Hk as [Hk _].
    rewrite list_lookup_alter_ne; [assumption|].
    intros ->. congruence.
  - destruct Hres as [Hres|(_ & h' & x & -> & Hh & Hx)]; [discriminate|].
    simpl. apply lookup_take_Some in Hh as [Hh _].
    rewrite list_lookup_insert_ne; [assumption|].
    intros ->. assert (x = n) by congruence. subst x. lia.
  - assert (Hkeep :
      (take (Z.to_nat (sz_nodes io)) (nodes io) ++ replicate 8 devnode_zero)
        !! j = Some n).
    { rewrite lookup_app_l.
      - rewrite lookup_take_lt by lia. assumption.
      - rewrite length_take. apply lookup_lt_Some in Hj. lia. }
    destruct (pr_realloc_nodes pr); simpl; [|assumption].
    destruct (pr_realloc_poll pr); simpl; [|assumption].
    rewrite list_lookup_insert_ne; [assumption|].
    lia.
Qed.

Lemma register_node_counts `{Headers} io pr node :
  n_devs io <= n_devs (fst (register_node io pr node)) <= n_devs io + 1 /\
  (sz_nodes (fst (register_node io pr node)) = sz_nodes io \/
   sz_nodes (fst (register_node io pr node)) = sz_nodes io + 8) /\
  mouseid (fst (register_node io pr node)) = mouseid io.
Proof.
  unfold register_node.
  destruct (sweep_slots _ 0 None (devnum node)) as [k|[h|]]; simpl.
  - repeat split; try reflexivity; lia.
  - repeat split; try reflexivity; lia.
  - destruct (pr_realloc_nodes pr); simpl.
    + destruct (pr_realloc_poll pr); simpl;
        repeat split; try reflexivity; lia.
    + repeat split; try reflexivity; lia.
Qed.

Lemma register_node_closes `{Headers} io pr node c :
  In c (snd (register_node io pr node)) ->
  c = handle node \/
  exists i old,
    nodes io !! i = Some old /\ handle old = c /\ 0 < c /\
    devnum old = devnum node.
Proof.
  unfold register_node.
  pose proof (sweep_slots_result
                (take (Z.to_nat (sz_nodes io)) (nodes io)) 0 None
                (devnum node)) as Hres.
  destruct (sweep_slots _ 0 None (devnum node)) as [k|[h|]]; simpl.
  - destruct Hres as (k' & old & -> & Hk & Hd). simpl.
    apply lookup_take_Some in Hk as [Hk _]. rewrite Hk. simpl.
    destruct (handle old >? 0) eqn:E; zbool; simpl; [|tauto].
    intros [<-|[]]. right. exists k', old.
    repeat split; [assumption | lia | assumption].
  - tauto.
  - destruct (pr_realloc_nodes pr); simpl.
    + destruct (pr_realloc_poll pr); simpl; [tauto|].
      intros [<-|[]]. left. reflexivity.
    + intros [<-|[]]. left. reflexivity.
Qed.

(** The steps of [got_device] that passed the three checks, with the
    classified node named. *)
Lemma got_device_passed `{Headers} io fd pr label dnum prop :
  pr_fstat pr = Some true -> identify pr = Some (label, dnum) ->
  pr_evbit pr 0 = Some prop ->
  exists io1 node,
    handle node = fd /\ devnum node = dnum /\
    n_devs io1 = n_devs io /\ sz_nodes io1 = sz_nodes io /\
    nodes io1 = nodes io /\ pollset io1 = pollset io /\
    got_device io fd pr =
      (fst (register_node io1 pr node),
       (if n_devs io >=? MAX_DEVICES then [fd] else []) ++
       snd (register_node io1 pr node)).
Proof.
  intros Hf Hi Hp. unfold got_device. rewrite Hf, Hi, Hp.
  set (st0 := mk_probe_state (fresh_node fd label dnum) false false false).
  destruct (probe_caps_keeps_id pr prop st0) as (Hh0 & Hd0).
  set (st := probe_caps pr prop st0) in *. clearbody st.
  destruct (classify_keeps io (pr_handler pr) st)
    as (Hh & Hd & Hn & Hs & Hno & Hpo).
  destruct (classify io (pr_handler pr) st) as [io1 node]. simpl in *.
  exists io1, node.
  destruct (register_node io1 pr node) as [io2 closed]. simpl.
  repeat split; try assumption; congruence.
Qed.

(** X9.  The three rejections of [got_device] leave the registry as it is:
    a descriptor that fails [fstat] or is no character or block device is
    not closed; one that cannot be identified is closed once; one whose
    capability query fails is closed, and closed a second time when the
    device limit was already reached. *)
Theorem got_device_rejections `{Headers} (io : iodev_t) (fd : Z)
  (pr : devprobe) :
  (pr_fstat pr <> Some true -> got_device io fd pr = (io, [])) /\
  (pr_fstat pr = Some true -> pr_hash pr = None ->
   got_device io fd pr = (io, [fd])) /\
  (pr_fstat pr = Some true -> is_Some (pr_hash pr) -> pr_evbit pr 0 = None ->
   got_device io fd pr =
     (io, if n_devs io <? MAX_DEVICES then [fd] else [fd; fd])).
Proof.
  unfold got_device, identify. repeat split.
  - destruct (pr_fstat pr) as [[]|]; [congruence | reflexivity..].
  - intros -> ->. reflexivity.
  - intros -> [h ->] ->. simpl.
    destruct (n_devs io >=? MAX_DEVICES) eqn:E;
      destruct (n_devs io <? MAX_DEVICES) eqn:E'; zbool;
      try reflexivity; lia.
Qed.

(** X10.  [got_device] closes no descriptor but the one it was handed and
    the live handle of a slot that carries the identity of the new device. *)
Theorem got_device_closes_only `{Headers} (io : iodev_t) (fd : Z)
  (pr : devprobe) (c : Z) :
  In c (snd (got_device io fd pr)) ->
  c = fd \/
  exists i old,
    nodes io !! i = Some old /\ handle old = c /\ 0 < c /\
    identity_of pr = Some (devnum old).
Proof.
  destruct (pr_fstat pr) as [[]|] eqn:Hf;
    [|unfold got_device; rewrite Hf; simpl; tauto..].
  destruct (identify pr) as [[label dnum]|] eqn:Hi.
  - destruct (pr_evbit pr 0) as [prop|] eqn:Hp.
    + destruct (got_device_passed io fd pr label dnum prop Hf Hi Hp)
        as (io1 & node & Hh & Hd & _ & _ & Hno & _ & ->).
      simpl. rewrite in_app_iff. intros [Hc|Hc].
      * destruct (n_devs io >=? MAX_DEVICES); simpl in Hc; [|tauto].
        destruct Hc as [<-|[]]. left. reflexivity.
      * destruct (register_node_closes io1 pr node c Hc)
          as [->|(i & old & Hi' & Ho & Hpos & Hdn)].
        -- left. assumption.
        -- right. exists i, old. rewrite <- Hno.
           repeat split; try assumption.
           unfold identity_of. rewrite Hi. simpl. congruence.
    + unfold got_device. rewrite Hf, Hi, Hp. simpl.
      rewrite in_app_iff. intros [Hc|Hc].
      * destruct (n_devs io >=? MAX_DEVICES); simpl in Hc; [|tauto].
        destruct Hc as [<-|[]]. left. reflexivity.
      * destruct Hc as [<-|[]]. left. reflexivity.
  - unfold got_device. rewrite Hf, Hi. simpl.
    intros [<-|[]]. left. reflexivity.
Qed.

Lemma got_device_closes_only_witness :
  let io := fst (got_device (H := headers_sample) iodev_init 5
                   (pad_probe 4660)) in
  In 5 (snd (got_device (H := headers_sample) io 9 (pad_probe 4660))) /\
  (5 = 9 \/
   exists i old,
     nodes io !! i = Some old /\ handle old = 5 /\ 0 < 5 /\
     identity_of (pad_probe 4660) = Some (devnum old)).
Proof.
  cbv zeta.
  set (io := fst (got_device (H := headers_sample) iodev_init 5
                    (pad_probe 4660))).
  assert (Hin : In 5 (snd (got_device (H := headers_sample) io 9
                             (pad_probe 4660)))).
  { vm_compute. left. reflexivity. }
  split; [exact Hin|].
  exact (got_device_closes_only (H := headers_sample) io 9 (pad_probe 4660)
           5 Hin).
Defined.

(** X11.  A registration leaves the other live devices alone: a slot below
    the table size that holds a live node (handle above 0) of another
    identity holds the same node afterwards.  The device count never goes
    down and goes up by at most one, and the table size stays or grows by
    8. *)
Theorem got_device_frame `{Headers} (io : iodev_t) (fd : Z) (pr : devprobe)
  (j : nat) (n : arcan_devnode) :
  nodes io !! j = Some n -> Z.of_nat j < sz_nodes io ->
  0 < handle n -> identity_of pr <> Some (devnum n) ->
  nodes (fst (got_device io fd pr)) !! j = Some n /\
  n_devs io <= n_devs (fst (got_device io fd pr)) <= n_devs io + 1 /\
  (sz_nodes (fst (got_device io fd pr)) = sz_nodes io \/
   sz_nodes (fst (got_device io fd pr)) = sz_nodes io + 8).
Proof.
  intros Hj Hsz Hlive Hother.
  assert (Hsame : forall closed : list Z,
            nodes (fst (io, closed)) !! j = Some n /\
            n_devs io <= n_devs (fst (io, closed)) <= n_devs io + 1 /\
            (sz_nodes (fst (io, closed)) = sz_nodes io \/
             sz_nodes (fst (io, closed)) = sz_nodes io + 8)).
  { intros closed. simpl. repeat split; try assumption; lia. }
  destruct (pr_fstat pr) as [[]|] eqn:Hf;
    [|unfold got_device; rewrite Hf; apply Hsame..].
  destruct (identify pr) as [[label dnum]|] eqn:Hi;
    [|unfold got_device; rewrite Hf, Hi; apply Hsame].
  destruct (pr_evbit pr 0) as [prop|] eqn:Hp;
    [|unfold got_device; rewrite Hf, Hi, Hp; apply Hsame].
  destruct (got_device_passed io fd pr label dnum prop Hf Hi Hp)
    as (io1 & node & Hh & Hd & Hn & Hs & Hno & _ & ->).
  simpl.
  destruct (register_node_counts io1 pr node) as (Hc & Hz & _).
  rewrite Hn in Hc. rewrite Hs in Hz.
  split; [|split; assumption].
  apply register_node_frame; try assumption.
  - rewrite Hno. assumption.
  - rewrite Hs. assumption.
  - rewrite Hd. intros Heq. apply Hother.
    unfold identity_of. rewrite Hi. simpl. congruence.
Qed.

Lemma got_device_frame_witness :
  let io := fst (got_device (H := headers_sample) iodev_init 5
                   (pad_probe 4660)) in
  let io' := fst (got_device (H := headers_sample) io 6 (mouse_probe 9029)) in
  nodes io' !! 0%nat = nodes io !! 0%nat /\ n_devs io = 1 /\ n_devs io' = 2.
Proof.
  cbv zeta.
  set (io := fst (got_device (H := headers_sample) iodev_init 5
                    (pad_probe 4660))).
  assert (Hn : exists n, nodes io !! 0%nat = Some n /\ handle n = 5 /\
                         devnum n = 4660 /\ sz_nodes io = 8 /\ n_devs io = 1).
  { vm_compute. eexists. repeat split. }
  destruct Hn as (n & Hn & Hh & Hd & Hs & Hc).
  assert (Hid : identity_of (mouse_probe 9029) <> Some (devnum n)).
  { rewrite Hd. vm_compute. discriminate. }
  destruct (got_device_frame (H := headers_sample) io 6 (mouse_probe 9029)
              0 n Hn ltac:(lia) ltac:(lia) Hid) as (Hkeep & _ & _).
  rewrite Hkeep, Hn. split; [reflexivity|]. split; [exact Hc|].
  vm_compute. reflexivity.
Defined.

(** ** The axis count matches the allocated filters *)

Lemma count_bits_filter bits n :
  count_bits bits n =
  Z.of_nat (length (filter (fun i => bit_isset bits i = true) (seqZ 0 n))).
Proof.
  unfold count_bits.
  assert (Hgen : forall l c,
            fold_left (fun c i => if bit_isset bits i then c + 1 else c) l c =
            c + Z.of_nat (length (filter (fun i => bit_isset bits i = true) l))).
  { induction l as [|x l IH]; intros c; simpl; [lia|].
    rewrite IH. rewrite filter_cons.
    destruct (bit_isset bits x) eqn:E.
    - rewrite decide_True by reflexivity. simpl. lia.
    - rewrite decide_False by discriminate. lia. }
  rewrite Hgen. lia.
Qed.

Lemma count_bits_range bits n : 0 <= n -> 0 <= count_bits bits n <= n.
Proof.
  intros Hn. rewrite count_bits_filter.
  pose proof (length_filter (fun i => bit_isset bits i = true) (seqZ 0 n)) as Hl.
  rewrite length_seqZ in Hl. lia.
Qed.

Lemma axes_allocated_wf node : axes_allocated node -> node_wf node.
Proof. unfold axes_allocated, node_wf, ABS_MAX. intros [Hr Hx]. split; [lia|exact Hx]. Qed.












(** ** Disconnecting *)

Lemma sweep_devnum_some l i n dnum k x :
  l !! k = Some x -> devnum x = dnum -> (k < n)%nat ->
  exists j y,
    sweep_devnum l i n dnum = Some (i + j)%nat /\ (j <= k)%nat /\
    l !! j = Some y /\ devnum y = dnum /\
    forall j' y', (j' < j)%nat -> l !! j' = Some y' -> devnum y' <> dnum.
Proof.
  intros Hk Hd Hn.
  destruct (sweep_devnum l i n dnum) as [s|] eqn:Hs.
  - destruct (sweep_devnum_sound _ _ _ _ _ Hs)
      as (j & y & -> & Hj & Hy & Hdy & Hbefore).
    exists j, y. repeat split; try assumption.
    destruct (le_lt_dec j k) as [Hle|Hgt]; [assumption|].
    exfalso. apply (Hbefore k x Hgt Hk Hd).
  - exfalso. apply (sweep_devnum_none _ _ _ _ Hs k x Hn Hk Hd).
Qed.

(** X13.  [disconnect] of a node in a slot below the device count closes
    the handle of that node and nothing else, sets the handle to 0 and keeps
    every other member and every other slot; the poll entry cleared is the
    one of the first slot that carries the node's device number; the table
    size and the pointer id stay, and the device count drops by one exactly
    when that first slot is the last counted one. *)
Theorem disconnect_effect (io : iodev_t) (slot : nat) (node : arcan_devnode) :
  nodes io !! slot = Some node ->
  Z.of_nat slot < n_devs io ->
  exists (i : nat) (first : arcan_devnode),
    (i <= slot)%nat /\ nodes io !! i = Some first /\
    devnum first = devnum node /\
    (forall j y, (j < i)%nat -> nodes io !! j = Some y ->
                 devnum y <> devnum node) /\
    snd (disconnect io slot) = [handle node] /\
    nodes (fst (disconnect io slot)) =
      <[slot := set_handle 0 node]> (nodes io) /\
    pollset (fst (disconnect io slot)) =
      alter (fun p => mk_pollfd 0 0 (revents p)) i (pollset io) /\
    sz_nodes (fst (disconnect io slot)) = sz_nodes io /\
    mouseid (fst (disconnect io slot)) = mouseid io /\
    n_devs (fst (disconnect io slot)) =
      (if Z.of_nat i =? n_devs io - 1 then n_devs io - 1 else n_devs io).
Proof.
  intros Hnode Hslot.
  destruct (sweep_devnum_some (nodes io) 0 (Z.to_nat (n_devs io))
              (devnum node) slot node Hnode eq_refl ltac:(lia))
    as (i & first & Hs & Hle & Hi & Hd & Hbefore).
  exists i, first. unfold disconnect. rewrite Hnode, Hs. simpl.
  repeat split; try assumption.
  apply list_eq. intros j.
  destruct (decide (j = slot)) as [->|Hne].
  - rewrite list_lookup_alter_eq, Hnode. simpl.
    symmetry. apply list_lookup_insert_eq. eapply lookup_lt_Some; eauto.
  - rewrite list_lookup_alter_ne, list_lookup_insert_ne by congruence.
    reflexivity.
Qed.

Lemma disconnect_effect_witness :
  let io := fst (register_all (H := headers_sample) iodev_init
                   [(5, pad_probe 4660); (7, mouse_probe 4662)]) in
  snd (disconnect io 1) = [7] /\ n_devs (fst (disconnect io 1)) = 1 /\
  snd (disconnect io 0) = [5] /\ n_devs (fst (disconnect io 0)) = 2.
Proof.
  cbv zeta.
  set (io := fst (register_all (H := headers_sample) iodev_init
                    [(5, pad_probe 4660); (7, mouse_probe 4662)])).
  assert (Hio : exists n0 n1,
            nodes io !! 0%nat = Some n0 /\ nodes io !! 1%nat = Some n1 /\
            handle n0 = 5 /\ handle n1 = 7 /\ n_devs io = 2 /\
            devnum n0 = 4660 /\ devnum n1 = 4662).
  { vm_compute. do 2 eexists. repeat split. }
  destruct Hio as (n0 & n1 & H0 & H1 & Hh0 & Hh1 & Hn & Hd0 & Hd1).
  destruct (disconnect_effect io 1 n1 H1 ltac:(lia))
    as (i & first & Hle & Hi & Hd & Hbefore & Hc & _ & _ & _ & _ & Hcount).
  destruct (disconnect_effect io 0 n0 H0 ltac:(lia))
    as (i' & first' & Hle' & _ & _ & _ & Hc' & _ & _ & _ & _ & Hcount').
  assert (i' = 0%nat) by lia. subst i'.
  assert (i = 1%nat).
  { destruct i as [|i]; [|lia]. exfalso.
    rewrite H0 in Hi. injection Hi as <-. lia. }
  subst i. rewrite Hc, Hc', Hcount, Hcount', Hn, Hh0, Hh1.
  repeat split.
Defined.

(** ** Plugging a device back in *)

Lemma sweep_slots_first_hole pre x rest i dnum :
  Forall (fun n => 0 < handle n /\ devnum n <> dnum) pre ->
  handle x <= 0 ->
  Forall (fun n => devnum n <> dnum) rest ->
  sweep_slots (pre ++ x :: rest) i None dnum =
    SlotHole (Some (i + length pre)%nat).
Proof.
  intros Hpre Hx Hrest. revert i.
  induction Hpre as [|a pre [Ha Hd] _ IH]; intros i; simpl.
  - destruct (handle x <=? 0) eqn:E; zbool; [|lia].
    rewrite sweep_slots_nomatch by assumption.
    do 2 f_equal. lia.
  - destruct (handle a <=? 0) eqn:E; zbool; [lia|].
    destruct (devnum a =? dnum) eqn:E'; zbool; [contradiction|].
    rewrite IH. do 2 f_equal. lia.
Qed.

Lemma disconnect_first_slot io s node :
  nodes io !! s = Some node -> Z.of_nat s < n_devs io ->
  (forall j y, (j < s)%nat -> nodes io !! j = Some y ->
               devnum y <> devnum node) ->
  nodes (fst (disconnect io s)) = <[s := set_handle 0 node]> (nodes io) /\
  sz_nodes (fst (disconnect io s)) = sz_nodes io /\
  n_devs (fst (disconnect io s)) =
    (if Z.of_nat s =? n_devs io - 1 then n_devs io - 1 else n_devs io).
Proof.
  intros Hnode Hcount Hfirst. unfold disconnect. rewrite Hnode.
  rewrite (sweep_devnum_find (nodes io) 0 (Z.to_nat (n_devs io))
             (devnum node) s node Hnode eq_refl ltac:(lia) Hfirst).
  cbn [fst nodes sz_nodes n_devs Nat.add].
  repeat split.
  apply list_eq. intros j.
  destruct (decide (j = s)) as [->|Hne].
  - rewrite list_lookup_alter_eq, Hnode. simpl.
    symmetry. apply list_lookup_insert_eq. eapply lookup_lt_Some; eauto.
  - rewrite list_lookup_alter_ne, list_lookup_insert_ne by congruence.
    reflexivity.
Qed.

(** X14.  A device that is disconnected and plugged back in is registered
    anew when its slot is the first free one: with live nodes of other
    identities before slot [s] and no node of its identity after it, the
    registration that follows [disconnect] closes nothing and stores the
    newly probed node in slot [s], so that nothing of the old node (its
    filters among it) is carried over.  The device count is raised again,
    which leaves it one above its former value unless [s] was the last
    counted slot. *)
Theorem replug_registers_anew `{Headers} (io : iodev_t) (s : nat)
  (node : arcan_devnode) (fd : Z) (pr : devprobe) (prop : list Z) :
  nodes io !! s = Some node ->
  Z.of_nat s < n_devs io -> Z.of_nat s < sz_nodes io ->
  n_devs io < MAX_DEVICES ->
  pr_fstat pr = Some true ->
  identity_of pr = Some (devnum node) ->
  pr_evbit pr 0 = Some prop ->
  (forall j x, (j < s)%nat -> nodes io !! j = Some x ->
               0 < handle x /\ devnum x <> devnum node) ->
  (forall j x, (s < j)%nat -> Z.of_nat j < sz_nodes io ->
               nodes io !! j = Some x -> devnum x <> devnum node) ->
  let io1 := fst (disconnect io s) in
  let r := got_device io1 fd pr in
  snd r = [] /\
  nodes (fst r) =
    <[s := classified io1 fd (default "unknown"%string (pr_name pr))
             (devnum node) pr prop]> (nodes io) /\
  n_devs (fst r) =
    (if Z.of_nat s =? n_devs io - 1 then n_devs io else n_devs io + 1) /\
  sz_nodes (fst r) = sz_nodes io.
Proof.
  intros Hnode Hcount Hsz Hlim Hf Hid Hp Hbefore Hafter. cbv zeta.
  destruct (disconnect_first_slot io s node Hnode Hcount)
    as (Hnodes & Hsz1 & Hn1).
  { intros j y Hj Hy. apply (Hbefore j y Hj Hy). }
  set (io1 := fst (disconnect io s)) in *. clearbody io1.
  pose proof (identity_of_identify pr (devnum node) Hid) as Hident.
  rewrite (got_device_classified io1 fd pr _ _ prop Hf Hident Hp).
  set (lbl := default "unknown"%string (pr_name pr)) in *.
  set (st := probe_caps pr prop
               (mk_probe_state (fresh_node fd lbl (devnum node))
                  false false false)).
  destruct (probe_caps_keeps_id pr prop
              (mk_probe_state (fresh_node fd lbl (devnum node))
                 false false false)) as (_ & Hd0).
  destruct (classify_keeps io1 (pr_handler pr) st)
    as (_ & Hdc & Hnc & Hsc & Hnoc & Hpoc).
  fold st in Hd0. unfold classified. fold st.
  clearbody st.
  set (cl := classify io1 (pr_handler pr) st) in *. clearbody cl.
  destruct cl as [io2 new]. cbn [fst snd] in *.
  assert (Hdn : devnum new = devnum node).
  { rewrite Hdc, Hd0. reflexivity. }
  unfold register_node. rewrite Hsc, Hsz1, Hnoc, Hnodes, Hdn.
  assert (Hlen : (s < length (nodes io))%nat)
    by (eapply lookup_lt_Some; eauto).
  set (L := take (Z.to_nat (sz_nodes io))
              (<[s := set_handle 0 node]> (nodes io))).
  assert (HLs : L !! s = Some (set_handle 0 node)).
  { subst L. rewrite lookup_take_lt by lia.
    apply list_lookup_insert_eq. assumption. }
  rewrite <- (take_drop_middle L s _ HLs).
  rewrite sweep_slots_first_hole.
  - assert (Hts : length (take s L) = s).
    { rewrite length_take. apply lookup_lt_Some in HLs. lia. }
    rewrite Hts. simpl.
    rewrite list_insert_insert_eq.
    rewrite Hnc, Hn1.
    repeat split; try reflexivity.
    + match goal with
      | |- (if ?c then _ else _) ++ _ = _ => destruct c eqn:E
      end; zbool; [|reflexivity].
      exfalso. destruct (Z.of_nat s =? n_devs io - 1); lia.
    + destruct (Z.of_nat s =? n_devs io - 1); lia.
  - apply Forall_lookup_2. intros j x Hj.
    apply lookup_take_Some in Hj as [Hj Hjs].
    subst L. apply lookup_take_Some in Hj as [Hj _].
    rewrite list_lookup_insert_ne in Hj by lia.
    apply (Hbefore j x Hjs Hj).
  - simpl. lia.
  - apply Forall_lookup_2. intros j x Hj.
    rewrite lookup_drop in Hj.
    subst L. apply lookup_take_Some in Hj as [Hj Hjs].
    rewrite list_lookup_insert_ne in Hj by lia.
    apply (Hafter (S s + j)%nat x); [lia | lia | assumption].
Qed.

Lemma replug_registers_anew_witness :
  let io := fst (register_all (H := headers_sample) iodev_init
                   [(5, pad_probe 4660); (7, mouse_probe 4662)]) in
  let r := got_device (H := headers_sample) (fst (disconnect io 0)) 9
             (pad_probe 4660) in
  n_devs io = 2 /\ snd r = [] /\ n_devs (fst r) = 3 /\ sz_nodes (fst r) = 8.
Proof.
  cbv zeta.
  set (io := fst (register_all (H := headers_sample) iodev_init
                    [(5, pad_probe 4660); (7, mouse_probe 4662)])).
  assert (Hio : exists n0 prop,
            nodes io !! 0%nat = Some n0 /\ devnum n0 = 4660 /\
            n_devs io = 2 /\ sz_nodes io = 8 /\
            pr_evbit (pad_probe 4660) 0 = Some prop /\
            identity_of (pad_probe 4660) = Some 4660 /\
            Forall (fun x => devnum x <> 4660) (drop 1 (nodes io))).
  { vm_compute. do 2 eexists. repeat split.
    repeat (constructor; [discriminate|]). constructor. }
  destruct Hio as (n0 & prop & H0 & Hd & Hn & Hs & Hp & Hid & Hrest).
  assert (Hid' : identity_of (pad_probe 4660) = Some (devnum n0))
    by (rewrite Hd; exact Hid).
  clear Hid. rename Hid' into Hid.
  destruct (replug_registers_anew (H := headers_sample) io 0 n0 9
              (pad_probe 4660) prop H0 ltac:(lia) ltac:(lia)
              ltac:(unfold MAX_DEVICES; lia) eq_refl Hid Hp)
    as (Hclosed & _ & Hcount & Hsize).
  - intros j x Hj. lia.
  - intros j x Hj _ Hx. rewrite Hd.
    destruct j as [|j]; [lia|].
    apply (Forall_lookup_1 _ _ j x Hrest).
    rewrite lookup_drop. exact Hx.
  - rewrite Hclosed, Hcount, Hsize, Hn, Hs. repeat split.
Defined.

(** ** Registration in place beyond the device count *)





(** ** The pointer in pass-through mode *)

Lemma mouse_record_pass node r :
  mode (cursor_flt0 node) = ARCAN_ANALOGFILTER_PASS ->
  mode (cursor_flt1 node) = ARCAN_ANALOGFILTER_PASS ->
  ie_type r = EV_REL ->
  (ie_code r = REL_X ->
   mouse_record node r =
     (set_cursor_x (u16 (Z.max 0 (cursor_mx node + wrap16 (ie_value r))))
        (cursor_flt0 node) node,
      [ev_analog (devnum node) REL_X true
         (u16 (Z.max 0 (cursor_mx node + wrap16 (ie_value r))))
         (wrap16 (ie_value r)) 2])) /\
  (ie_code r = REL_Y ->
   mouse_record node r =
     (set_cursor_y (u16 (Z.max 0 (cursor_my node + wrap16 (ie_value r))))
        (cursor_flt1 node) node,
      [ev_analog (devnum node) REL_Y true
         (u16 (Z.max 0 (cursor_my node + wrap16 (ie_value r))))
         (wrap16 (ie_value r)) 2])).
Proof.
  intros H0 H1 Ht. unfold mouse_record, process_axis.
  rewrite Ht, H0, H1. unfold EV_REL, EV_KEY, REL_X, REL_Y. simpl.
  split; intros ->; simpl.
  - destruct (cursor_mx node + wrap16 (ie_value r) <? 0) eqn:E; zbool.
    + rewrite Z.max_l by lia. reflexivity.
    + rewrite Z.max_r by lia. reflexivity.
  - destruct (cursor_my node + wrap16 (ie_value r) <? 0) eqn:E; zbool.
    + rewrite Z.max_l by lia. reflexivity.
    + rewrite Z.max_r by lia. reflexivity.
Qed.

(** X16.  A pointer whose two filters are in pass-through mode follows
    every motion record, the same way on both axes: each REL_X / REL_Y
    record adds its 16-bit value to the position of its axis, a sum below 0
    is held at 0 and the result is reduced modulo 65536; each record yields
    one relative analog event with the axis as sub-id, the new position and
    the value; and the filters are left as they are. *)
Theorem pointer_follows_motion (node : arcan_devnode)
  (rs : list input_event) :
  mode (cursor_flt0 node) = ARCAN_ANALOGFILTER_PASS ->
  mode (cursor_flt1 node) = ARCAN_ANALOGFILTER_PASS ->
  Forall (fun r => ie_type r = EV_REL /\
                   (ie_code r = REL_X \/ ie_code r = REL_Y)) rs ->
  let track code pos r :=
    if ie_code r =? code then u16 (Z.max 0 (pos + wrap16 (ie_value r)))
    else pos in
  let res := decode_loop mouse_record node rs in
  cursor_mx (fst res) = fold_left (track REL_X) rs (cursor_mx node) /\
  cursor_my (fst res) = fold_left (track REL_Y) rs (cursor_my node) /\
  cursor_flt0 (fst res) = cursor_flt0 node /\
  cursor_flt1 (fst res) = cursor_flt1 node /\
  devnum (fst res) = devnum node /\
  length (snd res) = length rs /\
  forall k r,
    rs !! k = Some r ->
    snd res !! k =
      Some (ev_analog (devnum node) (ie_code r) true
              (if ie_code r =? REL_X
               then fold_left (track REL_X) (take (S k) rs) (cursor_mx node)
               else fold_left (track REL_Y) (take (S k) rs) (cursor_my node))
              (wrap16 (ie_value r)) 2).
Proof.
  intros H0 H1 Hrs. cbv zeta.
  set (track := fun code pos r =>
         if ie_code r =? code then u16 (Z.max 0 (pos + wrap16 (ie_value r)))
         else pos).
  revert node H0 H1.
  induction Hrs as [|r rs [Ht Hc] _ IH]; intros node H0 H1.
  - simpl. repeat split; try reflexivity. intros k r Hk.
    rewrite lookup_nil in Hk. discriminate.
  - destruct (mouse_record_pass node r H0 H1 Ht) as [Hx Hy].
    cbn [decode_loop].
    assert (Hstep : exists node1 e,
              mouse_record node r = (node1, [e]) /\
              cursor_mx node1 = track REL_X (cursor_mx node) r /\
              cursor_my node1 = track REL_Y (cursor_my node) r /\
              cursor_flt0 node1 = cursor_flt0 node /\
              cursor_flt1 node1 = cursor_flt1 node /\
              devnum node1 = devnum node /\
              e = ev_analog (devnum node) (ie_code r) true
                    (if ie_code r =? REL_X
                     then track REL_X (cursor_mx node) r
                     else track REL_Y (cursor_my node) r)
                    (wrap16 (ie_value r)) 2).
    { destruct Hc as [Hc|Hc].
      - rewrite (Hx Hc). do 2 eexists. split; [reflexivity|].
        subst track. cbv beta. rewrite Hc. unfold REL_X, REL_Y. simpl.
        repeat split.
      - rewrite (Hy Hc). do 2 eexists. split; [reflexivity|].
        subst track. cbv beta. rewrite Hc. unfold REL_X, REL_Y. simpl.
        repeat split. }
    destruct Hstep as (node1 & e & -> & Hmx & Hmy & Hf0 & Hf1 & Hd & He).
    specialize (IH node1 ltac:(rewrite Hf0; exact H0)
                  ltac:(rewrite Hf1; exact H1)).
    destruct (decode_loop mouse_record node1 rs) as [node2 e2].
    cbn [fst snd] in *.
    destruct IH as (IHx & IHy & IH0 & IH1 & IHd & IHl & IHk).
    cbn [fold_left]. rewrite <- Hmx, <- Hmy.
    repeat split; try congruence.
    + simpl. rewrite IHl. reflexivity.
    + intros [|k] r' Hk.
      * simpl in Hk. injection Hk as <-.
        change (([e] ++ e2) !! 0%nat) with (Some e).
        change (take 1 (r :: rs)) with (r :: take 0 rs).
        rewrite take_0, He. reflexivity.
      * simpl in Hk.
        change (([e] ++ e2) !! S k) with (e2 !! k).
        change (take (S (S k)) (r :: rs)) with (r :: take (S k) rs).
        cbn [fold_left]. rewrite <- Hmx, <- Hmy.
        rewrite (IHk k r' Hk), Hd. reflexivity.
Qed.

Lemma pointer_follows_motion_witness :
  let node :=
    classified (H := headers_sample) iodev_init 6 "mouse" 9029
      (mouse_probe 9029) [7] in
  let res :=
    decode_loop mouse_record node
      [mk_input_event EV_REL REL_X 5; mk_input_event EV_REL REL_Y 7;
       mk_input_event EV_REL REL_X (-9); mk_input_event EV_REL REL_X 4] in
  cursor_mx (fst res) = 4 /\ cursor_my (fst res) = 7 /\
  length (snd res) = 4%nat.
Proof.
  cbv zeta.
  set (node := classified (H := headers_sample) iodev_init 6 "mouse" 9029
                 (mouse_probe 9029) [7]).
  assert (Hm : mode (cursor_flt0 node) = ARCAN_ANALOGFILTER_PASS /\
               mode (cursor_flt1 node) = ARCAN_ANALOGFILTER_PASS /\
               cursor_mx node = 0 /\ cursor_my node = 0).
  { vm_compute. repeat split. }
  destruct Hm as (H0 & H1 & Hx0 & Hy0).
  pose proof (pointer_follows_motion node
                [mk_input_event EV_REL REL_X 5; mk_input_event EV_REL REL_Y 7;
                 mk_input_event EV_REL REL_X (-9);
                 mk_input_event EV_REL REL_X 4] H0 H1) as Hall.
  cbv zeta in Hall.
  destruct Hall as (Hx & Hy & _ & _ & _ & Hl & _).
  - repeat (constructor; [split; [reflexivity | (left; reflexivity) ||
                                                (right; reflexivity)]|]).
    constructor.
  - rewrite Hx, Hy, Hl, Hx0, Hy0. vm_compute. repeat split.
Defined.

(** ** Reads of any size *)

Lemma records_whole k rem inev :
  0 <= k -> 0 <= rem < sizeof_input_event ->
  records (sizeof_input_event * k + rem) inev = take (Z.to_nat k) inev.
Proof.
  intros Hk Hrem. unfold records. f_equal. f_equal.
  symmetry. apply (Z.div_unique _ sizeof_input_event k rem); [|reflexivity].
  left. exact Hrem.
Qed.

(** X17.  The three decoders consume whole records only: a read of
    [24 * k + rem] bytes with [0 <= rem < 24] is decoded as the first [k]
    records of the buffer, the bytes of a trailing partial record are
    ignored, and a read shorter than one record yields no event and leaves
    the node as it is.  A read that returns -1 disconnects the node. *)
Theorem decoders_take_whole_records `{Headers} (node : arcan_devnode)
  (k rem : Z) (inev : list input_event) :
  0 <= k -> 0 <= rem < sizeof_input_event ->
  let evs := sizeof_input_event * k + rem in
  defhandler_kbd node evs inev =
    (let '(n, out) := decode_loop kbd_record node (take (Z.to_nat k) inev) in
     Decoded n out) /\
  defhandler_mouse node evs inev =
    (let '(n, out) := decode_loop mouse_record node (take (Z.to_nat k) inev) in
     Decoded n out) /\
  defhandler_game node evs inev =
    (let '(n, out) := game_loop node (take (Z.to_nat k) inev) in
     GameDecoded n out) /\
  (k = 0 ->
   defhandler_kbd node evs inev = Decoded node [] /\
   defhandler_mouse node evs inev = Decoded node [] /\
   defhandler_game node evs inev = GameDecoded node []) /\
  defhandler_kbd node (-1) inev = Disconnect /\
  defhandler_mouse node (-1) inev = Disconnect /\
  defhandler_game node (-1) inev = GameDisconnect.
Proof.
  intros Hk Hrem. cbv zeta.
  unfold defhandler_kbd, defhandler_mouse, defhandler_game.
  rewrite (records_whole k rem inev Hk Hrem).
  unfold sizeof_input_event in *.
  destruct (24 * k + rem =? -1) eqn:E1; zbool; [lia|].
  destruct (24 * k + rem <? 0) eqn:E2; zbool; [lia|].
  destruct (24 * k + rem <? 24) eqn:E3; zbool; cbn [orb].
  - assert (k = 0) by lia. subst k. simpl. repeat split.
  - repeat split. all: exfalso; lia.
Qed.

Lemma decoders_take_whole_records_witness :
  defhandler_mouse mouse_node 30
    [mk_input_event EV_KEY BTN_LEFT 1; mk_input_event EV_KEY BTN_RIGHT 1] =
  Decoded mouse_node [ev_digital (devnum mouse_node) 1 true].
Proof.
  destruct (decoders_take_whole_records (H := headers_sample) mouse_node 1 6
              [mk_input_event EV_KEY BTN_LEFT 1;
               mk_input_event EV_KEY BTN_RIGHT 1]
              ltac:(lia) ltac:(unfold sizeof_input_event; lia))
    as (_ & Hm & _).
  exact Hm.
Defined.

(** ** Axis codes and the filter table of a game device *)

Lemma length_filter_none {A} (P : A -> Prop) `{forall x, Decision (P x)}
  (l : list A) :
  Forall (fun x => ~ P x) l -> length (filter P l) = 0%nat.
Proof.
  induction 1 as [|x l Hx _ IH]; [reflexivity|].
  rewrite filter_cons_False by exact Hx. exact IH.
Qed.

Lemma count_bits_gap bits c c' :
  0 <= c' < c -> c < ABS_MAX ->
  bit_isset bits c' = false ->
  (forall i, c < i < ABS_MAX -> bit_isset bits i = false) ->
  count_bits bits ABS_MAX <= c.
Proof.
  intros Hc' Hc Hgap Htop. rewrite count_bits_filter.
  replace ABS_MAX with ((c + 1) + (ABS_MAX - (c + 1))) at 1 by lia.
  rewrite seqZ_app by lia. rewrite list.filter_app, length_app.
  rewrite (length_filter_none _ (seqZ (0 + (c + 1)) (ABS_MAX - (c + 1)))).
  - pose proof (length_filter_lt (fun i => bit_isset bits i = true)
                  (seqZ 0 (c + 1)) c') as Hlt.
    rewrite length_seqZ in Hlt.
    assert (Hin : c' ∈ seqZ 0 (c + 1)) by (apply elem_of_seqZ; lia).
    specialize (Hlt Hin ltac:(rewrite Hgap; discriminate)). lia.
  - apply Forall_seqZ. intros i Hi. rewrite Htop by lia. discriminate.
Qed.

Lemma probed_game_state `{Headers} io fd label dnum pr prop bits :
  eh_handler (pr_handler pr) = None ->
  bit_isset prop EV_ABS = true ->
  pr_evbit pr EV_ABS = Some bits ->
  game_axes (classified io fd label dnum pr prop) =
    count_bits bits ABS_MAX /\
  button_mask (hnd (classified io fd label dnum pr prop)) = 0 /\
  axis_mask (hnd (classified io fd label dnum pr prop)) = 0 /\
  digital_hat (hnd (classified io fd label dnum pr prop)) = false.
Proof.
  intros Heh Habs Hbits. unfold classified.
  rewrite probe_caps_steps. cbv zeta. rewrite Habs.
  set (st0 := mk_probe_state (fresh_node fd label dnum) false false false).
  set (st1 := if bit_isset prop EV_KEY then probe_bit pr st0 EV_KEY else st0).
  set (st2 := if bit_isset prop EV_REL then probe_bit pr st1 EV_REL else st1).
  assert (H1 : game_adata (ps_node st1) = None /\
               hnd (ps_node st1) = evhandler_zero).
  { subst st1. destruct (bit_isset prop EV_KEY); [|split; reflexivity].
    unfold probe_bit. change (EV_KEY =? EV_KEY) with true. cbv iota.
    destruct (button_count pr EV_KEY (ps_mouse_btn st0) (ps_joystick_btn st0))
      as [[c gm] gj]. split; reflexivity. }
  assert (H2 : game_adata (ps_node st2) = None /\
               hnd (ps_node st2) = evhandler_zero).
  { subst st2. destruct (bit_isset prop EV_REL); [|exact H1].
    unfold probe_bit. change (EV_REL =? EV_KEY) with false.
    change (EV_REL =? EV_REL) with true. cbv iota. exact H1. }
  clearbody st2. clear st1 H1 st0. destruct H2 as [Had Hhnd].
  unfold probe_bit. change (EV_ABS =? EV_KEY) with false.
  change (EV_ABS =? EV_REL) with false. change (EV_ABS =? EV_ABS) with true.
  cbv iota.
  assert (Hmap : game_axes (map_axes pr EV_ABS (ps_node st2)) =
                   count_bits bits ABS_MAX /\
                 hnd (map_axes pr EV_ABS (ps_node st2)) = evhandler_zero).
  { unfold map_axes. rewrite Hbits, Had.
    pose proof (count_bits_range bits ABS_MAX ltac:(unfold ABS_MAX; lia)).
    set (c := count_bits bits ABS_MAX) in *. clearbody c.
    destruct (c =? 0) eqn:E; zbool; simpl; split;
      try assumption; try reflexivity. lia. }
  set (n3 := map_axes pr EV_ABS (ps_node st2)) in *. clearbody n3.
  destruct Hmap as [Hax Hh3].
  unfold classify. rewrite Heh. cbn [ps_node ps_mouse_ax ps_mouse_btn
                                      ps_joystick_btn].
  destruct (ps_mouse_ax st2 && ps_mouse_btn st2).
  - cbn. rewrite Hh3. repeat split; try reflexivity. exact Hax.
  - destruct (negb (ps_mouse_btn st2) && negb (ps_joystick_btn st2) &&
              (button_count_ n3 >? 84));
      cbn; rewrite Hh3; repeat split; try reflexivity; exact Hax.
Qed.

(** X18.  A game device is given as many filters as it reports absolute
    axes, while an axis record is looked up by its code: with the default
    handler, a record whose code is not below the number of reported axes
    yields no event and leaves the node as it is.  This is the case for the
    highest axis of every device whose axis codes are not contiguous from
    0. *)
Theorem sparse_axis_codes_dropped `{Headers} (io : iodev_t) (fd : Z)
  (label : string) (dnum : Z) (pr : devprobe) (prop bits : list Z) :
  eh_handler (pr_handler pr) = None ->
  bit_isset prop EV_ABS = true ->
  pr_evbit pr EV_ABS = Some bits ->
  let node := classified io fd label dnum pr prop in
  game_axes node = count_bits bits ABS_MAX /\
  (forall c v,
     count_bits bits ABS_MAX <= c ->
     game_record node (mk_input_event EV_ABS c v) = (node, [])) /\
  (forall c c' v,
     0 <= c' < c -> c < ABS_MAX ->
     bit_isset bits c = true -> bit_isset bits c' = false ->
     (forall i, c < i < ABS_MAX -> bit_isset bits i = false) ->
     game_record node (mk_input_event EV_ABS c v) = (node, [])).
Proof.
  intros Heh Habs Hbits. cbv zeta.
  destruct (probed_game_state io fd label dnum pr prop bits Heh Habs Hbits)
    as (Hax & Hbm & Ham & Hdh).
  set (node := classified io fd label dnum pr prop) in *. clearbody node.
  assert (Hdrop : forall c v,
            count_bits bits ABS_MAX <= c ->
            game_record node (mk_input_event EV_ABS c v) = (node, [])).
  { intros c v Hc. unfold game_record. cbn [ie_type ie_code ie_value].
    change (EV_ABS =? EV_KEY) with false. change (EV_ABS =? EV_ABS) with true.
    cbv iota. unfold masked. rewrite Ham, Hdh, Hax. cbn [negb andb Z.eqb].
    destruct (c <? count_bits bits ABS_MAX) eqn:E; zbool; [lia|reflexivity]. }
  split; [exact Hax|]. split; [exact Hdrop|].
  intros c c' v Hc' Hc _ Hgap Htop. apply Hdrop.
  apply (count_bits_gap bits c c'); assumption.
Qed.

Lemma sparse_axis_codes_dropped_witness :
  let node :=
    classified (H := headers_sample) iodev_init 5 "hatpad" 4700
      (hatpad_probe 4700) [11] in
  game_axes node = 8 /\
  game_record node (mk_input_event EV_ABS 17 1) = (node, []) /\
  game_record node (mk_input_event EV_ABS 16 (-1)) = (node, []).
Proof.
  cbv zeta.
  destruct (sparse_axis_codes_dropped (H := headers_sample) iodev_init 5
              "hatpad" 4700 (hatpad_probe 4700) [11] [196671]
              eq_refl eq_refl eq_refl) as (Hax & Hdrop & Hgap).
  assert (Hc : count_bits [196671] ABS_MAX = 8) by (vm_compute; reflexivity).
  rewrite Hc in Hax, Hdrop.
  split; [exact Hax|]. split.
  - apply (Hgap 17 6 1); try (unfold ABS_MAX; lia); try reflexivity.
    intros i Hi. unfold ABS_MAX in Hi.
    assert (Hall : forallb (fun i => negb (bit_isset [196671] i))
                     (seqZ 18 45) = true) by (vm_compute; reflexivity).
    rewrite forallb_forall in Hall.
    specialize (Hall i). rewrite <- list_elem_of_In, elem_of_seqZ in Hall.
    apply negb_true_iff. apply Hall. lia.
  - apply Hdrop. lia.
Defined.

(** ** Buttons of a game device *)

(** X19.  The button sub-id of a game device is taken from the key code
    after BTN_JOYSTICK has been subtracted from it twice, the first time in
    the 16-bit code itself: without a button mask, a key record with a code
    from BTN_JOYSTICK on yields one event with sub-id [code - 576] (so -288
    for the first joystick button), and a code below BTN_JOYSTICK yields
    sub-id [code + 64960]; the node is left as it is. *)
Theorem game_button_subid (node : arcan_devnode) (code value : Z) :
  button_mask (hnd node) = 0 ->
  0 <= code <= 65535 ->
  game_record node (mk_input_event EV_KEY code value) =
    (node,
     [gev_digital
        (ev_digital (devnum node)
           (if code <? BTN_JOYSTICK then code + 64960 else code - 576)
           (negb (value =? 0)))]).
Proof.
  intros Hmask Hcode. unfold game_record, masked.
  cbn [ie_type ie_code ie_value]. change (EV_KEY =? EV_KEY) with true.
  cbv iota. rewrite Hmask. cbn [Z.eqb negb andb].
  do 4 f_equal. unfold u16, BTN_JOYSTICK.
  destruct (code <? 288) eqn:E; zbool.
  - replace (code - 288) with (code + 65248 + (-1) * 65536) by lia.
    rewrite Z.mod_add by lia. rewrite Z.mod_small by lia. lia.
  - rewrite Z.mod_small by lia. lia.
Qed.

Lemma game_button_subid_witness :
  game_record pad_node (mk_input_event EV_KEY BTN_JOYSTICK 1) =
    (pad_node, [gev_digital (ev_digital (devnum pad_node) (-288) true)]).
Proof.
  apply (game_button_subid pad_node BTN_JOYSTICK 1).
  - reflexivity.
  - unfold BTN_JOYSTICK. lia.
Defined.

(** ** Modifier state *)

Lemma u32_testbit x b :
  0 <= b -> Z.testbit (u32 x) b = (b <? 32) && Z.testbit x b.
Proof.
  intros Hb. unfold u32. change 4294967296 with (2 ^ 32).
  destruct (b <? 32) eqn:E; zbool.
  - rewrite Z.mod_pow2_bits_low by lia. reflexivity.
  - rewrite Z.mod_pow2_bits_high by lia. reflexivity.
Qed.

Lemma testbit_one_shl m b :
  0 <= m -> 0 <= b -> Z.testbit (Z.shiftl 1 m) b = (b =? m).
Proof.
  intros Hm Hb. rewrite Z.shiftl_spec by lia.
  destruct (b =? m) eqn:E; zbool.
  - subst b. rewrite Z.sub_diag. reflexivity.
  - destruct (Z_lt_dec b m).
    + apply Z.testbit_neg_r. lia.
    + apply Z.bits_above_log2; simpl; lia.
Qed.

Lemma u32_high_bits s b :
  0 <= s < 4294967296 -> 32 <= b -> Z.testbit s b = false.
Proof.
  intros Hs Hb.
  replace s with (u32 s) by (unfold u32; apply Z.mod_small; lia).
  rewrite u32_testbit by lia.
  destruct (b <? 32) eqn:E; zbool; [lia | reflexivity].
Qed.

Lemma update_state_testbit `{Headers} code (pressed : bool) statev m b :
  modifier_of code = Some m -> 0 <= m -> 0 <= b ->
  Z.testbit (update_state code pressed statev) b =
    (b <? 32) &&
    (if pressed then Z.testbit statev b || (b =? m)
     else Z.testbit statev b && negb (b =? m)).
Proof.
  intros Hm Hm0 Hb. unfold update_state. rewrite Hm.
  destruct pressed; rewrite u32_testbit by lia; f_equal.
  - rewrite Z.lor_spec, testbit_one_shl by lia. reflexivity.
  - rewrite Z.land_spec, Z.lnot_spec, testbit_one_shl by lia. reflexivity.
Qed.

(** X20.  A modifier key touches one bit of the keyboard state: pressing or
    releasing it leaves every other bit as it was, and a press followed by
    a release of a modifier that was not held gives back the state before
    the press. *)
Theorem modifier_press_release `{Headers} (code statev m : Z) :
  modifier_of code = Some m -> 0 <= m < 32 ->
  0 <= statev < 4294967296 ->
  (forall pressed b,
     0 <= b -> b <> m ->
     Z.testbit (update_state code pressed statev) b = Z.testbit statev b) /\
  (Z.testbit statev m = false ->
   update_state code false (update_state code true statev) = statev).
Proof.
  intros Hm Hrange Hs. split.
  - intros pressed b Hb Hne.
    rewrite (update_state_testbit code pressed statev m b Hm) by lia.
    assert (Hbm : (b =? m) = false) by (apply Z.eqb_neq; exact Hne).
    rewrite Hbm.
    destruct (b <? 32) eqn:E; zbool.
    + destruct pressed; simpl;
        [apply orb_false_r | apply andb_true_r].
    + rewrite (u32_high_bits statev b Hs) by lia. reflexivity.
  - intros Hclear. apply Z.bits_inj'. intros b Hb.
    rewrite (update_state_testbit code false _ m b Hm) by lia.
    rewrite (update_state_testbit code true statev m b Hm) by lia.
    destruct (b <? 32) eqn:E; zbool.
    + destruct (b =? m) eqn:Ebm; zbool; simpl.
      * subst b. rewrite Hclear. reflexivity.
      * rewrite orb_false_r, andb_true_r. reflexivity.
    + rewrite (u32_high_bits statev b Hs) by lia. reflexivity.
Qed.

Lemma modifier_press_release_witness :
  update_state (H := headers_sample) 42 true 2 = 3 /\
  update_state (H := headers_sample) 42 false
    (update_state (H := headers_sample) 42 true 2) = 2.
Proof.
  split; [reflexivity|].
  destruct (modifier_press_release (H := headers_sample) 42 2 0 eq_refl
              ltac:(lia) ltac:(lia)) as [_ Hback].
  apply Hback. reflexivity.
Defined.

(** ** Device labels *)

Lemma lookup_devnode_number io i node :
  nodes io !! i = Some node -> Z.of_nat i < n_devs io ->
  0 <= devnum node -> n_devs io <= devnum node ->
  (forall j y, (j < i)%nat -> nodes io !! j = Some y ->
               devnum y <> devnum node) ->
  lookup_devnode io (devnum node) = Some i.
Proof.
  intros Hi Hlt Hpos Hge Hfirst. unfold lookup_devnode.
  destruct (devnum node <? 0) eqn:E0; zbool; [lia|].
  destruct (devnum node <? n_devs io) eqn:E; zbool; [lia|].
  apply (sweep_devnum_find (nodes io) 0 (Z.to_nat (n_devs io))
           (devnum node) i node Hi eq_refl ltac:(lia) Hfirst).
Qed.

(** X21.  [platform_event_devlabel] answers for slot indices only: -1 is
    the pointer, an index below the device count gives the label of the
    node in that slot ("no identifier" for an empty one), and every other
    id gives "no device".  As long as the count is within the device limit
    this holds for the device number that [identify] derives, the id that
    the events of the device carry, although [lookup_devnode] resolves
    it. *)
Theorem devlabel_by_slot_only (io : iodev_t) (pr : devprobe) (dnum : Z)
  (slot : nat) (node : arcan_devnode) :
  identity_of pr = Some dnum ->
  n_devs io <= MAX_DEVICES ->
  nodes io !! slot = Some node ->
  Z.of_nat slot < n_devs io ->
  devnum node = dnum ->
  (forall j y, (j < slot)%nat -> nodes io !! j = Some y -> devnum y <> dnum) ->
  lookup_devnode io dnum = Some slot /\
  platform_event_devlabel io dnum = Some "no device"%string /\
  platform_event_devlabel io (Z.of_nat slot) =
    Some (match label node with
          | EmptyString => "no identifier"%string
          | l => l
          end) /\
  platform_event_devlabel io (-1) = Some "mouse"%string.
Proof.
  intros Hid Hlim Hnode Hslot Hd Hfirst.
  pose proof (identity_of_range pr dnum Hid) as Hr.
  split; [|split; [|split]].
  - subst dnum. unfold MAX_DEVICES in *.
    apply (lookup_devnode_number io slot node Hnode Hslot); [lia | lia |].
    exact Hfirst.
  - unfold platform_event_devlabel. unfold MAX_DEVICES in *.
    destruct (dnum =? -1) eqn:E1; zbool; [lia|].
    destruct (dnum <? 0) eqn:E2; zbool; [lia|].
    destruct (dnum >=? n_devs io) eqn:E3; zbool; [reflexivity | lia].
  - unfold platform_event_devlabel.
    destruct (Z.of_nat slot =? -1) eqn:E1; zbool; [lia|].
    destruct (Z.of_nat slot <? 0) eqn:E2; zbool; [lia|].
    destruct (Z.of_nat slot >=? n_devs io) eqn:E3; zbool; [lia|].
    cbn [orb]. rewrite Nat2Z.id, Hnode. reflexivity.
  - reflexivity.
Qed.

Lemma devlabel_by_slot_only_witness :
  let io := fst (got_device (H := headers_sample) iodev_init 5
                   (pad_probe 4660)) in
  lookup_devnode io 4660 = Some 0%nat /\
  platform_event_devlabel io 4660 = Some "no device"%string /\
  platform_event_devlabel io 0 = Some "pad"%string.
Proof.
  cbv zeta.
  set (io := fst (got_device (H := headers_sample) iodev_init 5
                    (pad_probe 4660))).
  assert (Hio : exists node,
            nodes io !! 0%nat = Some node /\ devnum node = 4660 /\
            label node = "pad"%string /\ n_devs io = 1 /\
            identity_of (pad_probe 4660) = Some 4660).
  { vm_compute. eexists. repeat split. }
  destruct Hio as (node & Hnode & Hd & Hl & Hn & Hid).
  destruct (devlabel_by_slot_only io (pad_probe 4660) 4660 0 node Hid
              ltac:(unfold MAX_DEVICES; lia) Hnode ltac:(lia) Hd)
    as (Hlook & Hnum & Hslot & _).
  - intros j y Hj. lia.
  - rewrite Hl in Hslot. repeat split; assumption.
Defined.

(** ** Key repeat *)

(** X22.  [platform_event_keyrepeat] swaps the period and leaves a delay
    that is not negative alone: with a period [p >= 0] it stores [p],
    returns the period stored before and sends the new setting to every
    keyboard below the device count, so that a second call with the
    returned period restores the registry and returns [p]; the delay is
    neither stored nor reported.  With a negative period (and a delay that
    is not negative) it only reports the stored period. *)
Theorem keyrepeat_swaps_period (io : iodev_t) (p d : Z) :
  0 <= period io < 2147483648 ->
  0 <= p < 2147483648 ->
  0 <= d ->
  let r1 := platform_event_keyrepeat io p d in
  let io1 := fst (fst r1) in
  snd (fst r1) = (period io, d) /\
  period io1 = p /\ delay io1 = delay io /\ nodes io1 = nodes io /\
  snd r1 =
    map (fun node => (handle node, p, wrap32 (delay io)))
      (filter (fun node => is_keyboard node = true)
         (take (Z.to_nat (n_devs io)) (nodes io))) /\
  fst (platform_event_keyrepeat io1 (period io) d) = (io, (p, d)) /\
  (forall q, q < 0 ->
     platform_event_keyrepeat io q d = (io, (period io, d), [])).
Proof.
  intros Hper Hp Hd. cbv zeta. unfold platform_event_keyrepeat.
  destruct (p <? 0) eqn:E1; zbool; [lia|].
  destruct (d <? 0) eqn:E2; zbool; [lia|].
  cbn [fst snd period delay nodes n_devs sz_nodes mouseid pollset].
  destruct (period io <? 0) eqn:E3; zbool; [lia|].
  assert (Hw : forall x, 0 <= x < 2147483648 -> wrap32 x = x).
  { intros x Hx. unfold wrap32. rewrite Z.mod_small by lia. lia. }
  assert (Hu : forall x, 0 <= x < 2147483648 -> u32 x = x).
  { intros x Hx. unfold u32. apply Z.mod_small. lia. }
  rewrite !Hu by lia. rewrite !Hw by lia.
  repeat split.
  - destruct io; reflexivity.
  - intros q Hq. destruct (q <? 0) eqn:E4; zbool; [|lia].
    destruct io; reflexivity.
Qed.

Lemma keyrepeat_swaps_period_witness :
  let io := fst (got_device (H := headers_sample) iodev_init 7
                   (kbd_probe 5000)) in
  snd (platform_event_keyrepeat io 30 0) = [(7, 30, 0)] /\
  snd (fst (platform_event_keyrepeat io 30 0)) = (0, 0).
Proof.
  cbv zeta.
  set (io := fst (got_device (H := headers_sample) iodev_init 7
                    (kbd_probe 5000))).
  assert (Hio : period io = 0 /\ delay io = 0 /\
                map (fun node => (handle node, 30, wrap32 0))
                  (filter (fun node => is_keyboard node = true)
                     (take (Z.to_nat (n_devs io)) (nodes io))) =
                [(7, 30, 0)]).
  { vm_compute. repeat split. }
  destruct Hio as (Hp & Hd & Hlog).
  pose proof (keyrepeat_swaps_period io 30 0 ltac:(rewrite Hp; lia)
                ltac:(lia) ltac:(lia)) as Hall.
  cbv zeta in Hall. destruct Hall as (Hout & _ & _ & _ & Hl & _).
  rewrite Hl, Hout, Hp, Hd. split; [exact Hlog | reflexivity].
Defined.

(** ** Shutdown *)



Lemma deinit_state `{Headers} isatty g io :
  n_devs (snd (fst (platform_event_deinit isatty g io))) = 0 /\
  gs_tty (fst (fst (platform_event_deinit isatty g io))) = STDIN_FILENO /\
  gs_notify (fst (fst (platform_event_deinit isatty g io))) = -1.
Proof.
  unfold platform_event_deinit.
  destruct (deinit_nodes (Z.to_nat (n_devs io)) (nodes io)) as [nodes' log4].
  destruct (isatty && gs_mute g);
    cbn [gs_tty gs_notify gs_kbmode gs_mode gs_leds gs_mute];
    destruct (gs_tty g =? STDIN_FILENO) eqn:Et;
    cbn [gs_tty gs_notify gs_kbmode gs_mode gs_leds gs_mute];
    destruct (gs_notify g =? -1) eqn:En;
    cbn [fst snd gs_tty gs_notify n_devs];
    zbool; repeat split; assumption.
Qed.

(** X24.  A second [platform_event_deinit] does nothing: once a first call
    has run on a terminal that answered as one, or with the mute flag off,
    a further call makes no system call on a descriptor and leaves the
    global state and the registry as they are, whatever [isatty] answers. *)
Theorem deinit_twice `{Headers} (isatty isatty' : bool) (g : gstate_t)
  (io : iodev_t) :
  isatty = true \/ gs_mute g = false ->
  let g1 := fst (fst (platform_event_deinit isatty g io)) in
  let io1 := snd (fst (platform_event_deinit isatty g io)) in
  platform_event_deinit isatty' g1 io1 = (g1, io1, []).
Proof.
  intros Hfirst. cbv zeta.
  destruct (deinit_state isatty g io) as (Hn & Htty & Hnot).
  assert (Hmute :
    gs_mute (fst (fst (platform_event_deinit isatty g io))) = false).
  { unfold platform_event_deinit.
    destruct (deinit_nodes (Z.to_nat (n_devs io)) (nodes io)) as [nodes' log4].
    destruct Hfirst as [-> | Hm].
    - destruct (gs_mute g) eqn:Em; cbn [andb];
        cbn [gs_tty gs_notify gs_kbmode gs_mode gs_leds gs_mute];
        destruct (gs_tty g =? STDIN_FILENO);
        cbn [gs_tty gs_notify gs_kbmode gs_mode gs_leds gs_mute];
        destruct (gs_notify g =? -1);
        cbn [fst snd gs_mute]; try reflexivity; exact Em.
    - rewrite Hm, andb_false_r.
      destruct (gs_tty g =? STDIN_FILENO);
        cbn [gs_tty gs_notify gs_kbmode gs_mode gs_leds gs_mute];
        destruct (gs_notify g =? -1);
        cbn [fst snd gs_mute]; exact Hm. }
  set (g1 := fst (fst (platform_event_deinit isatty g io))) in *.
  set (io1 := snd (fst (platform_event_deinit isatty g io))) in *.
  clearbody g1 io1.
  unfold platform_event_deinit.
  rewrite Hmute, andb_false_r. cbv beta iota zeta.
  rewrite Htty. change (STDIN_FILENO =? STDIN_FILENO) with true.
  cbv beta iota zeta.
  rewrite Hnot. change (-1 =? -1) with true. cbv beta iota zeta.
  rewrite Hn. change (Z.to_nat 0) with 0%nat.
  assert (Hd : deinit_nodes 0 (nodes io1) = (nodes io1, []))
    by (destruct (nodes io1); reflexivity).
  rewrite Hd. cbv beta iota zeta. cbn [app].
  destruct io1. cbn in *. subst. reflexivity.
Qed.

Lemma deinit_twice_witness :
  let g := mk_gstate K_OFF 1 5 true 4 9 in
  let io := fst (got_device (H := headers_sample) iodev_init 7
                   (kbd_probe 5000)) in
  let r := platform_event_deinit (H := headers_sample) true g io in
  snd r =
    [sys_ioctl 4 KDSKBMUTE 0; sys_ioctl 4 KDSETMODE KD_TEXT;
     sys_ioctl 4 KDSKBMODE K_XLATE; sys_ioctl 4 KDSETLED 5;
     sys_close 4; sys_close 9; sys_close 7] /\
  platform_event_deinit (H := headers_sample) false (fst (fst r)) (snd (fst r))
    = (fst (fst r), snd (fst r), []).
Proof.
  cbv zeta. split.
  - vm_compute. reflexivity.
  - apply (deinit_twice (H := headers_sample) true false).
    left. reflexivity.
Defined.

(** ** Derived device numbers *)

(** X25.  [identify] always answers with a label ("unknown" when the name
    query fails) and a device number in 256..65535: the 16-bit cut of the
    hash, raised by 256 when that is below 256.  Two devices whose hashes
    cut to [x < 256] and to [x + 256] therefore get the same number.  When
    the id query fails nothing is answered. *)
Theorem identify_folds_low_numbers (pr : devprobe) (h : Z) :
  pr_hash pr = Some h ->
  (exists d,
     identify pr = Some (default "unknown"%string (pr_name pr), d) /\
     MAX_DEVICES <= d <= 65535 /\
     d = (if u16 h <? MAX_DEVICES then u16 h + MAX_DEVICES else u16 h)) /\
  (forall pr' h',
     pr_hash pr' = Some h' -> u16 h < MAX_DEVICES ->
     u16 h' = u16 h + MAX_DEVICES ->
     identity_of pr' = identity_of pr) /\
  (forall pr', pr_hash pr' = None -> identify pr' = None).
Proof.
  intros Hh.
  assert (Hu : 0 <= u16 h < 65536) by (unfold u16; apply Z.mod_pos_bound; lia).
  split; [|split].
  - unfold identify. rewrite Hh. cbv zeta. eexists. split; [reflexivity|].
    unfold MAX_DEVICES in *.
    destruct (u16 h <? 256) eqn:E; zbool.
    + assert (Hm : u16 (u16 h + 256) = u16 h + 256)
        by (unfold u16 at 1; apply Z.mod_small; lia).
      rewrite Hm. split; [lia | reflexivity].
    + split; [lia | reflexivity].
  - intros pr' h' Hh' Hlow Heq. unfold identity_of, identify.
    rewrite Hh, Hh'. cbv zeta. simpl. f_equal. rewrite Heq.
    unfold MAX_DEVICES in *.
    destruct (u16 h <? 256) eqn:E; zbool; [|lia].
    destruct (u16 h + 256 <? 256) eqn:E'; zbool; [lia|].
    f_equal. symmetry. unfold u16 at 1. apply Z.mod_small. lia.
  - intros pr' Hn. unfold identify. rewrite Hn. reflexivity.
Qed.

Lemma identify_folds_low_numbers_witness :
  identity_of (pad_probe 7) = Some 263 /\
  identity_of (mouse_probe 263) = identity_of (pad_probe 7).
Proof.
  destruct (identify_folds_low_numbers (pad_probe 7) 7 eq_refl)
    as (_ & Hsame & _).
  split; [reflexivity|].
  apply (Hsame (mouse_probe 263) 263); reflexivity.
Defined.

(** ** Hat records of a game device *)

(** X26.  With [digital_hat] set, an axis record with a hat code (ABS_HAT0X
    to ABS_HAT3Y) that is not masked goes to the hat decoder: it yields at
    most two events, all of them digital with the device number of the node
    and a sub-id in 64..79, and neither the axis count nor a filter of the
    node is touched. *)
Theorem hat_records_stay_digital (node : arcan_devnode) (code v : Z) :
  digital_hat (hnd node) = true ->
  masked (axis_mask (hnd node)) code = false ->
  ABS_HAT0X <= code <= ABS_HAT3Y ->
  length (game_hats node) = 16%nat ->
  let r := game_record node (mk_input_event EV_ABS code v) in
  game_adata (fst r) = game_adata node /\
  game_axes (fst r) = game_axes node /\
  (length (snd r) <= 2)%nat /\
  Forall
    (fun e => exists s a,
       e = gev_digital (ev_digital (devnum node) s a) /\ 64 <= s <= 79)
    (snd r).
Proof.
  intros Hdh Hmask Hcode Hlen. cbv zeta.
  unfold game_record. cbn [ie_type ie_code ie_value].
  change (EV_ABS =? EV_KEY) with false. change (EV_ABS =? EV_ABS) with true.
  cbv iota. rewrite Hmask, Hdh.
  unfold ABS_HAT0X, ABS_HAT3Y in *.
  destruct (code >=? 16) eqn:E1; zbool; [|lia].
  destruct (code <=? 23) eqn:E2; zbool; [|lia].
  cbn [andb].
  assert (Hind : 0 <= code - 16 <= 7) by lia.
  destruct (Z.eq_dec v 0) as [->|Hv].
  - destruct (decode_hat_center node (code - 16) Hind Hlen) as (_ & _ & Hev).
    assert (Hkeep : game_adata (fst (decode_hat node (code - 16) 0)) =
                      game_adata node /\
                    game_axes (fst (decode_hat node (code - 16) 0)) =
                      game_axes node).
    { unfold decode_hat. cbn [Z.ltb Z.gtb Z.compare orb].
      repeat match goal with
             | |- context [if ?c then _ else _] => destruct c
             end; split; reflexivity. }
    destruct (decode_hat node (code - 16) 0) as [n1 evs]. cbn [fst snd] in *.
    destruct Hkeep as [Ha Hx]. subst evs.
    split; [exact Ha|]. split; [exact Hx|].
    destruct (nth (Z.to_nat ((code - 16) * 2)) (game_hats node) 0 =? 0);
      destruct (nth (Z.to_nat ((code - 16) * 2 + 1)) (game_hats node) 0 =? 0);
      cbn [app map length]; (split; [lia|]);
      repeat (apply Forall_cons_2;
              [do 2 eexists; split; [reflexivity | lia]|]);
      apply Forall_nil_2.
  - pose proof (decode_hat_direction node (code - 16) v Hind Hlen Hv) as Hdir.
    cbv zeta in Hdir. destruct Hdir as [_ Hev].
    assert (Hkeep : game_adata (fst (decode_hat node (code - 16) v)) =
                      game_adata node /\
                    game_axes (fst (decode_hat node (code - 16) v)) =
                      game_axes node).
    { unfold decode_hat.
      destruct ((v <? 0) || (v >? 0)) eqn:E; [split; reflexivity|].
      apply orb_false_iff in E as [Ea Eb]. zbool. lia. }
    destruct (decode_hat node (code - 16) v) as [n1 evs]. cbn [fst snd] in *.
    destruct Hkeep as [Ha Hx]. subst evs.
    split; [exact Ha|]. split; [exact Hx|].
    cbn [map length]. split; [lia|].
    apply Forall_cons_2; [|apply Forall_nil_2].
    do 2 eexists. split; [reflexivity|].
    destruct (v >? 0); lia.
Qed.

Lemma hat_records_stay_digital_witness :
  let node := set_hnd (mk_evhandler DEVNODE_GAME None 0 0 true) pad_node in
  snd (game_record node (mk_input_event EV_ABS ABS_HAT0X 1)) =
    [gev_digital (ev_digital (devnum node) 65 true)] /\
  game_adata (fst (game_record node (mk_input_event EV_ABS ABS_HAT0X 1))) =
    game_adata node.
Proof.
  cbv zeta.
  set (node := set_hnd (mk_evhandler DEVNODE_GAME None 0 0 true) pad_node).
  pose proof (hat_records_stay_digital node ABS_HAT0X 1 eq_refl eq_refl
                ltac:(unfold ABS_HAT0X, ABS_HAT3Y; lia) eq_refl) as Hall.
  cbv zeta in Hall. destruct Hall as (Hkeep & _).
  split; [vm_compute; reflexivity | exact Hkeep].
Defined.
